(** * go-webfinger: a shallow embedding of the WebFinger client

    The Go package [webfinger] (client.go) is embedded together with the
    parts of the Go standard library it calls: [strings] (Index, Cut,
    SplitN, ...) and [net/url] (Parse, URL.String, Values.Encode), the
    latter as of Go 1.19 - 1.22.  Go strings are byte sequences; they are
    modelled as [string], whose characters are 8-bit [ascii] values. *)

From Stdlib Require Import Ascii String List ZArith NArith Lia Bool.
From stdpp Require Import base option list strings gmap sorting.
From Equations Require Import Equations.

Set Default Proof Using "Type".
Arguments String.append : simpl nomatch.

(** ** Bytes *)

Definition ord (c : ascii) : N := N_of_ascii c.

(** [lo <= c && c <= hi] on bytes. *)
Definition inRange (lo hi c : ascii) : bool :=
  (ord lo <=? ord c)%N && (ord c <=? ord hi)%N.

(** [c] is one of the bytes of [set] (a Go [switch c { case ... }]). *)
Fixpoint oneOf (c : ascii) (set : string) : bool :=
  match set with
  | EmptyString => false
  | String a set' => Ascii.eqb c a || oneOf c set'
  end.

Fixpoint allBytes (p : ascii -> bool) (s : string) : bool :=
  match s with
  | EmptyString => true
  | String c s' => p c && allBytes p s'
  end.

Definition isEmpty (s : string) : bool :=
  match s with EmptyString => true | _ => false end.

(** The double quote, which a literal cannot hold. *)
Definition dquote : ascii := "034"%char.

(** ** Package [strings] *)

Module strings.

Definition len := String.length.

(** [s[:n]] and [s[n:]] *)
Fixpoint take (n : nat) (s : string) : string :=
  match n, s with
  | S n', String c s' => String c (take n' s')
  | _, _ => EmptyString
  end.

Fixpoint drop (n : nat) (s : string) : string :=
  match n, s with
  | S n', String _ s' => drop n' s'
  | _, _ => s
  end.

Fixpoint HasPrefix (s prefix : string) {struct prefix} : bool :=
  match prefix, s with
  | EmptyString, _ => true
  | String a p', String b s' => Ascii.eqb a b && HasPrefix s' p'
  | String _ _, EmptyString => false
  end.

Definition HasSuffix (s suffix : string) : bool :=
  (len suffix <=? len s) && String.eqb (drop (len s - len suffix) s) suffix.

(** Index of the first instance of [sep] in [s]; [None] is Go's -1. *)
Fixpoint Index (s sep : string) : option nat :=
  if HasPrefix s sep then Some 0
  else match s with
       | EmptyString => None
       | String _ s' => S <$> Index s' sep
       end.

(** Index of the last instance of [sep] in [s]. *)
Fixpoint LastIndex (s sep : string) : option nat :=
  match s with
  | EmptyString => if HasPrefix s sep then Some 0 else None
  | String _ s' =>
      match LastIndex s' sep with
      | Some i => Some (S i)
      | None => if HasPrefix s sep then Some 0 else None
      end
  end.

Definition Contains (s substr : string) : bool :=
  bool_decide (is_Some (Index s substr)).

(** Number of non-overlapping instances of a non-empty [sep].  [skip]
    counts the bytes of the instance just found that are still to be
    stepped over. *)
Fixpoint countFrom (skip : nat) (s sep : string) : nat :=
  match s with
  | EmptyString => 0
  | String _ s' =>
      match skip with
      | S k => countFrom k s' sep
      | O => if HasPrefix s sep then S (countFrom (len sep - 1) s' sep)
             else countFrom 0 s' sep
      end
  end.

Definition Count (s sep : string) : nat := countFrom 0 s sep.

(** [before, after, found := strings.Cut(s, sep)] *)
Definition Cut (s sep : string) : string * string * bool :=
  match Index s sep with
  | Some i => (take i s, drop (i + len sep) s, true)
  | None => (s, EmptyString, false)
  end.

(** The loop of [genSplit]: at most [n] cuts, then the remainder. *)
Fixpoint splitLoop (n : nat) (s sep : string) : list string :=
  match n with
  | O => [s]
  | S n' =>
      match Index s sep with
      | None => [s]
      | Some m => take m s :: splitLoop n' (drop (m + len sep) s) sep
      end
  end.

(** [strings.SplitN(s, sep, n)] for [n >= 0] and a non-empty [sep]
    (the package only ever splits on ["@"]). *)
Definition SplitN (s sep : string) (n : nat) : list string :=
  match n with
  | O => []
  | S _ => splitLoop (Nat.min n (len s + 1) - 1) s sep
  end.

Definition lowerByte (c : ascii) : ascii :=
  if inRange "A" "Z" c then ascii_of_N (ord c + 32) else c.

(** [strings.ToLower] on ASCII text; bytes from 0x80 up are kept. *)
Fixpoint ToLower (s : string) : string :=
  match s with
  | EmptyString => EmptyString
  | String c s' => String (lowerByte c) (ToLower s')
  end.

(** [strings.Join] *)
Fixpoint Join (elems : list string) (sep : string) : string :=
  match elems with
  | [] => EmptyString
  | [x] => x
  | x :: rest => x +:+ sep +:+ Join rest sep
  end.

End strings.

Import strings.

(** ** Errors and results *)

(** The errors of [net/url]: [EscapeError], [InvalidHostError] and plain
    [errors.New] texts. *)
Inductive urlError :=
| EscapeError (s : string)
| InvalidHostError (s : string)
| ErrText (text : string).

(** The [error] values that travel through the package.  An error of the
    HTTP collaborator is identified with its [Error()] text. *)
Inductive error :=
| url_Error (op url : string) (err : urlError)   (* &url.Error{Op, URL, Err} *)
| MustBeAbsolute (rawurl : string)
    (* fmt.Errorf("URL must be absolute, or an email address: %v", rawurl) *)
| TransportError (text : string)                 (* from c.client.Get *)
| StatusError (status : string)                  (* errors.New(res.Status) *)
| ReadError (text : string)                      (* from ioutil.ReadAll *)
| DecodeError (text : string).                   (* from json.Unmarshal *)

Abbreviation Ok := inl (only parsing).
Abbreviation Err := inr (only parsing).

Definition bindE {A B E} (m : A + E) (k : A -> B + E) : B + E :=
  match m with
  | inl a => k a
  | inr e => inr e
  end.

Notation "'let*' p := m 'in' k" := (bindE m (fun p => k))
  (at level 10, p pattern, m at level 100, k at level 200).

Definition isOk {A E} (m : A + E) : bool :=
  match m with inl _ => true | inr _ => false end.

(** ** Package [net/url] *)

Module url.

Inductive encoding :=
| encodePath
| encodePathSegment
| encodeHost
| encodeZone
| encodeUserPassword
| encodeQueryComponent
| encodeFragment.

Definition isHostMode (mode : encoding) : bool :=
  match mode with encodeHost | encodeZone => true | _ => false end.

Definition ishex (c : ascii) : bool :=
  inRange "0" "9" c || inRange "a" "f" c || inRange "A" "F" c.

Definition unhex (c : ascii) : N :=
  if inRange "0" "9" c then (ord c - ord "0")%N
  else if inRange "a" "f" c then (ord c - ord "a" + 10)%N
  else if inRange "A" "F" c then (ord c - ord "A" + 10)%N
  else 0%N.

(** ["0123456789ABCDEF"[n]] *)
Definition upperhex (n : N) : ascii :=
  if (n <? 10)%N then ascii_of_N (ord "0" + n)
  else ascii_of_N (ord "A" + (n - 10)).

Definition isAlnum (c : ascii) : bool :=
  inRange "a" "z" c || inRange "A" "Z" c || inRange "0" "9" c.

(** Whether [c] must be percent-escaped when it appears in the part of
    a URL that [mode] names. *)
Definition shouldEscape (c : ascii) (mode : encoding) : bool :=
  if isAlnum c then false
  else if isHostMode mode && (oneOf c "!$&'()*+,;=:[]<>" || Ascii.eqb c dquote)
  then false
  else if oneOf c "-_.~" then false
  else if oneOf c "$&+,/:;=?@" then
    match mode with
    | encodePath => Ascii.eqb c "?"
    | encodePathSegment => oneOf c "/;,?"
    | encodeUserPassword => oneOf c "@/?:"
    | encodeQueryComponent => true
    | encodeFragment => false
    | encodeHost | encodeZone => true
    end
  else if match mode with encodeFragment => oneOf c "!()*" | _ => false end
  then false
  else true.

(** The byte [unhex(h1)<<4 | unhex(h2)]. *)
Definition hexByte (h1 h2 : ascii) : ascii :=
  ascii_of_N (unhex h1 * 16 + unhex h2).

(** [unescape]: Go first scans [s] for malformed escapes and then
    builds the result; both passes run left to right, so one pass that
    reports the first malformed place returns the same. *)
Fixpoint unescape (s : string) (mode : encoding) : string + urlError :=
  match s with
  | EmptyString => Ok EmptyString
  | String c s' =>
      if Ascii.eqb c "%" then
        match s' with
        | String h1 (String h2 s'') =>
            if negb (ishex h1 && ishex h2) then Err (EscapeError (take 3 s))
            else if match mode with encodeHost => true | _ => false end
                    && (unhex h1 <? 8)%N
                    && negb (String.eqb (take 3 s) "%25")
            then Err (EscapeError (take 3 s))
            else if match mode with encodeZone => true | _ => false end
                    && negb (String.eqb (take 3 s) "%25")
                    && negb (Ascii.eqb (hexByte h1 h2) " ")
                    && shouldEscape (hexByte h1 h2) encodeHost
            then Err (EscapeError (take 3 s))
            else
              let* t := unescape s'' mode in
              Ok (String (hexByte h1 h2) t)
        | _ => Err (EscapeError (take 3 s))
        end
      else if Ascii.eqb c "+" then
        let* t := unescape s' mode in
        Ok (String (match mode with
                    | encodeQueryComponent => " "%char
                    | _ => "+"%char
                    end) t)
      else if isHostMode mode && (ord c <? 128)%N && shouldEscape c encodeHost
      then Err (InvalidHostError (String c EmptyString))
      else
        let* t := unescape s' mode in
        Ok (String c t)
  end.

Definition pctEncode (c : ascii) : string :=
  String "%" (String (upperhex (ord c / 16))
                (String (upperhex (ord c mod 16)) EmptyString)).

(** What [escape] writes for one byte. *)
Definition escapeByte (c : ascii) (mode : encoding) : string :=
  if Ascii.eqb c " "
     && match mode with encodeQueryComponent => true | _ => false end
  then "+"
  else if shouldEscape c mode then pctEncode c
  else String c EmptyString.

Fixpoint escape (s : string) (mode : encoding) : string :=
  match s with
  | EmptyString => EmptyString
  | String c s' => escapeByte c mode +:+ escape s' mode
  end.

Definition QueryEscape (s : string) : string := escape s encodeQueryComponent.

(** [validEncoded] reports whether [s] is a valid encoded path or
    fragment, according to [mode]. *)
Definition validEncoded (s : string) (mode : encoding) : bool :=
  allBytes (fun c => oneOf c "!$&'()*+,;=:@[]%" || negb (shouldEscape c mode)) s.

Definition validUserinfo (s : string) : bool :=
  allBytes (fun c => isAlnum c || oneOf c "-._:~!$&'()*+,;=%@") s.

Definition validOptionalPort (port : string) : bool :=
  match port with
  | EmptyString => true
  | String c digits => Ascii.eqb c ":" && allBytes (inRange "0" "9") digits
  end.

Definition stringContainsCTLByte (s : string) : bool :=
  negb (allBytes (fun b => negb ((ord b <? 32)%N || (ord b =? 127)%N)) s).

(** [getScheme]: [i] is the loop index and [s] is [rawURL[i:]]. *)
Fixpoint getSchemeLoop (i : nat) (s rawURL : string)
  : (string * string) + urlError :=
  match s with
  | EmptyString => Ok (EmptyString, rawURL)
  | String c s' =>
      if inRange "a" "z" c || inRange "A" "Z" c then
        getSchemeLoop (S i) s' rawURL
      else if inRange "0" "9" c || oneOf c "+-." then
        if (i =? 0)%nat then Ok (EmptyString, rawURL)
        else getSchemeLoop (S i) s' rawURL
      else if Ascii.eqb c ":" then
        if (i =? 0)%nat then Err (ErrText "missing protocol scheme")
        else Ok (take i rawURL, drop (i + 1) rawURL)
      else Ok (EmptyString, rawURL)
  end.

Definition getScheme (rawURL : string) : (string * string) + urlError :=
  getSchemeLoop 0 rawURL rawURL.

Record Userinfo := {
  username : string;
  password : string;
  passwordSet : bool
}.

Definition User (username : string) : Userinfo :=
  {| username := username; password := EmptyString; passwordSet := false |}.

Definition UserPassword (username password : string) : Userinfo :=
  {| username := username; password := password; passwordSet := true |}.

Definition Userinfo_String (u : Userinfo) : string :=
  escape (username u) encodeUserPassword
  +:+ (if passwordSet u
       then ":" +:+ escape (password u) encodeUserPassword
       else EmptyString).

Record URL := {
  Scheme : string;
  Opaque : string;
  User_ : option Userinfo;
  Host : string;
  Path : string;
  RawPath : string;
  OmitHost : bool;
  ForceQuery : bool;
  RawQuery : string;
  Fragment : string;
  RawFragment : string
}.

(** [parseHost] *)
Definition parseHost (host : string) : string + urlError :=
  let general := unescape host encodeHost in
  if HasPrefix host "[" then
    match LastIndex host "]" with
    | None => Err (ErrText "missing ']' in host")
    | Some i =>
        let colonPort := drop (i + 1) host in
        if negb (validOptionalPort colonPort)
        then Err (ErrText "invalid port after host")
        else
          match Index (take i host) "%25" with
          | Some zone =>
              let* host1 := unescape (take zone host) encodeHost in
              let* host2 := unescape (drop zone (take i host)) encodeZone in
              let* host3 := unescape (drop i host) encodeHost in
              Ok (host1 +:+ host2 +:+ host3)
          | None => general
          end
    end
  else
    match LastIndex host ":" with
    | Some i =>
        if negb (validOptionalPort (drop i host))
        then Err (ErrText "invalid port after host")
        else general
    | None => general
    end.

(** [parseAuthority] *)
Definition parseAuthority (authority : string)
  : (option Userinfo * string) + urlError :=
  let i := LastIndex authority "@" in
  let* host := match i with
               | None => parseHost authority
               | Some i => parseHost (drop (i + 1) authority)
               end in
  match i with
  | None => Ok (None, host)
  | Some i =>
      let userinfo := take i authority in
      if negb (validUserinfo userinfo)
      then Err (ErrText "net/url: invalid userinfo")
      else if negb (Contains userinfo ":") then
        let* userinfo := unescape userinfo encodeUserPassword in
        Ok (Some (User userinfo), host)
      else
        let '(username, password, _) := Cut userinfo ":" in
        let* username := unescape username encodeUserPassword in
        let* password := unescape password encodeUserPassword in
        Ok (Some (UserPassword username password), host)
  end.

(** [setPath] returns the pair [(Path, RawPath)] it stores. *)
Definition setPath (p : string) : (string * string) + urlError :=
  let* path := unescape p encodePath in
  if String.eqb p (escape path encodePath)
  then Ok (path, EmptyString)
  else Ok (path, p).

(** [setFragment] returns the pair [(Fragment, RawFragment)]. *)
Definition setFragment (f : string) : (string * string) + urlError :=
  let* frag := unescape f encodeFragment in
  if String.eqb f (escape frag encodeFragment)
  then Ok (frag, EmptyString)
  else Ok (frag, f).

Definition zeroURL : URL :=
  {| Scheme := EmptyString; Opaque := EmptyString; User_ := None;
     Host := EmptyString; Path := EmptyString; RawPath := EmptyString;
     OmitHost := false; ForceQuery := false; RawQuery := EmptyString;
     Fragment := EmptyString; RawFragment := EmptyString |}.

(** The step of [parse] that takes the query off [rest]: a lone trailing
    ["?"] sets [ForceQuery], otherwise [rest] is cut at the first
    ["?"].  The result is [(rest, ForceQuery, RawQuery)]. *)
Definition splitQuery (rest : string) : string * bool * string :=
  if HasSuffix rest "?" && (Count rest "?" =? 1)%nat
  then (take (len rest - 1) rest, true, EmptyString)
  else let '(r, q, _) := Cut rest "?" in (r, false, q).

(** [parse]; [url.Parse] calls it with [viaRequest = false]. *)
Definition parse (rawURL : string) (viaRequest : bool) : URL + urlError :=
  if stringContainsCTLByte rawURL
  then Err (ErrText "net/url: invalid control character in URL")
  else if isEmpty rawURL && viaRequest then Err (ErrText "empty url")
  else if String.eqb rawURL "*" then
    Ok {| Scheme := EmptyString; Opaque := EmptyString; User_ := None;
          Host := EmptyString; Path := "*"; RawPath := EmptyString;
          OmitHost := false; ForceQuery := false; RawQuery := EmptyString;
          Fragment := EmptyString; RawFragment := EmptyString |}
  else
    let* (scheme0, rest) := getScheme rawURL in
    let scheme := ToLower scheme0 in
    let '(rest, forceQuery, rawQuery) := splitQuery rest in
    if negb (HasPrefix rest "/") && negb (isEmpty scheme) then
      (* rootless paths are opaque *)
      Ok {| Scheme := scheme; Opaque := rest; User_ := None;
            Host := EmptyString; Path := EmptyString; RawPath := EmptyString;
            OmitHost := false; ForceQuery := forceQuery; RawQuery := rawQuery;
            Fragment := EmptyString; RawFragment := EmptyString |}
    else if negb (HasPrefix rest "/") && viaRequest
    then Err (ErrText "invalid URI for request")
    else if negb (HasPrefix rest "/")
            && Contains (Cut rest "/").1.1 ":"
    then Err (ErrText "first path segment in URL cannot contain colon")
    else
      let* (user, host, rest, omitHost) :=
        if (negb (isEmpty scheme)
            || negb viaRequest && negb (HasPrefix rest "///"))
           && HasPrefix rest "//"
        then
          let authority := drop 2 rest in
          let '(authority, rest) :=
            match Index authority "/" with
            | Some i => (take i authority, drop i authority)
            | None => (authority, EmptyString)
            end in
          let* (user, host) := parseAuthority authority in
          Ok (user, host, rest, false)
        else if negb (isEmpty scheme) && HasPrefix rest "/"
        then Ok (None, EmptyString, rest, true)
        else Ok (None, EmptyString, rest, false) in
      let* (path, rawPath) := setPath rest in
      Ok {| Scheme := scheme; Opaque := EmptyString; User_ := user;
            Host := host; Path := path; RawPath := rawPath;
            OmitHost := omitHost; ForceQuery := forceQuery;
            RawQuery := rawQuery;
            Fragment := EmptyString; RawFragment := EmptyString |}.

Definition withFragment (u : URL) (frag rawFrag : string) : URL :=
  {| Scheme := Scheme u; Opaque := Opaque u; User_ := User_ u;
     Host := Host u; Path := Path u; RawPath := RawPath u;
     OmitHost := OmitHost u; ForceQuery := ForceQuery u;
     RawQuery := RawQuery u;
     Fragment := frag; RawFragment := rawFrag |}.

(** [url.Parse] *)
Definition Parse (rawURL : string) : URL + error :=
  let '(u, frag, _) := Cut rawURL "#" in
  match parse u false with
  | inr e => Err (url_Error "parse" u e)
  | inl url =>
      if isEmpty frag then Ok url
      else match setFragment frag with
           | inr e => Err (url_Error "parse" rawURL e)
           | inl (f, rf) => Ok (withFragment url f rf)
           end
  end.

Definition EscapedPath (u : URL) : string :=
  if negb (isEmpty (RawPath u)) && validEncoded (RawPath u) encodePath
     && match unescape (RawPath u) encodePath with
        | inl p => String.eqb p (Path u)
        | inr _ => false
        end
  then RawPath u
  else if String.eqb (Path u) "*" then "*"
  else escape (Path u) encodePath.

Definition EscapedFragment (u : URL) : string :=
  if negb (isEmpty (RawFragment u)) && validEncoded (RawFragment u) encodeFragment
     && match unescape (RawFragment u) encodeFragment with
        | inl f => String.eqb f (Fragment u)
        | inr _ => false
        end
  then RawFragment u
  else escape (Fragment u) encodeFragment.

(** [URL.String]; [buf] is the [strings.Builder]. *)
Definition String_ (u : URL) : string :=
  let buf := if isEmpty (Scheme u) then EmptyString else Scheme u +:+ ":" in
  let buf :=
    if negb (isEmpty (Opaque u)) then buf +:+ Opaque u
    else
      let buf :=
        if negb (isEmpty (Scheme u)) || negb (isEmpty (Host u))
           || bool_decide (is_Some (User_ u))
        then
          if OmitHost u && isEmpty (Host u) && bool_decide (User_ u = None)
          then buf
          else
            let buf :=
              if negb (isEmpty (Host u)) || negb (isEmpty (Path u))
                 || bool_decide (is_Some (User_ u))
              then buf +:+ "//" else buf in
            let buf :=
              match User_ u with
              | Some ui => buf +:+ Userinfo_String ui +:+ "@"
              | None => buf
              end in
            if negb (isEmpty (Host u))
            then buf +:+ escape (Host u) encodeHost else buf
        else buf in
      let path := EscapedPath u in
      let buf :=
        if negb (isEmpty path) && negb (HasPrefix path "/")
           && negb (isEmpty (Host u))
        then buf +:+ "/" else buf in
      let buf :=
        if isEmpty buf && Contains (Cut path "/").1.1 ":"
        then buf +:+ "./" else buf in
      buf +:+ path in
  let buf :=
    if ForceQuery u || negb (isEmpty (RawQuery u))
    then buf +:+ "?" +:+ RawQuery u else buf in
  if negb (isEmpty (Fragment u))
  then buf +:+ "#" +:+ EscapedFragment u else buf.

(** [url.Values] is [map[string][]string]. *)
Abbreviation Values := (gmap string (list string)).

(** [Values.Encode]: the keys sorted, each value as [key=value]. *)
Definition Encode (v : Values) : string :=
  let keys := merge_sort String.le (map_to_list v).*1 in
  Join (flat_map (fun k =>
          map (fun x => QueryEscape k +:+ "=" +:+ QueryEscape x)
              (default [] (v !! k))) keys) "&".

(** [QueryUnescape] *)
Definition QueryUnescape (s : string) : string + urlError :=
  unescape s encodeQueryComponent.

(** [parseQuery]: the loop [for query != ""], which takes one
    [key=value] off the query at each turn; [m] is the map filled so
    far and [err] the error to return, if any. *)
Equations? parseQuery (m : Values) (err : option urlError) (query : string)
  : Values * option urlError by wf (len query) lt :=
  parseQuery m err EmptyString := (m, err);
  parseQuery m err (String c q) :=
    let key := (Cut (String c q) "&").1.1 in
    let query := (Cut (String c q) "&").1.2 in
    if Contains key ";"
    then parseQuery m (Some (ErrText "invalid semicolon separator in query"))
                    query
    else if isEmpty key then parseQuery m err query
    else
      let value := (Cut key "=").1.2 in
      match QueryUnescape (Cut key "=").1.1 with
      | inr err1 =>
          parseQuery m (match err with None => Some err1 | _ => err end) query
      | inl key =>
          match QueryUnescape value with
          | inr err1 =>
              parseQuery m (match err with None => Some err1 | _ => err end)
                         query
          | inl value =>
              parseQuery (<[key := default [] (m !! key) ++ [value]]> m)
                         err query
          end
      end.
Proof.
  all: clear; subst query; unfold Cut;
    destruct (Index (String c q) "&") as [i|]; cbn [fst snd];
    [|simpl; lia];
    assert (Hd : forall n s, len (drop n s) = len s - n)
      by (intros n; induction n; intros [|? ?]; simpl; auto);
    rewrite Hd; simpl; lia.
Qed.

(** [ParseQuery] returns the map together with the first error. *)
Definition ParseQuery (query : string) : Values * option urlError :=
  parseQuery ∅ None query.

(** [Values.Get]: the first value of the key, or the empty string. *)
Definition Get (v : Values) (key : string) : string :=
  match v !! key with
  | Some (x :: _) => x
  | _ => EmptyString
  end.


(** *** Classes of bytes and of modes, for the round trip of a URL *)

(** The modes in which every byte survives escaping and unescaping. *)
Definition plainMode (mode : encoding) : bool :=
  match mode with
  | encodePath | encodeUserPassword | encodeFragment => true
  | _ => false
  end.

(** A byte that a host keeps through [escape] and [unescape]: one that
    needs no escape in a host, a byte from 0x80 up, or ["%"]. *)
Definition hostByte (c : ascii) : bool :=
  negb (shouldEscape c encodeHost) || (128 <=? ord c)%N || Ascii.eqb c "%".

(** The same for a zone, whose escapes are decoded in the zone mode: a
    byte that needs no escape in a host, ["%"] or a space. *)
Definition zoneByte (c : ascii) : bool :=
  negb (shouldEscape c encodeHost) || Ascii.eqb c "%" || Ascii.eqb c " ".

Definition isASCII (c : ascii) : bool := (ord c <? 128)%N.

Definition isCTL (b : ascii) : bool := (ord b <? 32)%N || (ord b =? 127)%N.

(** No byte that separates the parts of a URL, and no control byte,
    comes out of [escape] in the modes of a host and of userinfo. *)
Definition authByte (c : ascii) : bool :=
  negb (oneOf c "#?/@") && negb (isCTL c).

(** The bytes of escaped userinfo, all of which [validUserinfo] admits. *)
Definition userinfoByte (c : ascii) : bool :=
  negb (oneOf c "#?/@:") && negb (isCTL c)
  && (isAlnum c || oneOf c "-._:~!$&'()*+,;=%@").

(** The bytes of an escaped path: none ends the path or the URL. *)
Definition pathByte (c : ascii) : bool :=
  negb (oneOf c "#?") && negb (isCTL c).

(** A byte that needs no escape in a host. *)
Definition hostPlain (c : ascii) : bool := negb (shouldEscape c encodeHost).

Definition isDigit (c : ascii) : bool := inRange "0" "9" c.

(** The shapes of a host that [parseHost] accepts. *)
Inductive hostShape : string -> Prop :=
| shape_zone a z port :
    HasPrefix a "[" = true -> Index (a +:+ z) "%25" = Some (len a) ->
    validOptionalPort port = true ->
    hostShape (a +:+ z +:+ String "]" port)
| shape_literal a port :
    HasPrefix a "[" = true -> Index a "%25" = None ->
    validOptionalPort port = true ->
    hostShape (a +:+ String "]" port)
| shape_port a digits :
    HasPrefix (a +:+ String ":" digits) "[" = false ->
    allBytes (inRange "0" "9") digits = true ->
    hostShape (a +:+ String ":" digits)
| shape_name h :
    HasPrefix h "[" = false -> oneOf ":" h = false -> hostShape h.

(** The zone of a decoded host: what starts at its first ["%"].  In
    the host that [parseHost] returns for an IP literal the bytes
    before the zone hold no ["%"], and after the zone come only ["]"]
    and the port. *)
Fixpoint hostZone (host : string) : string :=
  match host with
  | EmptyString => EmptyString
  | String c rest => if Ascii.eqb c "%" then host else hostZone rest
  end.

(** A host for which the round trip is claimed: not an IP literal
    whose zone holds a byte from 0x80 up. *)
Definition zoneOK (host : string) : bool :=
  negb (HasPrefix host "[") || allBytes isASCII (hostZone host).

(** What an escape in a host decodes to: a byte from 0x80 up or ["%"]. *)
Definition pctDecoded (v : ascii) : bool :=
  (128 <=? ord v)%N || Ascii.eqb v "%".

(** *** A URL with a host, and its text in parts *)

(** [User] leaves the password empty. *)
Definition userOK (user : option Userinfo) : Prop :=
  forall ui, user = Some ui -> passwordSet ui = false -> password ui = EmptyString.

(** The authority that [String] writes. *)
Definition authText (user : option Userinfo) (host : string) : string :=
  match user with
  | Some ui => Userinfo_String ui +:+ "@"
  | None => EmptyString
  end +:+ escape host encodeHost.

Definition queryText (u : URL) : string :=
  if ForceQuery u || negb (isEmpty (RawQuery u))
  then "?" +:+ RawQuery u else EmptyString.

Definition fragText (u : URL) : string :=
  if negb (isEmpty (Fragment u))
  then "#" +:+ EscapedFragment u else EmptyString.

Definition isLetter (c : ascii) : bool := inRange "a" "z" c || inRange "A" "Z" c.

(** The bytes of a scheme after its first letter. *)
Definition schemeByte (c : ascii) : bool :=
  isLetter c || inRange "0" "9" c || oneOf c "+-.".

Definition validScheme (s : string) : bool :=
  match s with
  | EmptyString => false
  | String c s' => isLetter c && allBytes schemeByte s'
  end.

(** The bytes of a query that [Parse] has taken from a text: the text
    was cut at the first ["#"] and held no control byte. *)
Definition queryByte (c : ascii) : bool :=
  negb (Ascii.eqb c "#") && negb (isCTL c).

Definition rooted (p : string) : Prop := p = EmptyString \/ HasPrefix p "/" = true.

(** What [Parse] guarantees of a URL to which it gave a host. *)
Record parsedWithHost (u : URL) : Prop := {
  pw_opaque : Opaque u = EmptyString;
  pw_omit : OmitHost u = false;
  pw_scheme : validScheme (Scheme u) = true /\ ToLower (Scheme u) = Scheme u;
  pw_user : userOK (User_ u);
  pw_host : exists h0, parseHost h0 = Ok (Host u);
  pw_path : exists p, rooted p /\ setPath p = Ok (Path u, RawPath u);
  pw_query : allBytes queryByte (RawQuery u) = true /\
             (ForceQuery u = true -> RawQuery u = EmptyString);
  pw_fragment : (Fragment u = EmptyString) \/
                exists f, setFragment f = Ok (Fragment u, RawFragment u)
}.

(** A byte that ends no part of an authority. *)
Definition sepFree (c : ascii) : bool :=
  negb (oneOf c "#?/") && negb (isCTL c).

(** The URL that [parse] makes of a text with an authority. *)
Definition hostURL (scheme : string) (user : option Userinfo)
  (host path rawPath : string) (forceQuery : bool) (rawQuery : string) : URL :=
  {| Scheme := scheme; Opaque := EmptyString; User_ := user;
     Host := host; Path := path; RawPath := rawPath;
     OmitHost := false; ForceQuery := forceQuery; RawQuery := rawQuery;
     Fragment := EmptyString; RawFragment := EmptyString |}.

(** Two URLs that differ at most in how their path and fragment were
    spelled in the text they came from. *)
Definition equivalent (u v : URL) : Prop :=
  Scheme u = Scheme v /\ Opaque u = Opaque v /\ User_ u = User_ v /\
  Host u = Host v /\ Path u = Path v /\ OmitHost u = OmitHost v /\
  ForceQuery u = ForceQuery v /\ RawQuery u = RawQuery v /\
  Fragment u = Fragment v /\ String_ u = String_ v.

End url.

Import url.

(** ** Package [webfinger]: resources (client.go) *)

(** [type Resource url.URL] *)
Definition Resource := URL.

(** The recursion of [Parse] is on a longer string; it ends because the
    string it passes on has a scheme. *)
Definition schemeMissing (rawurl : string) : nat :=
  match url.Parse rawurl with
  | inl u => if isEmpty (Scheme u) then 1 else 0
  | inr _ => 0
  end.

(** Keeps the equation of a scrutinee in a [with] clause. *)
Definition inspect {A} (a : A) : {b : A | a = b} := exist _ a eq_refl.

Equations? Parse (rawurl : string) : Resource + error
  by wf (schemeMissing rawurl) lt :=
  Parse rawurl with inspect (url.Parse rawurl) => {
    | exist _ (inr err) _ => Err err
    | exist _ (inl u) Hu with inspect (isEmpty (Scheme u)) => {
        | exist _ true Hs =>
            (* no scheme: an email-like identifier becomes an acct: URL *)
            let parts := SplitN rawurl "@" 2 in
            if negb (length parts =? 2)%nat
            then Err (MustBeAbsolute rawurl)
            else Parse ("acct:" +:+ rawurl)
        | exist _ false _ => Ok u } }.
Proof.
  clear parts. unfold schemeMissing. rewrite Hu, Hs. clear.
  enough (forall a u', parse ("acct:" +:+ a) false = inl u' ->
                       isEmpty (Scheme u') = false) as Hacct.
  { match goal with |- context [url.Parse ?x] => set (raw' := x) end.
    unfold url.Parse.
    assert (exists a b f,
      Cut raw' "#" = ("acct:" +:+ a, b, f)) as (a & b & f & ->).
    { unfold Cut. simpl. destruct (Index rawurl "#"); simpl; eauto. }
    destruct (parse _ false) as [u'|] eqn:E; [|simpl; lia].
    apply Hacct in E.
    destruct (isEmpty b); [rewrite E; lia|].
    destruct (setFragment b) as [[? ?]|]; simpl; [rewrite E|]; lia. }
  intros a u'. unfold parse.
  destruct (stringContainsCTLByte _); [discriminate|].
  change (isEmpty ("acct:" +:+ a) && false) with false.
  change (String.eqb ("acct:" +:+ a) "*") with false.
  change (getScheme ("acct:" +:+ a))
    with (@inl (string * string) urlError ("acct", a)).
  cbv beta iota delta [bindE].
  change (ToLower "acct") with "acct".
  destruct (splitQuery a) as [[rest fq] rq].
  destruct (negb (HasPrefix rest "/") && _); [by intros [= <-]|].
  destruct (_ && false); [discriminate|].
  destruct (_ && Contains _ _); [discriminate|].
  destruct (if _ && HasPrefix rest "//" then _ else _)
    as [[[[us ho] re] om]|]; [|discriminate].
  destruct (setPath re) as [[pa rp]|]; [|discriminate].
  by intros [= <-].
Qed.

(** [WebFingerHost] returns the default host for issuing WebFinger
    queries for this resource. *)
Definition WebFingerHost (r : Resource) : string :=
  if negb (isEmpty (Host r)) then Host r
  else if String.eqb (Scheme r) "acct" || String.eqb (Scheme r) "mailto" then
    let parts := SplitN (Opaque r) "@" 2 in
    if (length parts =? 2)%nat then nth 1 parts EmptyString
    else EmptyString
  else EmptyString.

(** [Resource.String] reassembles the Resource into a URL string. *)
Definition Resource_String (r : Resource) : string := String_ r.

(** [JRDURL] returns the WebFinger query URL for this resource. *)
Definition JRDURL (r : Resource) (rels : list string) : URL :=
  {| Scheme := "https"; Opaque := EmptyString; User_ := None;
     Host := WebFingerHost r;
     Path := "/.well-known/webfinger"; RawPath := EmptyString;
     OmitHost := false; ForceQuery := false;
     RawQuery := Encode (<["rel" := rels]>
                          (<["resource" := [Resource_String r]]> ∅));
     Fragment := EmptyString; RawFragment := EmptyString |}.

(** A Resource with the given scheme, opaque part, host and path and
    nothing else, as the tests of the package build them. *)
Definition mkResource (scheme opaque host path : string) : Resource :=
  {| Scheme := scheme; Opaque := opaque; User_ := None;
     Host := host; Path := path; RawPath := EmptyString;
     OmitHost := false; ForceQuery := false; RawQuery := EmptyString;
     Fragment := EmptyString; RawFragment := EmptyString |}.



(** An address literal whose zone holds the byte 0x80. *)
Definition zoneText : string := "http://[::1%25" +:+ String "128" "]/".

Definition zoneHost : string := "[::1%" +:+ String "128" "]".

(** *** Classes of texts and of URLs, for what [Parse] guarantees *)

(** The bytes of an email-like identifier that [Parse] takes as it is. *)
Definition emailByte (c : ascii) : bool :=
  negb (oneOf c ":?#%") && negb (isCTL c).

(** What [url.Parse] guarantees of a URL with a scheme: the scheme is
    well formed and in lower case, and the URL has one of three shapes,
    an opaque part and nothing else, an authority and a rooted path, or
    a rooted path without authority. *)
Record parsedURL (u : URL) : Prop := {
  pu_scheme : validScheme (Scheme u) = true /\ ToLower (Scheme u) = Scheme u;
  pu_opaque : HasPrefix (Opaque u) "/" = false /\
              allBytes pathByte (Opaque u) = true;
  pu_shape :
    (User_ u = None /\ Host u = EmptyString /\ Path u = EmptyString /\
     RawPath u = EmptyString /\ OmitHost u = false) \/
    (Opaque u = EmptyString /\ OmitHost u = false /\ userOK (User_ u) /\
     (exists h0, parseHost h0 = Ok (Host u)) /\
     exists p, rooted p /\ setPath p = Ok (Path u, RawPath u)) \/
    (Opaque u = EmptyString /\ OmitHost u = true /\ User_ u = None /\
     Host u = EmptyString /\
     exists p, HasPrefix p "/" = true /\ HasPrefix p "//" = false /\
               setPath p = Ok (Path u, RawPath u));
  pu_query : allBytes queryByte (RawQuery u) = true /\
             (ForceQuery u = true -> RawQuery u = EmptyString);
  pu_fragment : (Fragment u = EmptyString /\ RawFragment u = EmptyString) \/
                exists f, f <> EmptyString /\
                          setFragment f = Ok (Fragment u, RawFragment u)
}.

(** The bytes that [QueryEscape] writes: none of them separates the
    parts of a query or of a URL. *)
Definition queryEscaped (c : ascii) : bool :=
  negb (oneOf c "&;=#? ") && negb (isCTL c).

(** What the loop of [parseQuery] does with one [key=value]. *)
Definition addValue (m : Values) (kv : string * string) : Values :=
  <[kv.1 := default [] (m !! kv.1) ++ [kv.2]]> m.

Definition encodePair (kv : string * string) : string :=
  QueryEscape kv.1 +:+ "=" +:+ QueryEscape kv.2.

(** ** The descriptor document (jrd.go) *)

Module jrd.

(** Modelled from the spec: jrd.go, the source of [Link], is not
    among the sources.  A Link has [rel], [type], [href], [template],
    [titles] (language tag to title) and [properties]; a property is
    absent ([None]), present with null ([Some None]) or present with
    a string ([Some (Some v)]). *)
Record Link := {
  Rel : string;
  Type_ : string;
  Href : string;
  Template : string;
  Titles : gmap string string;
  LinkProperties : gmap string (option string)
}.

(** Modelled from the spec: jrd.go, the source of [JRD], is not among
    the sources.  A descriptor has an optional [subject] (empty when
    absent), ordered [aliases], [properties] with the three states of
    a Link's, an optional [expires] timestamp (seconds since the
    epoch) and ordered [links]. *)
Record JRD := {
  Subject : string;
  Aliases : list string;
  Properties : gmap string (option string);
  Expires : option Z;
  Links : list Link
}.

(** Modelled from the spec: jrd.go, the source of [GetProperty], is
    not among the sources.  The value if present and non-null, else
    the empty string. *)
Definition GetProperty (doc : JRD) (key : string) : string :=
  match Properties doc !! key with
  | Some (Some v) => v
  | _ => EmptyString
  end.

(** Modelled from the spec: jrd.go, the source of [Link.GetProperty],
    is not among the sources.  The same reading on a Link's own
    property map. *)
Definition Link_GetProperty (link : Link) (key : string) : string :=
  match LinkProperties link !! key with
  | Some (Some v) => v
  | _ => EmptyString
  end.

(** Modelled from the spec: jrd.go, the source of [GetLinkByRel], is
    not among the sources.  A linear scan in document order that
    returns the first Link whose [rel] equals the argument, or nothing
    ([nil]). *)
Fixpoint scanLinks (links : list Link) (rel : string) : option Link :=
  match links with
  | [] => None
  | link :: rest =>
      if String.eqb (Rel link) rel then Some link else scanLinks rest rel
  end.

Definition GetLinkByRel (doc : JRD) (rel : string) : option Link :=
  scanLinks (Links doc) rel.

(** A JSON text once read: the value tree that the JSON library hands
    to the decoder. *)
#[warnings="-register-all"]
Inductive json :=
| JNull
| JBool (b : bool)
| JNumber (literal : string)
| JString (s : string)
| JArray (elems : list json)
| JObject (members : list (string * json)).

(** The member of an object named [key]; of several, the last. *)
Fixpoint member (key : string) (members : list (string * json))
  : option json :=
  match members with
  | [] => None
  | (k, v) :: rest =>
      match member key rest with
      | Some v' => Some v'
      | None => if String.eqb k key then Some v else None
      end
  end.

Definition shapeError {A} (what : string) : A + error :=
  Err (DecodeError what).

(** An optional string member: absent and null read as empty. *)
Definition decodeString (what : string) (j : option json) : string + error :=
  match j with
  | None | Some JNull => Ok EmptyString
  | Some (JString s) => Ok s
  | Some _ => shapeError what
  end.

Fixpoint decodeList {A} (f : json -> A + error) (l : list json)
  : list A + error :=
  match l with
  | [] => Ok []
  | j :: rest =>
      let* x := f j in
      let* xs := decodeList f rest in
      Ok (x :: xs)
  end.

(** A property value: null stays present-with-null. *)
Definition decodePropertyValue (j : json) : option string + error :=
  match j with
  | JNull => Ok None
  | JString s => Ok (Some s)
  | _ => shapeError "property value"
  end.

Fixpoint decodeMembers {A} (f : json -> A + error)
  (members : list (string * json)) (acc : gmap string A)
  : gmap string A + error :=
  match members with
  | [] => Ok acc
  | (k, v) :: rest =>
      let* x := f v in
      decodeMembers f rest (<[k := x]> acc)
  end.

Definition decodeMap {A} (what : string) (f : json -> A + error)
  (j : option json) : gmap string A + error :=
  match j with
  | None | Some JNull => Ok ∅
  | Some (JObject members) => decodeMembers f members ∅
  | Some _ => shapeError what
  end.

Definition decodeTitle (j : json) : string + error :=
  match j with
  | JString s => Ok s
  | _ => shapeError "title"
  end.

Definition decodeAlias (j : json) : string + error :=
  match j with
  | JString s => Ok s
  | _ => shapeError "alias"
  end.

(** Modelled from the spec: jrd.go, the decoder of a Link, is not
    among the sources.  [rel] is required; [type], [href] and
    [template] are optional. *)
Definition decodeLink (j : json) : Link + error :=
  match j with
  | JObject members =>
      let* rel := match member "rel" members with
                  | Some (JString s) => Ok s
                  | _ => shapeError "rel"
                  end in
      let* type := decodeString "type" (member "type" members) in
      let* href := decodeString "href" (member "href" members) in
      let* template := decodeString "template" (member "template" members) in
      let* titles := decodeMap "titles" decodeTitle (member "titles" members) in
      let* props := decodeMap "properties" decodePropertyValue
                      (member "properties" members) in
      Ok {| Rel := rel; Type_ := type; Href := href; Template := template;
            Titles := titles; LinkProperties := props |}
  | _ => shapeError "link"
  end.

Section Decode.

(** The JSON library's reader of a text and the reader of an RFC
    3339 timestamp are outside the package. *)
Variable readJSON : string -> option json.
Variable parseTime : string -> option Z.

Definition decodeExpires (j : option json) : option Z + error :=
  match j with
  | None | Some JNull => Ok None
  | Some (JString s) =>
      match parseTime s with
      | Some t => Ok (Some t)
      | None => shapeError "expires"
      end
  | Some _ => shapeError "expires"
  end.

(** Modelled from the spec: jrd.go, the decoder of a descriptor, is
    not among the sources.  Every member is optional; a member of
    the wrong shape is a decode error. *)
Definition decodeJRD (j : json) : JRD + error :=
  match j with
  | JObject members =>
      let* subject := decodeString "subject" (member "subject" members) in
      let* aliases := match member "aliases" members with
                      | None | Some JNull => Ok []
                      | Some (JArray l) => decodeList decodeAlias l
                      | Some _ => shapeError "aliases"
                      end in
      let* props := decodeMap "properties" decodePropertyValue
                      (member "properties" members) in
      let* expires := decodeExpires (member "expires" members) in
      let* links := match member "links" members with
                    | None | Some JNull => Ok []
                    | Some (JArray l) => decodeList decodeLink l
                    | Some _ => shapeError "links"
                    end in
      Ok {| Subject := subject; Aliases := aliases; Properties := props;
            Expires := expires; Links := links |}
  | _ => shapeError "document"
  end.

(** Modelled from the spec: jrd.go, the source of [ParseJRD], is
    not among the sources.  Malformed JSON is a decode error. *)
Definition ParseJRD (blob : string) : JRD + error :=
  match readJSON blob with
  | None => Err (DecodeError "malformed JSON")
  | Some j => decodeJRD j
  end.

End Decode.

End jrd.

Import jrd.

(** The descriptor of RFC 6415, appendix A, with a null property, as the
    tests of the package decode it. *)
Definition exampleDocument : json :=
  JObject
    [("subject", JString "http://blog.example.com/article/id/314");
     ("aliases", JArray [JString "http://blog.example.com/cool_new_thing";
                         JString "http://blog.example.com/steve/article/7"]);
     ("properties",
      JObject [("http://blgx.example.net/ns/version", JString "1.3");
               ("http://blgx.example.net/ns/ext", JNull)]);
     ("links",
      JArray
        [JObject [("rel", JString "author"); ("type", JString "text/html");
                  ("href", JString "http://blog.example.com/author/steve");
                  ("titles", JObject [("default", JString "About the Author");
                                      ("en-us", JString "Author Information")]);
                  ("properties",
                   JObject [("http://example.com/role", JString "editor")])];
         JObject [("rel", JString "author");
                  ("href", JString "http://example.com/author/john");
                  ("titles", JObject [("default", JString "The other author")])];
         JObject [("rel", JString "copyright");
                  ("template", JString "http://example.com/copyright?id={uri}")]])].

(** What the accessors read from the decoded example, computed without
    spelling out the decoded maps. *)
Definition readExample {A} (f : JRD -> A) (default : A) : A :=
  match decodeJRD (fun _ => None) exampleDocument with
  | inl doc => f doc
  | inr _ => default
  end.

(** A small decoded descriptor. *)
Definition smallJRD : JRD :=
  {| Subject := "bob@example.com"; Aliases := [];
     Properties := {["k" := Some "v"]}; Expires := None; Links := [] |}.


(** ** Package [webfinger]: the client (client.go) *)

(** What [http.Client.Get] hands back on success, as far as the package
    looks at it.  [Body] is what reading the stream to its end gives. *)
Record Response := {
  StatusCode : Z;
  Status : string;
  Body : string + string
}.

(** The calls that leave the package, in the order they are made.  The
    logger is the client's own ([Some name]) or the process-wide one; a
    GET is recorded with what the collaborator returned. *)
Inductive Event :=
| EvLog (logger : option string) (line : string)
| EvGet (url : string) (result : Response + string)
| EvReadAll
| EvClose.

Record Client := {
  AllowHTTP : bool;
  Logger : option string
}.

(** [DefaultClient] and [NewClient]: the HTTP client they wrap is the
    collaborator [httpGet] below. *)
Definition DefaultClient : Client := {| AllowHTTP := false; Logger := None |}.
Definition NewClient : Client := {| AllowHTTP := false; Logger := None |}.

Definition withScheme (u : URL) (scheme : string) : URL :=
  {| Scheme := scheme; Opaque := Opaque u; User_ := User_ u;
     Host := Host u; Path := Path u; RawPath := RawPath u;
     OmitHost := OmitHost u; ForceQuery := ForceQuery u;
     RawQuery := RawQuery u;
     Fragment := Fragment u; RawFragment := RawFragment u |}.

Section Lookup.

(** The HTTP collaborator: its state [T] stands for the network and
    the servers behind it; a GET returns a response or the text of a
    transport error. *)
Context {T : Type}.
Variable httpGet : string -> T -> (Response + string) * T.

(** [strings.ToLower] on the text of an error, which need not be
    ASCII, and the collaborators of [ParseJRD]. *)
Variable errToLower : string -> string.
Variable readJSON : string -> option json.
Variable parseTime : string -> option Z.

(** Computations that call out: the state of the collaborator is
    threaded through and the calls made are collected in order. *)
Definition M (A : Type) : Type := T -> A * T * list Event.

Definition ret {A} (a : A) : M A := fun t => (a, t, []).

Definition bind {A B} (m : M A) (k : A -> M B) : M B :=
  fun t =>
    let '(a, t1, evs1) := m t in
    let '(b, t2, evs2) := k a t1 in
    (b, t2, evs1 ++ evs2).

Notation "'let!' x := m 'in' k" := (bind m (fun x => k))
  (at level 10, x name, m at level 100, k at level 200).
Notation "m >> k" := (bind m (fun _ => k))
  (at level 100, k at level 200, right associativity).

Definition emit (e : Event) : M unit := fun t => (tt, t, [e]).

Definition clientGet (url : string) : M (Response + string) :=
  fun t => let '(r, t') := httpGet url t in (r, t', [EvGet url r]).

Definition logf (c : Client) (line : string) : M unit :=
  emit (EvLog (Logger c) line).

Definition isRefused (errString : string) : bool :=
  Contains errString "connection refused"
  || Contains errString "ssl_certificate_error".

(** [200 <= res.StatusCode && res.StatusCode < 300] *)
Definition in2xx (res : Response) : bool :=
  (200 <=? StatusCode res)%Z && (StatusCode res <? 300)%Z.

(** The part of [fetchJRD] after a response has arrived. *)
Definition readJRD (res : Response) : M (JRD + error) :=
  if negb (in2xx res)
  then ret (Err (StatusError (Status res)))
  else
    emit EvReadAll >>
    emit EvClose >>
    match Body res with
    | inr err => ret (Err (ReadError err))
    | inl content => ret (ParseJRD readJSON parseTime content)
    end.

Definition fetchJRD (c : Client) (jrdURL : URL) : M (JRD + error) :=
  logf c ("GET " +:+ String_ jrdURL) >>
  let! r := clientGet (String_ jrdURL) in
  match r with
  | inr err =>
      let errString := errToLower err in
      if isRefused errString && AllowHTTP c then
        let jrdURL := withScheme jrdURL "http" in
        logf c ("GET " +:+ String_ jrdURL) >>
        let! r := clientGet (String_ jrdURL) in
        match r with
        | inr err => ret (Err (TransportError err))
        | inl res => readJRD res
        end
      else ret (Err (TransportError err))
  | inl res => readJRD res
  end.

Definition LookupResource (c : Client) (resource : Resource)
  (rels : list string) : M (JRD + error) :=
  logf c ("Looking up WebFinger data for " +:+ Resource_String resource) >>
  let! resourceJRD := fetchJRD c (JRDURL resource rels) in
  match resourceJRD with
  | inr err => ret (Err err)
  | inl doc => ret (Ok doc)
  end.

Definition Client_Lookup (c : Client) (identifier : string)
  (rels : list string) : M (JRD + error) :=
  match Parse identifier with
  | inr err => ret (Err err)
  | inl resource => LookupResource c resource rels
  end.

(** [Lookup] is a wrapper around [DefaultClient.Lookup]. *)
Definition Lookup (identifier : string) (rels : list string)
  : M (JRD + error) :=
  Client_Lookup DefaultClient identifier rels.

(** The URLs of the GETs in a trace, in order. *)
Definition gets (tr : list Event) : list string :=
  omap (fun e => match e with EvGet u _ => Some u | _ => None end) tr.

Definition bodyRead (tr : list Event) : bool :=
  existsb (fun e => match e with EvReadAll => true | _ => false end) tr.

(** The outcome of a lookup once the response [res] has arrived, after
    the calls [evs]. *)
Definition answered (res : Response) (t : T) (evs : list Event)
  : (JRD + error) * T * list Event :=
  if in2xx res then
    (match Body res with
     | inr err => Err (ReadError err)
     | inl content => ParseJRD readJSON parseTime content
     end, t, evs ++ [EvReadAll; EvClose])
  else (Err (StatusError (Status res)), t, evs).

End Lookup.

(** ** A collaborator to run lookups against *)

(** A network whose state counts the GETs made so far: the first is
    refused, every later one is answered with 404. *)
Definition notFound : Response :=
  {| StatusCode := 404; Status := "404 Not Found"; Body := inl EmptyString |}.

Definition refusedThenNotFound (url : string) (n : nat)
  : (Response + string) * nat :=
  match n with
  | O => (inr "dial tcp 127.0.0.1:443: connect: Connection Refused", S n)
  | S _ => (inl notFound, S n)
  end.

Definition noJSON (blob : string) : option json := None.
Definition noTime (text : string) : option Z := None.

Definition devClient : Client := {| AllowHTTP := true; Logger := None |}.

(** A lookup against that network. *)
Definition exampleLookup (c : Client) (identifier : string) (n : nat)
  : (JRD + error) * nat * list Event :=
  Client_Lookup refusedThenNotFound ToLower noJSON noTime c identifier [] n.

(** A call that brought no response: a log line or a failed GET. *)
Definition unanswered (e : Event) : bool :=
  match e with
  | EvLog _ _ | EvGet _ (inr _) => true
  | _ => false
  end.

(** A server that answers every GET with a descriptor that has a
    subject and nothing else, as the one of the package's tests does;
    [stubJSON] reads the body as the JSON parser would. *)
Definition subjectOnly : Response :=
  {| StatusCode := 200; Status := "200 OK";
     Body := inl "{subject: bob@example.com}" |}.

Definition alwaysOK (url : string) (n : nat) : (Response + string) * nat :=
  (inl subjectOnly, S n).

Definition stubJSON (blob : string) : option json :=
  if String.eqb blob "{subject: bob@example.com}"
  then Some (JObject [("subject", JString "bob@example.com")])
  else None.

Definition subjectJRD : JRD :=
  {| Subject := "bob@example.com"; Aliases := []; Properties := ∅;
     Expires := None; Links := [] |}.

(** The lines logged during a trace, in order, whatever the logger. *)
Definition logLines (tr : list Event) : list string :=
  omap (fun e => match e with EvLog _ line => Some line | _ => None end) tr.

(** ** The command-line tool (cmd/webfinger/main.go) *)

Module cmd.

(** What the tool writes, in order.  [fmt.Println] and the JSON encoder
    write to the standard output; [flag.PrintDefaults] and the standard
    logger write to the standard error. *)
Inductive Output :=
| Println (line : string)
| PrintlnError (err : error)
| PrintDefaults
| Logged (line : string)
| Encoded (doc : JRD).

Definition isLogged (o : Output) : bool :=
  match o with Logged _ => true | _ => false end.

(** [usage] *)
Definition usage : list Output :=
  [Println "webfinger [-v] <resource uri>";
   PrintDefaults;
   Println (String "010" "example: webfinger -v bob@example.com")].

(** What the standard logger writes of the calls of a lookup, unless
    its output has been set to [ioutil.Discard]. *)
Definition written (discard : bool) (tr : list Event) : list Output :=
  if discard then []
  else omap (fun e => match e with
                      | EvLog None line => Some (Logged line)
                      | _ => None
                      end) tr.

Section Main.

Context {T : Type}.
Variable httpGet : string -> T -> (Response + string) * T.
Variable errToLower : string -> string.
Variable readJSON : string -> option json.
Variable parseTime : string -> option Z.

(** [client := webfinger.NewClient(nil); client.AllowHTTP = true] *)
Definition client : Client :=
  {| AllowHTTP := true; Logger := Logger NewClient |}.

(** [main], after [flag.Parse] has returned: [verbose] is the value
    of the flag [-v] and [args] are the arguments that follow the
    flags.  A run in which [flag.Parse] ends the process itself, as it
    does for [-h] and for a flag that is not defined, is not a run of
    this function.  It returns the exit status, what was written, and
    the collaborator with the calls made. *)
Definition main (verbose : bool) (args : list string)
  : T -> Z * list Output * T * list Event :=
  fun t =>
    let resource := nth 0 args EmptyString in
    if isEmpty resource then (1%Z, usage, t, [])
    else
      let discard := negb verbose in
      let '(result, t', tr) :=
        Client_Lookup httpGet errToLower readJSON parseTime
                      client resource [] t in
      match result with
      | inr err => (1%Z, written discard tr ++ [PrintlnError err], t', tr)
      | inl jrd => (0%Z, written discard tr ++ [Encoded jrd], t', tr)
      end.

End Main.

End cmd.
(** * Properties *)

(** ** Strings *)

Section StringFacts.

Implicit Types (s t a b : string) (c : ascii).

Lemma sapp_nil_r s : s +:+ "" = s.
Proof. induction s; simpl; congruence. Qed.

Lemma sapp_assoc a b t : (a +:+ b) +:+ t = a +:+ (b +:+ t).
Proof. induction a; simpl; congruence. Qed.

Lemma len_sapp a b : len (a +:+ b) = len a + len b.
Proof. induction a; simpl; auto. Qed.

Lemma take_sapp a b : take (len a) (a +:+ b) = a.
Proof. induction a; simpl; [by destruct b|congruence]. Qed.

Lemma drop_sapp a b : drop (len a) (a +:+ b) = b.
Proof. induction a; simpl; auto. Qed.

Lemma take_drop_id n s : take n s +:+ drop n s = s.
Proof.
  revert s; induction n; intros [|c s]; simpl; auto. by rewrite IHn.
Qed.

Lemma drop_drop_add n m s : drop n (drop m s) = drop (m + n) s.
Proof.
  revert s; induction m; intros s; simpl; auto.
  destruct s; simpl; auto. by destruct n.
Qed.

Lemma HasPrefix_byte c s :
  HasPrefix s (String c "") = match s with String d _ => Ascii.eqb c d | _ => false end.
Proof. destruct s; simpl; auto. by rewrite andb_true_r. Qed.

(** The first instance of a byte: nothing before it is that byte. *)
Lemma Index_byte_app c a b :
  oneOf c a = false -> Index (a +:+ String c b) (String c "") = Some (len a).
Proof.
  induction a as [|d a IH]; simpl.
  - by rewrite Ascii.eqb_refl.
  - intros [Hd Ha]%orb_false_iff. rewrite Hd, (IH Ha). done.
Qed.

Lemma Index_byte_None c s :
  oneOf c s = false -> Index s (String c "") = None.
Proof.
  induction s as [|d s IH]; simpl; [done|].
  intros [Hd Ha]%orb_false_iff. rewrite Hd, (IH Ha). done.
Qed.

Lemma Index_byte_Some c s i :
  Index s (String c "") = Some i ->
  oneOf c (take i s) = false /\ s = take i s +:+ String c (drop (i + 1) s).
Proof.
  revert i; induction s as [|d s IH]; intros i; simpl; [done|].
  destruct (Ascii.eqb c d) eqn:E; simpl.
  - intros [= <-]. apply Ascii.eqb_eq in E as ->. done.
  - destruct (Index s (String c "")) as [j|]; [|done].
    intros [= <-]. destruct (IH j eq_refl) as [H1 H2]. simpl.
    rewrite E, H1. split; [done|]. congruence.
Qed.

Lemma oneOf_app c a b : oneOf c (a +:+ b) = oneOf c a || oneOf c b.
Proof. induction a; simpl; [done|]. by rewrite IHa, orb_assoc. Qed.

Lemma Index_byte_is_None c s :
  Index s (String c "") = None <-> oneOf c s = false.
Proof.
  split; [|apply Index_byte_None].
  induction s as [|d s IH]; simpl; [done|].
  destruct (Ascii.eqb c d); simpl; [done|].
  destruct (Index s (String c "")); [done|]. auto.
Qed.

Lemma Cut_byte_app c a b :
  oneOf c a = false -> Cut (a +:+ String c b) (String c "") = (a, b, true).
Proof.
  intros H. unfold Cut. rewrite (Index_byte_app _ _ _ H).
  rewrite take_sapp. simpl len.
  replace (len a + 1) with (len (a +:+ String c "")) by (rewrite len_sapp; done).
  replace (a +:+ String c b) with ((a +:+ String c "") +:+ b)
    by (rewrite sapp_assoc; done).
  by rewrite drop_sapp.
Qed.

Lemma Cut_byte_None c s :
  oneOf c s = false -> Cut s (String c "") = (s, "", false).
Proof. intros H. unfold Cut. by rewrite (Index_byte_None _ _ H). Qed.

(** Every string is cut at the first instance of the byte, or not at
    all. *)
Lemma Cut_byte_cases c s :
  (oneOf c s = false /\ Cut s (String c "") = (s, "", false)) \/
  (exists a b, s = a +:+ String c b /\ oneOf c a = false /\
               Cut s (String c "") = (a, b, true)).
Proof.
  destruct (Index s (String c "")) as [i|] eqn:E.
  - right. destruct (Index_byte_Some _ _ _ E) as [H1 H2].
    exists (take i s), (drop (i + 1) s). split; [done|]. split; [done|].
    rewrite H2 at 1. by apply Cut_byte_app.
  - left. apply Index_byte_is_None in E. split; [done|].
    by apply Cut_byte_None.
Qed.

Lemma SplitN2_found c a b :
  oneOf c a = false ->
  SplitN (a +:+ String c b) (String c "") 2 = [a; b].
Proof.
  intros H. unfold SplitN.
  replace (Nat.min 2 (len (a +:+ String c b) + 1) - 1) with 1
    by (rewrite len_sapp; change (len (String c b)) with (S (len b)); lia).
  simpl. pose proof (Cut_byte_app _ _ b H) as HC. unfold Cut in HC.
  rewrite (Index_byte_app _ _ _ H) in *. simpl in HC. congruence.
Qed.

Lemma SplitN2_None c s :
  oneOf c s = false -> SplitN s (String c "") 2 = [s].
Proof.
  intros H. unfold SplitN.
  destruct (Nat.min 2 (len s + 1) - 1); simpl; [done|].
  by rewrite (Index_byte_None _ _ H).
Qed.

Lemma isEmpty_true s : isEmpty s = true <-> s = "".
Proof. by destruct s. Qed.

Lemma isEmpty_false s : isEmpty s = false <-> s <> "".
Proof. by destruct s. Qed.

End StringFacts.

(** ** Host resolution *)

(** C1: a Resource with a host yields that host; a hostless [acct] or
    [mailto] Resource yields what follows the first ["@"] of its opaque
    part; every other Resource yields the empty string.  The function is
    total, so it never fails. *)
Theorem WebFingerHost_spec (r : Resource) :
  (Host r <> "" -> WebFingerHost r = Host r) /\
  (Host r = "" -> Scheme r = "acct" \/ Scheme r = "mailto" ->
   forall before after,
     Opaque r = before +:+ "@" +:+ after -> oneOf "@" before = false ->
     WebFingerHost r = after) /\
  (Host r = "" ->
   (Scheme r <> "acct" /\ Scheme r <> "mailto") \/ oneOf "@" (Opaque r) = false ->
   WebFingerHost r = "") /\
  (Host r = "" -> Scheme r = "acct" \/ Scheme r = "mailto" ->
   (Opaque r = "bob@example.com" -> WebFingerHost r = "example.com") /\
   (Opaque r = "juliet%40capulet.example@shoppingsite.example" ->
    WebFingerHost r = "shoppingsite.example")).
Proof.
  unfold WebFingerHost.
  assert (Hs : Scheme r = "acct" \/ Scheme r = "mailto" ->
               String.eqb (Scheme r) "acct" || String.eqb (Scheme r) "mailto" = true).
  { intros [-> | ->]; reflexivity. }
  assert (He : forall A (x y : A), Host r = "" ->
               (if negb (isEmpty (Host r)) then x else y) = y).
  { by intros A x y ->. }
  repeat split.
  - intros H%isEmpty_false. by rewrite H.
  - intros HH Hsch before after HO Hb. rewrite (He _ _ _ HH), (Hs Hsch), HO.
    change ("@" +:+ after) with (String "@" after).
    by rewrite SplitN2_found.
  - intros HH [[H1 H2] | H]; rewrite (He _ _ _ HH).
    + apply String.eqb_neq in H1, H2. by rewrite H1, H2.
    + rewrite (SplitN2_None _ _ H). simpl. by destruct (_ || _).
  - intros ->. rewrite (He _ _ _ H), (Hs H0). reflexivity.
  - intros ->. rewrite (He _ _ _ H), (Hs H0). reflexivity.
Qed.

Lemma WebFingerHost_spec_witness :
  WebFingerHost (mkResource "http" "" "example.com" "/") = "example.com" /\
  WebFingerHost (mkResource "acct" "a@b@c" "" "") = "b@c" /\
  WebFingerHost (mkResource "file" "" "" "/example") = "".
Proof.
  split; [|split].
  - apply (proj1 (WebFingerHost_spec (mkResource "http" "" "example.com" "/"))).
    discriminate.
  - apply (proj1 (proj2 (WebFingerHost_spec (mkResource "acct" "a@b@c" "" "")))
             eq_refl (or_introl eq_refl) "a" "b@c"); reflexivity.
  - apply (proj1 (proj2 (proj2
             (WebFingerHost_spec (mkResource "file" "" "" "/example")))) eq_refl).
    left. split; discriminate.
Defined.

(** ** The descriptor document *)

Section Descriptor.

Implicit Types (doc : JRD) (link : Link) (rel key : string).

Lemma scanLinks_Some links rel l :
  scanLinks links rel = Some l <->
  exists pre post, links = pre ++ l :: post /\ Rel l = rel /\
                   Forall (fun x => Rel x <> rel) pre.
Proof.
  induction links as [|x links IH]; simpl.
  - split; [done|]. intros (pre & post & H & _). by destruct pre.
  - destruct (String.eqb_spec (Rel x) rel) as [E|E].
    + split.
      * intros [= <-]. exists [], links. auto.
      * intros ([|y pre] & post & H & Hr & Hp); simplify_eq/=; [done|].
        by inversion Hp.
    + rewrite IH. split.
      * intros (pre & post & -> & Hr & Hp). exists (x :: pre), post. auto.
      * intros ([|y pre] & post & H & Hr & Hp); simplify_eq/=.
        inversion Hp; subst. eauto.
Qed.

Lemma scanLinks_None links rel :
  scanLinks links rel = None <-> Forall (fun x => Rel x <> rel) links.
Proof.
  induction links as [|x links IH]; simpl; [by split|].
  destruct (String.eqb_spec (Rel x) rel) as [E|E].
  - split; [done|]. by inversion 1.
  - rewrite IH. split; [by constructor|]. by inversion 1.
Qed.

(** C3: [GetLinkByRel] returns the first Link, in document order, whose
    [rel] is the argument, so of several Links with that [rel] the
    earliest; it returns nothing exactly when no Link has it. *)
Theorem GetLinkByRel_first doc rel :
  (forall l, GetLinkByRel doc rel = Some l <->
     exists pre post, Links doc = pre ++ l :: post /\ Rel l = rel /\
                      Forall (fun x => Rel x <> rel) pre) /\
  (GetLinkByRel doc rel = None <-> Forall (fun x => Rel x <> rel) (Links doc)).
Proof.
  unfold GetLinkByRel. split; [intros l; apply scanLinks_Some|apply scanLinks_None].
Qed.

Lemma member_app key (l1 l2 : list (string * json)) :
  member key (l1 ++ l2) =
  match member key l2 with
  | Some v => Some v
  | None => member key l1
  end.
Proof.
  induction l1 as [|[k v] l1 IH]; simpl.
  - by destruct (member key l2).
  - rewrite IH. by destruct (member key l2).
Qed.

(** The effective member of a name is the last one of that name. *)
Lemma member_middle key pre v post :
  member key post = None ->
  member key (pre ++ (key, v) :: post) = Some v.
Proof.
  intros Hpost. rewrite member_app. simpl. by rewrite Hpost, String.eqb_refl.
Qed.

Lemma member_other key k pre v post :
  k <> key ->
  member key (pre ++ (k, v) :: post) = member key (pre ++ post).
Proof.
  intros Hk. rewrite !member_app. simpl.
  destruct (member key post); [done|].
  by destruct (String.eqb_spec k key).
Qed.

Lemma decodeMembers_app {A} (f : json -> A + error) l1 l2 acc :
  decodeMembers f (l1 ++ l2) acc =
  let* m := decodeMembers f l1 acc in decodeMembers f l2 m.
Proof.
  revert acc. induction l1 as [|[k v] l1 IH]; intros acc; simpl; [done|].
  destruct (f v); simpl; [apply IH|done].
Qed.

(** What a decoded object holds under a key: the decoded value of its
    last member of that name, which did decode. *)
Lemma decodeMembers_lookup {A} (f : json -> A + error) members acc m key :
  decodeMembers f members acc = Ok m ->
  match member key members with
  | Some j => exists x, f j = Ok x /\ m !! key = Some x
  | None => m !! key = acc !! key
  end.
Proof.
  revert acc. induction members as [|[k v] members IH]; intros acc; simpl.
  - by intros [= <-].
  - destruct (f v) as [x|] eqn:Hv; [|done]. simpl. intros Hm.
    specialize (IH _ Hm). destruct (member key members) as [j|]; [done|].
    destruct (String.eqb_spec k key) as [->|Hk].
    + exists x. split; [done|]. by rewrite IH, lookup_insert_eq.
    + by rewrite IH, lookup_insert_ne.
Qed.

(** Whether the members of an object decode does not depend on what
    was decoded before them. *)
Lemma decodeMembers_acc {A} (f : json -> A + error) members acc acc' m :
  decodeMembers f members acc = Ok m ->
  exists m', decodeMembers f members acc' = Ok m'.
Proof.
  revert acc acc'. induction members as [|[k v] members IH];
    intros acc acc'; simpl; [eauto|].
  destruct (f v) as [x|]; [|done]. simpl. apply IH.
Qed.

(** A member with the value null, put anywhere into a property object
    that decodes, leaves it decodable; the other keys keep what they
    had, and the key is present with null unless a later member of
    the same name follows. *)
Lemma decodeProperties_null p1 p2 k m :
  decodeMap "properties" decodePropertyValue (Some (JObject (p1 ++ p2))) = Ok m ->
  exists m',
    decodeMap "properties" decodePropertyValue
      (Some (JObject (p1 ++ (k, JNull) :: p2))) = Ok m' /\
    (forall k', k' <> k -> m' !! k' = m !! k') /\
    (member k p2 = None -> m' !! k = Some None).
Proof.
  cbn [decodeMap]. rewrite !decodeMembers_app.
  destruct (decodeMembers decodePropertyValue p1 ∅) as [m1|]; [|done].
  cbn [bindE decodeMembers decodePropertyValue]. intros Hm.
  destruct (decodeMembers_acc _ _ _ (<[k := None]> m1) _ Hm) as [m' Hm'].
  exists m'. split; [done|]. split.
  - intros k' Hk'.
    pose proof (decodeMembers_lookup _ _ _ _ k' Hm) as H.
    pose proof (decodeMembers_lookup _ _ _ _ k' Hm') as H'.
    destruct (member k' p2) as [j|].
    + destruct H as (x & Hx & ->), H' as (x' & Hx' & ->). congruence.
    + by rewrite H, H', lookup_insert_ne.
  - intros Hk. pose proof (decodeMembers_lookup _ _ _ _ k Hm') as H'.
    rewrite Hk in H'. by rewrite H', lookup_insert_eq.
Qed.

(** The properties of a decoded Link are those of its ["properties"]
    member. *)
Lemma decodeLink_properties members props link :
  decodeLink (JObject members) = Ok link ->
  member "properties" members = Some (JObject props) ->
  decodeMembers decodePropertyValue props ∅ = Ok (LinkProperties link).
Proof.
  unfold decodeLink. intros Hdec Hprops. rewrite Hprops in Hdec.
  destruct (match member "rel" members with
            | Some (JString s) => _ | _ => _ end) as [rel|]; [|done].
  cbn [bindE] in Hdec.
  destruct (decodeString "type" _) as [type|]; [|done]. cbn [bindE] in Hdec.
  destruct (decodeString "href" _) as [href|]; [|done]. cbn [bindE] in Hdec.
  destruct (decodeString "template" _) as [template|]; [|done].
  cbn [bindE] in Hdec.
  destruct (decodeMap "titles" _ _) as [titles|]; [|done].
  cbn [bindE decodeMap] in Hdec.
  destruct (decodeMembers decodePropertyValue props ∅) as [m|]; [|done].
  cbn [bindE] in Hdec. by injection Hdec as <-.
Qed.

Section Decoding.

Variable parseTime : string -> option Z.

(** The properties of a decoded document are those of its
    ["properties"] member. *)
Lemma decodeJRD_properties members props doc :
  decodeJRD parseTime (JObject members) = Ok doc ->
  member "properties" members = Some (JObject props) ->
  decodeMembers decodePropertyValue props ∅ = Ok (Properties doc).
Proof.
  unfold decodeJRD. intros Hdec Hprops. rewrite Hprops in Hdec.
  destruct (decodeString "subject" _) as [subject|]; [|done].
  cbn [bindE] in Hdec.
  destruct (match member "aliases" members with
            | Some (JArray l) => _ | _ => _ end) as [aliases|]; [|done].
  cbn [bindE decodeMap] in Hdec.
  destruct (decodeMembers decodePropertyValue props ∅) as [m|]; [|done].
  cbn [bindE] in Hdec.
  destruct (decodeExpires parseTime _) as [expires|]; [|done].
  cbn [bindE] in Hdec.
  destruct (match member "links" members with
            | Some (JArray l) => _ | _ => _ end) as [links|]; [|done].
  cbn [bindE] in Hdec. by injection Hdec as <-.
Qed.

(** C4: [GetProperty], on a document and on a Link, returns the stored
    string of a key that is present with a string, and the empty string
    both for an absent key and for a key present with null.  In a
    document that decodes, a property written with a string is present
    with that string, one written with null is present with null,
    which differs from absent, and a key that is not written is absent.
    A document that decodes still decodes when a property with the
    value null is put anywhere into its properties: the rest of the
    document and the other properties are as before, and the key is
    present with null and reads as the empty string.  The properties
    of a Link that decodes are read off its members in the same
    way. *)
Theorem GetProperty_null doc link key :
  (forall v, Properties doc !! key = Some (Some v) -> GetProperty doc key = v) /\
  (Properties doc !! key = None -> GetProperty doc key = "") /\
  (Properties doc !! key = Some None -> GetProperty doc key = "") /\
  (forall v, LinkProperties link !! key = Some (Some v) ->
             Link_GetProperty link key = v) /\
  (LinkProperties link !! key = None -> Link_GetProperty link key = "") /\
  (LinkProperties link !! key = Some None -> Link_GetProperty link key = "") /\
  (forall members props,
     decodeJRD parseTime (JObject members) = Ok doc ->
     member "properties" members = Some (JObject props) ->
     (forall v, member key props = Some (JString v) ->
        Properties doc !! key = Some (Some v) /\ GetProperty doc key = v) /\
     (member key props = Some JNull ->
        Properties doc !! key = Some None /\ Properties doc !! key <> None /\
        GetProperty doc key = "") /\
     (member key props = None ->
        Properties doc !! key = None /\ GetProperty doc key = "")) /\
  (forall pre post p1 p2,
     member "properties" post = None ->
     decodeJRD parseTime
       (JObject (pre ++ ("properties", JObject (p1 ++ p2)) :: post)) = Ok doc ->
     exists doc',
       decodeJRD parseTime
         (JObject (pre ++ ("properties", JObject (p1 ++ (key, JNull) :: p2))
                       :: post))
       = Ok doc' /\
       Subject doc' = Subject doc /\ Aliases doc' = Aliases doc /\
       Expires doc' = Expires doc /\ Links doc' = Links doc /\
       (forall k, k <> key -> Properties doc' !! k = Properties doc !! k) /\
       (member key p2 = None ->
        Properties doc' !! key = Some None /\ Properties doc' !! key <> None /\
        GetProperty doc' key = "")) /\
  (forall members props,
     decodeLink (JObject members) = Ok link ->
     member "properties" members = Some (JObject props) ->
     (forall v, member key props = Some (JString v) ->
        LinkProperties link !! key = Some (Some v) /\
        Link_GetProperty link key = v) /\
     (member key props = Some JNull ->
        LinkProperties link !! key = Some None /\
        LinkProperties link !! key <> None /\
        Link_GetProperty link key = "") /\
     (member key props = None ->
        LinkProperties link !! key = None /\ Link_GetProperty link key = "")).
Proof.
  unfold GetProperty, Link_GetProperty.
  split_and!.
  1-6: by (intros; match goal with H : _ !! _ = _ |- _ => rewrite H end).
  - intros members props Hdec Hprops.
    pose proof (decodeJRD_properties _ _ _ Hdec Hprops) as Hm.
    pose proof (decodeMembers_lookup _ _ _ _ key Hm) as Hkey.
    split_and!.
    + intros v Hv. rewrite Hv in Hkey.
      destruct Hkey as (x & [= <-] & ->). done.
    + intros Hv. rewrite Hv in Hkey.
      destruct Hkey as (x & [= <-] & ->). done.
    + intros Hv. rewrite Hv in Hkey. by rewrite Hkey.
  - intros pre post p1 p2 Hpost Hdec.
    unfold decodeJRD in *.
    rewrite (member_middle "properties" pre _ post Hpost) in Hdec.
    rewrite (member_middle "properties" pre _ post Hpost).
    rewrite !(member_other _ "properties" pre (JObject (p1 ++ p2)) post)
      in Hdec by done.
    rewrite !(member_other _ "properties" pre
                (JObject (p1 ++ (key, JNull) :: p2)) post) by done.
    destruct (decodeString "subject" _) as [subject|]; [|done].
    cbn [bindE] in *.
    destruct (match member "aliases" (pre ++ post) with
              | Some (JArray l) => _ | _ => _ end) as [aliases|]; [|done].
    cbn [bindE] in *.
    destruct (decodeMap "properties" decodePropertyValue
                (Some (JObject (p1 ++ p2)))) as [m|] eqn:Hm; [|done].
    destruct (decodeProperties_null p1 p2 key m Hm) as (m' & -> & Hother & Hkey).
    cbn [bindE] in *.
    destruct (decodeExpires parseTime _) as [expires|]; [|done].
    cbn [bindE] in *.
    destruct (match member "links" (pre ++ post) with
              | Some (JArray l) => _ | _ => _ end) as [links|]; [|done].
    cbn [bindE] in *. injection Hdec as <-. eexists. split; [done|].
    cbn [Subject Aliases Expires Links Properties].
    split_and!; try done.
    intros Hk. by rewrite (Hkey Hk).
  - intros members props Hdec Hprops.
    pose proof (decodeLink_properties _ _ _ Hdec Hprops) as Hm.
    pose proof (decodeMembers_lookup _ _ _ _ key Hm) as Hkey.
    split_and!.
    + intros v Hv. rewrite Hv in Hkey.
      destruct Hkey as (x & [= <-] & ->). done.
    + intros Hv. rewrite Hv in Hkey.
      destruct Hkey as (x & [= <-] & ->). done.
    + intros Hv. rewrite Hv in Hkey. by rewrite Hkey.
Qed.

End Decoding.

End Descriptor.

Example decode_example :
  isOk (decodeJRD (fun _ => None) exampleDocument) = true /\
  readExample (fun d => GetProperty d "http://blgx.example.net/ns/version") "" = "1.3" /\
  readExample (fun d => GetProperty d "http://blgx.example.net/ns/ext") "x" = "" /\
  readExample (fun d => Properties d !! "http://blgx.example.net/ns/ext") None
    = Some None /\
  readExample (fun d => GetProperty d "does-not-exist") "x" = "" /\
  readExample (fun d => Properties d !! "does-not-exist") (Some None) = None /\
  readExample (fun d => Href <$> GetLinkByRel d "author") None
    = Some "http://blog.example.com/author/steve" /\
  readExample (fun d => Template <$> GetLinkByRel d "copyright") None
    = Some "http://example.com/copyright?id={uri}" /\
  readExample (fun d => Rel <$> GetLinkByRel d "does-not-exist") (Some "") = None.
Proof. split_and!; by vm_compute. Qed.

Lemma GetProperty_null_witness :
  GetProperty smallJRD "k" = "v" /\
  (forall doc,
     decodeJRD (fun _ => None)
       (JObject [("subject", JString "bob@example.com");
                 ("properties", JObject [("k", JString "v"); ("n", JNull)])])
     = Ok doc ->
     (Properties doc !! "k" = Some (Some "v") /\ GetProperty doc "k" = "v") /\
     (Properties doc !! "n" = Some None /\ Properties doc !! "n" <> None /\
      GetProperty doc "n" = "") /\
     (Properties doc !! "x" = None /\ GetProperty doc "x" = "")) /\
  exists doc',
    decodeJRD (fun _ => None)
      (JObject [("subject", JString "bob@example.com");
                ("properties", JObject [("k", JString "v"); ("n", JNull)])])
    = Ok doc' /\
    Properties doc' !! "n" = Some None /\
    Properties doc' !! "k" = Properties smallJRD !! "k".
Proof.
  pose (link := {| Rel := ""; Type_ := ""; Href := ""; Template := "";
                   Titles := ∅; LinkProperties := ∅ |}).
  pose (document :=
          [("subject", JString "bob@example.com");
           ("properties", JObject [("k", JString "v"); ("n", JNull)])]).
  split; [|split].
  - apply (proj1 (GetProperty_null (fun _ => None) smallJRD link "k")).
    by vm_compute.
  - intros doc Hdoc. split; [|split].
    + destruct (GetProperty_null (fun _ => None) doc link "k")
        as (_ & _ & _ & _ & _ & _ & H & _).
      destruct (H document [("k", JString "v"); ("n", JNull)] Hdoc eq_refl)
        as (Hs & _ & _).
      exact (Hs "v" eq_refl).
    + destruct (GetProperty_null (fun _ => None) doc link "n")
        as (_ & _ & _ & _ & _ & _ & H & _).
      destruct (H document [("k", JString "v"); ("n", JNull)] Hdoc eq_refl)
        as (_ & Hn & _).
      exact (Hn eq_refl).
    + destruct (GetProperty_null (fun _ => None) doc link "x")
        as (_ & _ & _ & _ & _ & _ & H & _).
      destruct (H document [("k", JString "v"); ("n", JNull)] Hdoc eq_refl)
        as (_ & _ & Hx).
      exact (Hx eq_refl).
  - destruct (GetProperty_null (fun _ => None) smallJRD link "n")
      as (_ & _ & _ & _ & _ & _ & _ & H & _).
    destruct (H [("subject", JString "bob@example.com")] []
                [("k", JString "v")] []) as (doc' & Hd & _ & _ & _ & _ & Ho & Hn).
    + reflexivity.
    + by vm_compute.
    + exists doc'. split; [exact Hd|]. split.
      * by destruct (Hn eq_refl) as [? _].
      * by apply Ho.
Defined.

(** ** The query URL *)

Lemma isEmpty_sapp a b : isEmpty (a +:+ b) = isEmpty a && isEmpty b.
Proof. by destruct a. Qed.

Lemma Join_snoc_nonempty (l : list string) (x sep : string) :
  x <> "" -> Join (l ++ [x]) sep <> "".
Proof.
  intros Hx. induction l as [|y l IH]; simpl; [done|].
  destruct (l ++ [x]) eqn:E; [by destruct l|].
  intros H. destruct y; [|done]. simpl in H. by destruct sep.
Qed.

(** The keys ["rel"] and ["resource"] are written in sorted order: the
    relations first, as given, then the resource. *)
Lemma Encode_query (rels : list string) (s : string) :
  Encode (<["rel" := rels]> (<["resource" := [s]]> ∅)) =
  Join (map (fun x => "rel=" +:+ QueryEscape x) rels
        ++ ["resource=" +:+ QueryEscape s]) "&".
Proof.
  unfold Encode.
  assert (Hk : merge_sort String.le
                 (map_to_list (<["rel" := rels]>
                    (<["resource" := [s]]> (∅ : gmap string (list string))))).*1
               = ["rel"; "resource"]) by (vm_compute; reflexivity).
  rewrite Hk. simpl flat_map.
  rewrite lookup_insert_eq. rewrite lookup_insert_ne by done.
  rewrite lookup_insert_eq. simpl. reflexivity.
Qed.

Lemma RawQuery_JRDURL_nonempty r rels : RawQuery (JRDURL r rels) <> "".
Proof.
  unfold JRDURL. cbn [RawQuery]. rewrite Encode_query.
  apply Join_snoc_nonempty. done.
Qed.

(** The text of the query URL under any non-empty scheme. *)
Lemma String_JRDURL r rels scheme :
  scheme <> "" ->
  String_ (withScheme (JRDURL r rels) scheme) =
  scheme +:+ "://" +:+ escape (WebFingerHost r) encodeHost
  +:+ "/.well-known/webfinger?" +:+ RawQuery (JRDURL r rels).
Proof.
  intros Hs. pose proof (RawQuery_JRDURL_nonempty r rels) as Hq.
  set (q := RawQuery (JRDURL r rels)) in *.
  change (withScheme (JRDURL r rels) scheme) with
    {| Scheme := scheme; Opaque := ""; User_ := None;
       Host := WebFingerHost r; Path := "/.well-known/webfinger";
       RawPath := ""; OmitHost := false; ForceQuery := false;
       RawQuery := q; Fragment := ""; RawFragment := "" |}.
  generalize (WebFingerHost r) as h. intros h. clearbody q.
  unfold String_, EscapedPath, EscapedFragment.
  cbn [Scheme Opaque User_ Host Path RawPath OmitHost ForceQuery RawQuery
       Fragment RawFragment isEmpty negb orb andb].
  destruct scheme as [|c scheme]; [done|]. destruct q as [|d q]; [done|].
  destruct h as [|e h]; simpl; rewrite ?sapp_assoc; reflexivity.
Qed.

(** C5: the query URL has scheme [https], the host of [WebFingerHost],
    the well-known path and a query that lists one [rel] per relation,
    in the order given and with repetitions kept, followed by the
    [resource]; for [bob@example.com] and the relations [a], [b] its
    text is the URL of the test, which parses back to the same URL. *)
Theorem JRDURL_spec (r : Resource) (rels : list string) :
  Scheme (JRDURL r rels) = "https" /\
  Host (JRDURL r rels) = WebFingerHost r /\
  Path (JRDURL r rels) = "/.well-known/webfinger" /\
  RawQuery (JRDURL r rels) =
    Join (map (fun rel => "rel=" +:+ QueryEscape rel) rels
          ++ ["resource=" +:+ QueryEscape (Resource_String r)]) "&" /\
  String_ (JRDURL r rels) =
    "https://" +:+ escape (WebFingerHost r) encodeHost
    +:+ "/.well-known/webfinger?" +:+ RawQuery (JRDURL r rels) /\
  match Parse "bob@example.com" with
  | inl bob =>
      String_ (JRDURL bob ["a"; "b"]) =
        "https://example.com/.well-known/webfinger?rel=a&rel=b&resource=acct%3Abob%40example.com" /\
      url.Parse
        "https://example.com/.well-known/webfinger?rel=a&rel=b&resource=acct%3Abob%40example.com"
      = Ok (JRDURL bob ["a"; "b"])
  | inr _ => False
  end.
Proof.
  split_and!;
    [reflexivity | reflexivity | reflexivity | apply Encode_query
    | apply (String_JRDURL r rels "https"); done | by vm_compute].
Qed.

(** ** Lookups *)

Section LookupFacts.

Context {T : Type}.
Variable httpGet : string -> T -> (Response + string) * T.
Variable errToLower : string -> string.
Variable readJSON : string -> option json.
Variable parseTime : string -> option Z.

Implicit Types (t : T) (c : Client) (res : Response).

Let lookup := Client_Lookup httpGet errToLower readJSON parseTime.
Let outcome := answered (T:=T) readJSON parseTime.

(** A lookup of a well-formed identifier, call by call. *)
Lemma Client_Lookup_run c identifier rels r t :
  Parse identifier = Ok r ->
  let first := String_ (JRDURL r rels) in
  let second := String_ (withScheme (JRDURL r rels) "http") in
  let log0 := EvLog (Logger c)
                ("Looking up WebFinger data for " +:+ Resource_String r) in
  let log1 := EvLog (Logger c) ("GET " +:+ first) in
  let log2 := EvLog (Logger c) ("GET " +:+ second) in
  lookup c identifier rels t =
  match httpGet first t with
  | (inl res, t1) => outcome res t1 [log0; log1; EvGet first (inl res)]
  | (inr err, t1) =>
      if isRefused (errToLower err) && AllowHTTP c then
        match httpGet second t1 with
        | (inl res, t2) =>
            outcome res t2
              [log0; log1; EvGet first (inr err); log2; EvGet second (inl res)]
        | (inr err2, t2) =>
            (Err (TransportError err2), t2,
             [log0; log1; EvGet first (inr err); log2; EvGet second (inr err2)])
        end
      else (Err (TransportError err), t1, [log0; log1; EvGet first (inr err)])
  end.
Proof.
  intros HP. cbv zeta. subst lookup outcome.
  unfold Client_Lookup, LookupResource, fetchJRD.
  rewrite HP.
  generalize (String_ (JRDURL r rels)) as first.
  generalize (String_ (withScheme (JRDURL r rels) "http")) as second.
  generalize ("Looking up WebFinger data for " +:+ Resource_String r) as line.
  intros line second first.
  unfold bind, logf, emit, clientGet, answered, readJRD, ret.
  destruct (httpGet first t) as [[res|err] t1].
  - fold (in2xx res). destruct (in2xx res); simpl; [|done].
    by destruct (Body res) as [content|e]; [destruct (ParseJRD _ _ _)|].
  - destruct (isRefused _ && _); [|done].
    destruct (httpGet second t1) as [[res|err2] t2]; [|done].
    fold (in2xx res). destruct (in2xx res); simpl; [|done].
    by destruct (Body res) as [content|e]; [destruct (ParseJRD _ _ _)|].
Qed.

(** C10: when [Parse] fails, [Client.Lookup] returns that error and
    makes no call at all: no GET, over https or http, and no log line;
    the collaborator is left as it was. *)
Theorem Lookup_parse_error c identifier rels err t :
  Parse identifier = Err err ->
  lookup c identifier rels t = (Err err, t, []) /\
  gets (lookup c identifier rels t).2 = [].
Proof.
  intros HP. subst lookup. unfold Client_Lookup.
  by rewrite HP.
Qed.

Lemma In_answered e res t evs :
  In e (outcome res t evs).2 ->
  In e evs \/ (in2xx res = true /\ (e = EvReadAll \/ e = EvClose)).
Proof.
  subst outcome. unfold answered. destruct (in2xx res); cbn [snd]; [|auto].
  rewrite in_app_iff. cbn [In]. intuition (subst; auto).
Qed.

Lemma answered_bad res t evs :
  in2xx res = false ->
  outcome res t evs = (Err (StatusError (Status res)), t, evs).
Proof. subst outcome. unfold answered. by intros ->. Qed.

Lemma gets_answered res t evs : gets (outcome res t evs).2 = gets evs.
Proof.
  subst outcome. unfold answered, gets. destruct (in2xx res); cbn [snd]; [|done].
  rewrite omap_app. cbn [omap]. by rewrite app_nil_r.
Qed.

(** C6: when a GET of a lookup is answered with a response whose status
    code is not in 200..299, the lookup returns an error that carries
    the status text, hence no document, and the body is never read, so
    nothing is decoded. *)
Theorem Lookup_status_error c identifier rels t url res :
  In (EvGet url (inl res)) (lookup c identifier rels t).2 ->
  ~ (200 <= StatusCode res < 300)%Z ->
  (lookup c identifier rels t).1.1 = Err (StatusError (Status res)) /\
  bodyRead (lookup c identifier rels t).2 = false.
Proof.
  intros Hin Hst.
  assert (Hbad : in2xx res = false).
  { unfold in2xx. apply andb_false_iff.
    destruct (Z.leb_spec 200 (StatusCode res)); [|by left].
    right. apply Z.ltb_ge. lia. }
  destruct (Parse identifier) as [r|e] eqn:HP.
  2: { destruct (Lookup_parse_error c identifier rels e t HP) as [H _].
       rewrite H in Hin. done. }
  rewrite (Client_Lookup_run _ _ _ _ _ HP) in *. cbv zeta in *.
  generalize dependent (String_ (withScheme (JRDURL r rels) "http")).
  generalize dependent (String_ (JRDURL r rels)).
  generalize ("Looking up WebFinger data for " +:+ Resource_String r).
  intros line first second.
  destruct (httpGet first t) as [[res1|err] t1].
  - intros [Hin|[_ [?|?]]]%In_answered; [|done..].
    cbn [In] in Hin. destruct Hin as [?|[?|[?|[]]]]; simplify_eq/=.
    by rewrite answered_bad.
  - destruct (isRefused _ && _).
    + destruct (httpGet second t1) as [[res2|err2] t2].
      * intros [Hin|[_ [?|?]]]%In_answered; [|done..].
        cbn [In] in Hin.
        destruct Hin as [?|[?|[?|[?|[?|[]]]]]]; simplify_eq/=.
        by rewrite answered_bad.
      * cbn [snd In]. intros [?|[?|[?|[?|[?|[]]]]]]; simplify_eq/=.
    + cbn [snd In]. intros [?|[?|[?|[]]]]; simplify_eq/=.
Qed.

(** C7: a lookup issues at most two GETs.  The first is for the https
    query URL.  A second is issued exactly when the first ends in a
    transport error whose lower-cased text contains ["connection
    refused"] or ["ssl_certificate_error"] and [AllowHTTP] is set; it is
    for the same URL with the scheme [http], and the lookup ends with
    its outcome.  In every other case of a transport error the error is
    returned at once. *)
Theorem Lookup_single_fallback c identifier rels t :
  length (gets (lookup c identifier rels t).2) <= 2 /\
  forall r, Parse identifier = Ok r ->
    let u := JRDURL r rels in
    (exists rest, String_ u = "https:" +:+ rest /\
                  String_ (withScheme u "http") = "http:" +:+ rest) /\
    match httpGet (String_ u) t with
    | (inl _, _) => gets (lookup c identifier rels t).2 = [String_ u]
    | (inr err, t1) =>
        if isRefused (errToLower err) && AllowHTTP c then
          gets (lookup c identifier rels t).2
            = [String_ u; String_ (withScheme u "http")] /\
          match httpGet (String_ (withScheme u "http")) t1 with
          | (inr err2, t2) =>
              (lookup c identifier rels t).1 = (Err (TransportError err2), t2)
          | (inl _, _) => True
          end
        else
          gets (lookup c identifier rels t).2 = [String_ u] /\
          (lookup c identifier rels t).1 = (Err (TransportError err), t1)
    end.
Proof.
  assert (Hrun : forall r, Parse identifier = Ok r ->
    match httpGet (String_ (JRDURL r rels)) t with
    | (inl _, _) =>
        gets (lookup c identifier rels t).2 = [String_ (JRDURL r rels)]
    | (inr err, t1) =>
        if isRefused (errToLower err) && AllowHTTP c then
          gets (lookup c identifier rels t).2
            = [String_ (JRDURL r rels);
               String_ (withScheme (JRDURL r rels) "http")] /\
          match httpGet (String_ (withScheme (JRDURL r rels) "http")) t1 with
          | (inr err2, t2) =>
              (lookup c identifier rels t).1 = (Err (TransportError err2), t2)
          | (inl _, _) => True
          end
        else
          gets (lookup c identifier rels t).2 = [String_ (JRDURL r rels)] /\
          (lookup c identifier rels t).1 = (Err (TransportError err), t1)
    end).
  { intros r HP.
    rewrite (Client_Lookup_run _ _ _ _ _ HP). cbv zeta.
    generalize (String_ (withScheme (JRDURL r rels) "http")).
    generalize (String_ (JRDURL r rels)).
    generalize ("Looking up WebFinger data for " +:+ Resource_String r).
    intros line first second.
    destruct (httpGet first t) as [[res1|err] t1].
    - by rewrite gets_answered.
    - destruct (isRefused _ && _); [|done].
      destruct (httpGet second t1) as [[res2|err2] t2]; [|done].
      by rewrite gets_answered. }
  split.
  - destruct (Parse identifier) as [r|e] eqn:HP.
    + specialize (Hrun r eq_refl).
      destruct (httpGet (String_ (JRDURL r rels)) t) as [[res1|err] t1].
      * rewrite Hrun. cbn [length]. lia.
      * destruct (isRefused _ && _); destruct Hrun as [-> _]; cbn [length]; lia.
    + destruct (Lookup_parse_error c identifier rels e t HP) as [_ ->].
      cbn [length]. lia.
  - intros r HP u. subst u. split; [|by apply Hrun].
    exists ("//" +:+ escape (WebFingerHost r) encodeHost
            +:+ "/.well-known/webfinger?" +:+ RawQuery (JRDURL r rels)).
    split.
    + apply (String_JRDURL r rels "https"). done.
    + apply (String_JRDURL r rels "http"). done.
Qed.

End LookupFacts.

Lemma Lookup_parse_error_witness :
  exampleLookup devClient "example.com" 0
    = (Err (MustBeAbsolute "example.com"), 0, []).
Proof.
  apply (Lookup_parse_error refusedThenNotFound ToLower noJSON noTime
           devClient "example.com" [] (MustBeAbsolute "example.com") 0).
  by vm_compute.
Defined.

Lemma Lookup_status_error_witness :
  (exampleLookup devClient "bob@example.com" 0).1.1
    = Err (StatusError "404 Not Found") /\
  bodyRead (exampleLookup devClient "bob@example.com" 0).2 = false.
Proof.
  apply (Lookup_status_error refusedThenNotFound ToLower noJSON noTime
           devClient "bob@example.com" [] 0
           "http://example.com/.well-known/webfinger?resource=acct%3Abob%40example.com"
           notFound).
  - vm_compute. do 4 right. left. reflexivity.
  - simpl. lia.
Defined.

Lemma Lookup_single_fallback_witness :
  gets (exampleLookup devClient "bob@example.com" 0).2 =
    ["https://example.com/.well-known/webfinger?resource=acct%3Abob%40example.com";
     "http://example.com/.well-known/webfinger?resource=acct%3Abob%40example.com"] /\
  gets (exampleLookup DefaultClient "bob@example.com" 0).2 =
    ["https://example.com/.well-known/webfinger?resource=acct%3Abob%40example.com"].
Proof.
  split.
  - destruct (proj2 (Lookup_single_fallback refusedThenNotFound ToLower
                       noJSON noTime devClient "bob@example.com" [] 0)
                (mkResource "acct" "bob@example.com" "" "")) as [_ H].
    { by vm_compute. }
    vm_compute in H. destruct H as [H _]. vm_compute. exact H.
  - destruct (proj2 (Lookup_single_fallback refusedThenNotFound ToLower
                       noJSON noTime DefaultClient "bob@example.com" [] 0)
                (mkResource "acct" "bob@example.com" "" "")) as [_ H].
    { by vm_compute. }
    vm_compute in H. destruct H as [H _]. vm_compute. exact H.
Defined.

(** ** The identifier parser *)

(** [Parse], unfolded once. *)
Lemma Parse_eq rawurl :
  Parse rawurl =
  match url.Parse rawurl with
  | inr err => Err err
  | inl u =>
      if isEmpty (Scheme u) then
        if negb (length (SplitN rawurl "@" 2) =? 2)%nat
        then Err (MustBeAbsolute rawurl)
        else Parse ("acct:" +:+ rawurl)
      else Ok u
  end.
Proof.
  rewrite Parse_equation_1.
  generalize (inspect (url.Parse rawurl)). intros [[u|err] Hu]; simpl.
  - rewrite Hu. generalize (inspect (isEmpty (Scheme u))).
    intros [[] Hs]; simpl; rewrite Hs; reflexivity.
  - by rewrite Hu.
Qed.

Lemma SplitN2_length c s :
  (length (SplitN s (String c "") 2) =? 2)%nat = oneOf c s.
Proof.
  destruct (Cut_byte_cases c s) as [[H _]|(a & b & -> & Ha & _)].
  - by rewrite SplitN2_None, H.
  - rewrite SplitN2_found by done. rewrite oneOf_app. simpl.
    by rewrite Ascii.eqb_refl, orb_true_r.
Qed.

Lemma getSchemeLoop_empty i s rawURL rest :
  len rawURL = i + len s ->
  getSchemeLoop i s rawURL = Ok ("", rest) -> rest = rawURL.
Proof.
  revert i. induction s as [|c s IH]; intros i Hlen; cbn [getSchemeLoop].
  - by intros [= ->].
  - destruct (inRange "a" "z" c || inRange "A" "Z" c).
    { apply IH. simpl in Hlen. lia. }
    destruct (inRange "0" "9" c || oneOf c "+-.").
    { destruct (i =? 0)%nat; [by intros [= ->]|]. apply IH. simpl in Hlen. lia. }
    destruct (Ascii.eqb c ":"); [|by intros [= ->]].
    destruct (i =? 0)%nat eqn:Ei; [done|]. apply Nat.eqb_neq in Ei.
    intros [= Ht _]. exfalso.
    destruct rawURL; simpl in *; [lia|]. by destruct i.
Qed.

Lemma getScheme_empty rawURL rest :
  getScheme rawURL = Ok ("", rest) -> rest = rawURL.
Proof. apply getSchemeLoop_empty. done. Qed.

Lemma ToLower_empty s : ToLower s = "" -> s = "".
Proof. by destruct s. Qed.

Lemma unescape_path_slash s :
  unescape (String "/" s) encodePath =
  let* t := unescape s encodePath in Ok (String "/" t).
Proof. reflexivity. Qed.

Lemma HasPrefix_app s p : HasPrefix s p = true -> s = p +:+ drop (len p) s.
Proof.
  revert s; induction p as [|a p IH]; intros [|b s]; simpl; try done.
  intros [Hab Hp]%andb_true_iff. apply Ascii.eqb_eq in Hab as ->.
  by rewrite <- (IH _ Hp).
Qed.

Lemma oneOf_Count0 c s : oneOf c s = false -> Count s (String c "") = 0.
Proof.
  unfold Count. induction s as [|d s IH]; simpl; [done|].
  intros [Hd Hs]%orb_false_iff. rewrite Ascii.eqb_sym in Hd.
  rewrite Ascii.eqb_sym, Hd. simpl. auto.
Qed.

Lemma splitQuery_none rest :
  oneOf "?" rest = false -> splitQuery rest = (rest, false, "").
Proof.
  intros H. unfold splitQuery. rewrite (oneOf_Count0 _ _ H).
  rewrite andb_false_r. by rewrite Cut_byte_None.
Qed.

(** A successful parse of a text that starts with ["acct:"] has the
    scheme [acct]. *)
Lemma parse_acct_Scheme a u :
  parse ("acct:" +:+ a) false = Ok u -> Scheme u = "acct".
Proof.
  unfold parse.
  destruct (stringContainsCTLByte _); [discriminate|].
  change (isEmpty ("acct:" +:+ a) && false) with false.
  change (String.eqb ("acct:" +:+ a) "*") with false.
  change (getScheme ("acct:" +:+ a))
    with (@inl (string * string) urlError ("acct", a)).
  cbv beta iota delta [bindE].
  change (ToLower "acct") with "acct".
  destruct (splitQuery a) as [[rest fq] rq].
  destruct (negb (HasPrefix rest "/") && _); [by intros [= <-]|].
  destruct (_ && false); [discriminate|].
  destruct (_ && Contains _ _); [discriminate|].
  destruct (if _ && HasPrefix rest "//" then _ else _)
    as [[[[us ho] re] om]|]; [|discriminate].
  destruct (setPath re) as [[pa rp]|]; [|discriminate].
  by intros [= <-].
Qed.

Lemma Cut_acct rawurl :
  Cut ("acct:" +:+ rawurl) "#" =
  let '(u, frag, found) := Cut rawurl "#" in ("acct:" +:+ u, frag, found).
Proof. unfold Cut. simpl. by destruct (Index rawurl "#"). Qed.

Lemma url_Parse_acct_Scheme rawurl u :
  url.Parse ("acct:" +:+ rawurl) = Ok u -> Scheme u = "acct".
Proof.
  unfold url.Parse. rewrite Cut_acct.
  destruct (Cut rawurl "#") as [[a frag] found].
  destruct (parse _ false) as [u'|] eqn:E; [|done].
  apply parse_acct_Scheme in E.
  destruct (isEmpty frag); [by intros [= <-]|].
  destruct (setFragment frag) as [[f rf]|]; [|done].
  by intros [= <-].
Qed.

(** When a text parses without a scheme, the same text behind ["acct:"]
    parses too; what is not rooted becomes the opaque part. *)
Lemma parse_acct a u :
  parse a false = Ok u -> Scheme u = "" ->
  exists u', parse ("acct:" +:+ a) false = Ok u' /\
             (HasPrefix a "/" = false -> oneOf "?" a = false -> Opaque u' = a).
Proof.
  unfold parse.
  change (stringContainsCTLByte ("acct:" +:+ a)) with (stringContainsCTLByte a).
  destruct (stringContainsCTLByte a); [discriminate|].
  change (isEmpty ("acct:" +:+ a) && false) with false.
  change (String.eqb ("acct:" +:+ a) "*") with false.
  change (getScheme ("acct:" +:+ a))
    with (@inl (string * string) urlError ("acct", a)).
  rewrite andb_false_r.
  destruct (String.eqb_spec a "*") as [->|_].
  { intros _ _. eexists. split; [reflexivity|]. done. }
  destruct (getScheme a) as [[s0 rest0]|] eqn:Hsch; [|discriminate].
  cbv beta iota delta [bindE].
  change (ToLower "acct") with "acct".
  intros Hparse Hs.
  assert (s0 = "" /\ rest0 = a) as [-> ->].
  { destruct (splitQuery rest0) as [[rest fq] rq].
    assert (ToLower s0 = "") as ->%ToLower_empty.
    { repeat (match type of Hparse with
              | (if ?b then _ else _) = _ => destruct b
              | match ?x with _ => _ end = _ => destruct x
              end; try discriminate); by simplify_eq/=. }
    split; [done|]. by apply getScheme_empty. }
  change (ToLower "") with "" in Hparse.
  destruct (splitQuery a) as [[rest fq] rq] eqn:Hq.
  change (isEmpty "acct") with false. change (isEmpty "") with true in Hparse.
  cbn [negb andb orb] in *. rewrite !andb_true_r. rewrite andb_false_r in Hparse.
  destruct (HasPrefix rest "/") eqn:Hroot; cbn [negb andb orb] in *.
  2: { eexists. split; [reflexivity|]. cbn [Opaque]. intros _ Hno.
       rewrite (splitQuery_none _ Hno) in Hq. congruence. }
  assert (Hout : forall o : string,
            HasPrefix a "/" = false -> oneOf "?" a = false -> o = a).
  { intros o H1 H2. rewrite (splitQuery_none _ H2) in Hq. congruence. }
  clear Hq Hsch.
  destruct (HasPrefix rest "//") eqn:H2.
  - destruct (HasPrefix rest "///") eqn:H3; cbn [negb andb orb] in *.
    + (* the authority is empty *)
      apply HasPrefix_app in H3. set (r3 := drop (len "///") rest) in H3.
      clearbody r3. subst rest. clear Hroot H2.
      change (HasPrefix ("///" +:+ r3) "//") with true. cbv iota.
      change (drop 2 ("///" +:+ r3)) with (String "/" r3).
      change (Index (String "/" r3) "/") with (Some 0).
      cbn [take drop bindE]. change (parseAuthority "") with
        (@inl (option Userinfo * string) urlError (None, "")).
      cbn [bindE] in *.
      destruct (setPath _) as [[pa rp]|] eqn:Hp in Hparse; [|discriminate].
      unfold setPath in Hp.
      change ("///" +:+ r3) with (String "/" (String "/" (String "/" r3))) in Hp.
      rewrite !unescape_path_slash in Hp.
      unfold setPath. rewrite unescape_path_slash.
      destruct (unescape r3 encodePath) as [t|]; [|discriminate].
      cbn [bindE]. destruct (String.eqb _ _); eexists; (split; [reflexivity|auto]).
    + destruct (let '(authority, rest1) := _ in _) as [[[[us ho] re] om]|];
        [|discriminate].
      cbn [bindE] in *. destruct (setPath re) as [[pa rp]|]; [|discriminate].
      eexists. split; [reflexivity|auto].
  - rewrite andb_false_r in Hparse. cbn [bindE] in *.
    destruct (setPath rest) as [[pa rp]|]; [|discriminate].
    eexists. split; [reflexivity|auto].
Qed.

Lemma url_Parse_acct rawurl u :
  url.Parse rawurl = Ok u -> Scheme u = "" ->
  exists u', url.Parse ("acct:" +:+ rawurl) = Ok u' /\ Scheme u' = "acct" /\
    (HasPrefix rawurl "/" = false -> oneOf "?" rawurl = false ->
     oneOf "#" rawurl = false -> Opaque u' = rawurl).
Proof.
  intros HP Hs.
  enough (exists u', url.Parse ("acct:" +:+ rawurl) = Ok u' /\
    (HasPrefix rawurl "/" = false -> oneOf "?" rawurl = false ->
     oneOf "#" rawurl = false -> Opaque u' = rawurl)) as (u' & H1 & H2).
  { exists u'. split; [done|]. split; [|done].
    by apply url_Parse_acct_Scheme in H1. }
  revert HP. unfold url.Parse. rewrite Cut_acct.
  destruct (Cut_byte_cases "#" rawurl) as [[Hno ->]|(a & b & -> & Ha & ->)].
  - destruct (parse rawurl false) as [u0|] eqn:E; [|done].
    cbn [isEmpty]. intros [= ->].
    destruct (parse_acct _ _ E Hs) as (u' & -> & Hop).
    exists u'. split; [done|]. auto.
  - destruct (parse a false) as [u0|] eqn:E; [|done].
    intros HP.
    assert (Scheme u0 = "") as Hs0.
    { destruct (isEmpty b); [by simplify_eq/=|].
      destruct (setFragment b) as [[f rf]|]; by simplify_eq/=. }
    destruct (parse_acct _ _ E Hs0) as (u' & -> & Hop).
    assert (Hsharp : oneOf "#" (a +:+ String "#" b) = true).
    { rewrite oneOf_app. simpl. by rewrite orb_true_r. }
    destruct (isEmpty b).
    + exists u'. split; [done|]. intros _ _ H. congruence.
    + destruct (setFragment b) as [[f rf]|]; [|done].
      eexists. split; [reflexivity|]. intros _ _ H. congruence.
Qed.

(** An email-like identifier: [Parse] hands it on behind ["acct:"], and
    that second parse succeeds with the scheme [acct]. *)
Lemma Parse_email rawurl u :
  url.Parse rawurl = Ok u -> Scheme u = "" -> oneOf "@" rawurl = true ->
  exists r, Parse rawurl = Ok r /\ Scheme r = "acct" /\
    url.Parse ("acct:" +:+ rawurl) = Ok r /\
    (HasPrefix rawurl "/" = false -> oneOf "?" rawurl = false ->
     oneOf "#" rawurl = false -> Opaque r = rawurl).
Proof.
  intros HP Hs Hat.
  destruct (url_Parse_acct _ _ HP Hs) as (u' & HP' & Hs' & Hop).
  exists u'. split; [|done].
  rewrite Parse_eq, HP, Hs, SplitN2_length, Hat. cbn [isEmpty negb].
  rewrite Parse_eq, HP', Hs'. done.
Qed.

(** C2, with its last part as the code has it: [Parse] fails where
    [url.Parse] fails, so on ["%"]; a text that parses without a scheme
    and holds no ["@"], such as ["example.com"], is refused as neither
    absolute nor an email address; a text that parses without a scheme
    and holds an ["@"] is parsed again behind ["acct:"], which succeeds
    with scheme [acct], and the opaque part is the whole text when the
    text does not start with ["/"] and holds neither ["?"] nor ["#"]. *)
Theorem Parse_cases (rawurl : string) :
  (forall err, url.Parse rawurl = Err err -> Parse rawurl = Err err) /\
  (forall u, url.Parse rawurl = Ok u -> Scheme u = "" ->
     oneOf "@" rawurl = false -> Parse rawurl = Err (MustBeAbsolute rawurl)) /\
  (forall u, url.Parse rawurl = Ok u -> Scheme u = "" ->
     oneOf "@" rawurl = true ->
     exists r, Parse rawurl = Ok r /\ Scheme r = "acct" /\
       (HasPrefix rawurl "/" = false -> oneOf "?" rawurl = false ->
        oneOf "#" rawurl = false -> Opaque r = rawurl)) /\
  (isOk (url.Parse "%") = false /\ isOk (Parse "%") = false) /\
  Parse "example.com" = Err (MustBeAbsolute "example.com") /\
  Parse "bob@example.com" = Ok (mkResource "acct" "bob@example.com" "" "").
Proof.
  split_and!.
  - intros err HP. by rewrite Parse_eq, HP.
  - intros u HP Hs Hat. by rewrite Parse_eq, HP, Hs, SplitN2_length, Hat.
  - intros u HP Hs Hat.
    destruct (Parse_email _ _ HP Hs Hat) as (r & ? & ? & _ & ?). eauto.
  - by vm_compute.
  - by vm_compute.
  - by vm_compute.
  - by vm_compute.
Qed.

Lemma Parse_cases_witness :
  Parse "a@b@c" = Ok (mkResource "acct" "a@b@c" "" "") /\
  Parse "example.com" = Err (MustBeAbsolute "example.com") /\
  Parse ":" = Err (url_Error "parse" ":" (ErrText "missing protocol scheme")).
Proof.
  split_and!.
  - destruct (proj1 (proj2 (proj2 (Parse_cases "a@b@c")))
                (mkResource "" "" "" "a@b@c"))
      as (r & HP & Hs & Hop); [by vm_compute..|].
    rewrite HP. f_equal.
    specialize (Hop eq_refl eq_refl eq_refl).
    vm_compute in HP. by injection HP as <-.
  - apply (proj1 (proj2 (Parse_cases "example.com"))
             (mkResource "" "" "" "example.com")); by vm_compute.
  - apply (proj1 (Parse_cases ":")). by vm_compute.
Defined.

(** The claim C2 as stated fails on an address whose local part starts
    with ["/"]: the text parses without a scheme and splits into the
    pair ["/bob"], ["example.com"], yet the Resource has an empty opaque
    part and the text as its path. *)
Lemma Parse_email_not_opaque :
  url.Parse "/bob@example.com" = Ok (mkResource "" "" "" "/bob@example.com") /\
  SplitN "/bob@example.com" "@" 2 = ["/bob"; "example.com"] /\
  ~ (exists r, Parse "/bob@example.com" = Ok r /\ Scheme r = "acct" /\
               Opaque r = "/bob@example.com").
Proof.
  split_and!; [by vm_compute..|].
  intros (r & HP & _ & Hop). vm_compute in HP. injection HP as <-. done.
Qed.

(** C9, with its second part as the code has it: a Resource that
    [Parse] returns has a non-empty scheme; when the text itself parses
    without a scheme, so is an email-like identifier, the scheme is
    [acct], the Resource is what [url.Parse] makes of the text behind
    ["acct:"], and the opaque part is the whole text when the text does
    not start with ["/"] and holds neither ["?"] nor ["#"]. *)
Theorem Parse_scheme_nonempty (rawurl : string) (r : Resource) :
  Parse rawurl = Ok r ->
  Scheme r <> "" /\
  (forall u, url.Parse rawurl = Ok u -> Scheme u = "" ->
     oneOf "@" rawurl = true /\ Scheme r = "acct" /\
     url.Parse ("acct:" +:+ rawurl) = Ok r /\
     (HasPrefix rawurl "/" = false -> oneOf "?" rawurl = false ->
      oneOf "#" rawurl = false -> Opaque r = rawurl)).
Proof.
  intros HP.
  rewrite Parse_eq in HP.
  destruct (url.Parse rawurl) as [u|] eqn:Hu; [|done].
  destruct (isEmpty (Scheme u)) eqn:Hs.
  - apply isEmpty_true in Hs. rewrite SplitN2_length in HP.
    destruct (oneOf "@" rawurl) eqn:Hat; [|done]. cbn [negb] in HP.
    destruct (Parse_email _ _ Hu Hs Hat) as (r' & HP' & Hs' & Hacct & Hop).
    rewrite Parse_eq, Hu, Hs, SplitN2_length, Hat in HP'. cbn [isEmpty negb] in HP'.
    assert (r' = r) as -> by congruence.
    split; [by rewrite Hs'|]. intros u' [= <-] _. done.
  - injection HP as <-. apply isEmpty_false in Hs. split; [done|].
    intros u' [= <-] ?. done.
Qed.

Lemma Parse_scheme_nonempty_witness :
  Scheme (mkResource "acct" "bob@example.com" "" "") <> "" /\
  Opaque (mkResource "acct" "bob@example.com" "" "") = "bob@example.com".
Proof.
  destruct (Parse_scheme_nonempty "bob@example.com"
              (mkResource "acct" "bob@example.com" "" "")) as [H1 H2].
  { by vm_compute. }
  split; [exact H1|].
  destruct (H2 (mkResource "" "" "" "bob@example.com")) as (_ & _ & _ & H);
    [by vm_compute..|].
  apply H; reflexivity.
Defined.

(** The claim C9 as stated fails on an email-like identifier with a
    fragment: the text has no scheme and holds an ["@"], [Parse]
    succeeds with scheme [acct], and the opaque part is the text up to
    the ["#"], not the text. *)
Lemma Parse_opaque_not_input :
  oneOf "@" "bob@example.com#me" = true /\
  match url.Parse "bob@example.com#me" with
  | inl u => Scheme u = ""
  | inr _ => False
  end /\
  exists r, Parse "bob@example.com#me" = Ok r /\ Scheme r = "acct" /\
            Opaque r = "bob@example.com" /\ Opaque r <> "bob@example.com#me".
Proof.
  split_and!; [by vm_compute..|].
  eexists. split; [by vm_compute|]. by vm_compute.
Qed.

(** ** Escaping *)

(** A property of every byte, checked on the 256 of them. *)
Ltac each_byte c :=
  destruct c as [[] [] [] [] [] [] [] []];
  first [ reflexivity | discriminate
        | intros; first [reflexivity | discriminate]
        | vm_compute; intros; first [reflexivity | discriminate] ].

Lemma allBytes_app p a b : allBytes p (a +:+ b) = allBytes p a && allBytes p b.
Proof. induction a; simpl; [done|]. by rewrite IHa, andb_assoc. Qed.

Lemma allBytes_impl (p q : ascii -> bool) s :
  (forall c, p c = true -> q c = true) ->
  allBytes p s = true -> allBytes q s = true.
Proof.
  intros Hpq. induction s as [|c s IH]; simpl; [done|].
  intros [Hc Hs]%andb_true_iff. by rewrite (Hpq _ Hc), IH.
Qed.

Lemma allBytes_drop p n s : allBytes p s = true -> allBytes p (drop n s) = true.
Proof.
  revert s; induction n; intros [|c s]; simpl; auto.
  intros [_ Hs]%andb_true_iff. auto.
Qed.

Lemma allBytes_take p n s : allBytes p s = true -> allBytes p (take n s) = true.
Proof.
  revert s; induction n; intros [|c s]; simpl; auto.
  intros [Hc Hs]%andb_true_iff. by rewrite Hc, IHn.
Qed.

Lemma oneOf_allBytes d s :
  oneOf d s = false <-> allBytes (fun c => negb (Ascii.eqb d c)) s = true.
Proof.
  induction s as [|c s IH]; simpl; [done|].
  rewrite orb_false_iff, andb_true_iff, negb_true_iff, IH. done.
Qed.

(** Induction on a string with the tails of shorter length at hand, as
    [unescape] steps over three bytes at a time. *)
Lemma string_len_ind (P : string -> Prop) :
  (forall s, (forall s', len s' < len s -> P s') -> P s) -> forall s, P s.
Proof.
  intros H s. remember (len s) as n eqn:Hn. revert s Hn.
  induction n as [n IH] using lt_wf_ind. intros s ->.
  apply H. intros s' Hlt. by apply (IH (len s')).
Qed.

Lemma escape_cons c s mode :
  escape (String c s) mode = escapeByte c mode +:+ escape s mode.
Proof. reflexivity. Qed.

Lemma escape_app a b mode : escape (a +:+ b) mode = escape a mode +:+ escape b mode.
Proof.
  induction a as [|c a IH]; [done|].
  change (String c a +:+ b) with (String c (a +:+ b)).
  by rewrite !escape_cons, IH, sapp_assoc.
Qed.

Lemma unescape_escapeByte c rest mode :
  plainMode mode = true ->
  unescape (escapeByte c mode +:+ rest) mode =
  let* t := unescape rest mode in Ok (String c t).
Proof. destruct mode; try discriminate; intros _; each_byte c. Qed.

Lemma unescape_escape s mode :
  plainMode mode = true -> unescape (escape s mode) mode = Ok s.
Proof.
  intros Hm. induction s as [|c s IH]; [done|].
  by rewrite escape_cons, unescape_escapeByte, IH.
Qed.

Lemma unescape_escapeByte_host c rest :
  hostByte c = true ->
  unescape (escapeByte c encodeHost +:+ rest) encodeHost =
  let* t := unescape rest encodeHost in Ok (String c t).
Proof. each_byte c. Qed.

Lemma unescape_escapeByte_zone c rest :
  zoneByte c = true ->
  unescape (escapeByte c encodeHost +:+ rest) encodeZone =
  let* t := unescape rest encodeZone in Ok (String c t).
Proof. each_byte c. Qed.

Lemma unescape_escape_host s :
  allBytes hostByte s = true ->
  unescape (escape s encodeHost) encodeHost = Ok s.
Proof.
  induction s as [|c s IH]; [done|]. simpl allBytes.
  intros [Hc Hs]%andb_true_iff.
  by rewrite escape_cons, unescape_escapeByte_host, IH.
Qed.

Lemma unescape_escape_zone s :
  allBytes zoneByte s = true ->
  unescape (escape s encodeHost) encodeZone = Ok s.
Proof.
  induction s as [|c s IH]; [done|]. simpl allBytes.
  intros [Hc Hs]%andb_true_iff.
  by rewrite escape_cons, unescape_escapeByte_zone, IH.
Qed.

Lemma escape_allBytes (q : ascii -> bool) mode s :
  (forall c, allBytes q (escapeByte c mode) = true) ->
  allBytes q (escape s mode) = true.
Proof.
  intros Hq. induction s as [|c s IH]; [done|].
  by rewrite escape_cons, allBytes_app, Hq, IH.
Qed.

Lemma escape_host_authByte s : allBytes authByte (escape s encodeHost) = true.
Proof. apply escape_allBytes. intros c. each_byte c. Qed.

Lemma escape_userinfoByte s :
  allBytes userinfoByte (escape s encodeUserPassword) = true.
Proof. apply escape_allBytes. intros c. each_byte c. Qed.

Lemma escape_pathByte s : allBytes pathByte (escape s encodePath) = true.
Proof. apply escape_allBytes. intros c. each_byte c. Qed.

Lemma validEncoded_pathByte s :
  validEncoded s encodePath = true -> allBytes pathByte s = true.
Proof. apply allBytes_impl. intros c. each_byte c. Qed.

Lemma allBytes_oneOf p d s :
  p d = false -> allBytes p s = true -> oneOf d s = false.
Proof.
  intros Hd. induction s as [|c s IH]; simpl; [done|].
  intros [Hc Hs]%andb_true_iff. rewrite (IH Hs), orb_false_r.
  destruct (Ascii.eqb_spec d c) as [->|]; congruence.
Qed.

(** [unescape], one step at a time. *)
Lemma unescape_plain c s mode :
  Ascii.eqb c "%" = false -> Ascii.eqb c "+" = false ->
  (isHostMode mode && isASCII c && shouldEscape c encodeHost) = false ->
  unescape (String c s) mode = let* t := unescape s mode in Ok (String c t).
Proof.
  intros H1 H2 H3. cbn [unescape]. rewrite H1, H2.
  unfold isASCII in H3. by rewrite H3.
Qed.

Lemma unescape_app_ok a b mode ha :
  unescape a mode = Ok ha ->
  unescape (a +:+ b) mode = let* hb := unescape b mode in Ok (ha +:+ hb).
Proof.
  revert ha. induction a as [a IH] using string_len_ind. intros ha.
  destruct a as [|c a]; [intros [= <-]; simpl; by destruct (unescape b mode)|].
  change (String c a +:+ b) with (String c (a +:+ b)).
  cbn [unescape].
  destruct (Ascii.eqb c "%").
  - destruct a as [|h1 [|h2 a]]; try discriminate.
    change (String h1 (String h2 a) +:+ b) with (String h1 (String h2 (a +:+ b))).
    cbn [take].
    repeat match goal with
           | |- (if ?x then _ else _) = _ -> _ => destruct x; [discriminate|]
           end.
    destruct (unescape a mode) as [t|] eqn:E; [|discriminate].
    intros [= <-]. rewrite (IH a ltac:(simpl; lia) t E).
    by destruct (unescape b mode).
  - destruct (Ascii.eqb c "+").
    + destruct (unescape a mode) as [t|] eqn:E; [|discriminate].
      intros [= <-]. rewrite (IH a ltac:(simpl; lia) t E).
      by destruct (unescape b mode).
    + destruct (_ && _); [discriminate|].
      destruct (unescape a mode) as [t|] eqn:E; [|discriminate].
      intros [= <-]. rewrite (IH a ltac:(simpl; lia) t E).
      by destruct (unescape b mode).
Qed.

(** A text that decodes, cut before a byte that is no hex digit: both
    sides decode. *)
Lemma unescape_app_inv a c b mode h :
  ishex c = false ->
  unescape (a +:+ String c b) mode = Ok h ->
  exists ha hb, unescape a mode = Ok ha /\ unescape (String c b) mode = Ok hb /\
                h = ha +:+ hb.
Proof.
  intros Hc. revert h. induction a as [a IH] using string_len_ind. intros h.
  destruct a as [|d a]; [intros H; by exists "", h|].
  change (String d a +:+ String c b) with (String d (a +:+ String c b)).
  destruct (Ascii.eqb d "%") eqn:Hd.
  - destruct a as [|h1 [|h2 a]].
    + change ("" +:+ String c b) with (String c b).
      cbn [unescape]. rewrite Hd. destruct b; [discriminate|]. by rewrite Hc.
    + change (String h1 "" +:+ String c b) with (String h1 (String c b)).
      cbn [unescape]. by rewrite Hd, Hc, andb_false_r.
    + change (String h1 (String h2 a) +:+ String c b)
        with (String h1 (String h2 (a +:+ String c b))).
      cbn [unescape take]. rewrite Hd.
      repeat match goal with
             | |- (if ?x then _ else _) = _ -> _ => destruct x; [discriminate|]
             end.
      destruct (unescape (a +:+ String c b) mode) as [t|] eqn:E; [|discriminate].
      intros [= <-].
      destruct (IH a ltac:(simpl; lia) t E) as (ha & hb & -> & Hb & ->).
      by exists (String (hexByte h1 h2) ha), hb.
  - cbn [unescape]. rewrite Hd. destruct (Ascii.eqb d "+").
    + destruct (unescape (a +:+ String c b) mode) as [t|] eqn:E; [|discriminate].
      intros [= <-].
      destruct (IH a ltac:(simpl; lia) t E) as (ha & hb & -> & Hb & ->).
      eexists _, hb. split; [reflexivity|]. done.
    + destruct (_ && _); [discriminate|].
      destruct (unescape (a +:+ String c b) mode) as [t|] eqn:E; [|discriminate].
      intros [= <-].
      destruct (IH a ltac:(simpl; lia) t E) as (ha & hb & -> & Hb & ->).
      eexists _, hb. split; [reflexivity|]. done.
Qed.

Lemma ord_hexByte h1 h2 : ord (hexByte h1 h2) = (unhex h1 * 16 + unhex h2)%N.
Proof.
  unfold hexByte, ord. apply N_ascii_embedding.
  assert (H : forall c, (unhex c < 16)%N) by (intros c; each_byte c).
  pose proof (H h1). pose proof (H h2). lia.
Qed.

Lemma hexByte_25 h1 h2 s :
  String.eqb (take 3 (String "%" (String h1 (String h2 s)))) "%25" = true ->
  hexByte h1 h2 = "%"%char.
Proof.
  cbn [take]. intros H%String.eqb_eq. by injection H as -> ->.
Qed.

(** What a host decoded in the host mode is made of. *)
Lemma unescape_host_bytes s t :
  unescape s encodeHost = Ok t -> allBytes hostByte t = true.
Proof.
  revert t. induction s as [s IH] using string_len_ind. intros t.
  destruct s as [|c s]; [by intros [= <-]|].
  destruct (Ascii.eqb_spec c "%") as [->|Hc%Ascii.eqb_neq].
  - cbn [unescape Ascii.eqb Bool.eqb].
    destruct s as [|h1 [|h2 s]]; try discriminate.
    destruct (negb _); [discriminate|].
    destruct (true && (unhex h1 <? 8)%N && negb _) eqn:Hchk; [discriminate|].
    cbn [andb].
    destruct (unescape s encodeHost) as [t'|] eqn:E; [|discriminate].
    intros [= <-]. cbn [allBytes]. rewrite (IH s ltac:(simpl; lia) t' E), andb_true_r.
    cbn [andb] in Hchk. apply andb_false_iff in Hchk as [Hchk|Hchk].
    + unfold hostByte. rewrite ord_hexByte. apply N.ltb_ge in Hchk.
      replace (128 <=? unhex h1 * 16 + unhex h2)%N with true
        by (symmetry; apply N.leb_le; lia).
      by rewrite orb_true_r.
    + apply negb_false_iff, hexByte_25 in Hchk. by rewrite Hchk.
  - cbn [unescape]. rewrite Hc. destruct (Ascii.eqb c "+") eqn:Hplus.
    + destruct (unescape s encodeHost) as [t'|] eqn:E; [|discriminate].
      intros [= <-]. cbn [allBytes]. by rewrite (IH s ltac:(simpl; lia) t' E).
    + destruct (_ && _) eqn:Hchk; [discriminate|].
      destruct (unescape s encodeHost) as [t'|] eqn:E; [|discriminate].
      intros [= <-]. cbn [allBytes]. rewrite (IH s ltac:(simpl; lia) t' E), andb_true_r.
      revert Hchk. clear. each_byte c.
Qed.

(** What a zone decoded in the zone mode is made of: the bytes of a
    zone, and the bytes from 0x80 up that the text held unescaped. *)
Lemma unescape_zone_bytes s t :
  unescape s encodeZone = Ok t ->
  allBytes (fun c => zoneByte c || negb (isASCII c)) t = true.
Proof.
  revert t. induction s as [s IH] using string_len_ind. intros t.
  destruct s as [|c s]; [by intros [= <-]|].
  destruct (Ascii.eqb_spec c "%") as [->|Hc%Ascii.eqb_neq].
  - cbn [unescape Ascii.eqb Bool.eqb].
    destruct s as [|h1 [|h2 s]]; try discriminate.
    destruct (negb _); [discriminate|]. cbn [andb].
    destruct (negb (String.eqb _ _) && _ && _) eqn:Hchk; [discriminate|].
    destruct (unescape s encodeZone) as [t'|] eqn:E; [|discriminate].
    intros [= <-]. cbn [allBytes]. rewrite (IH s ltac:(simpl; lia) t' E), andb_true_r.
    unfold zoneByte.
    apply andb_false_iff in Hchk as [Hchk|Hchk];
      [apply andb_false_iff in Hchk as [Hchk|Hchk]|].
    + apply negb_false_iff, hexByte_25 in Hchk. by rewrite Hchk.
    + apply negb_false_iff in Hchk. by rewrite Hchk, !orb_true_r.
    + by rewrite Hchk.
  - cbn [unescape]. rewrite Hc. destruct (Ascii.eqb c "+") eqn:Hplus.
    + destruct (unescape s encodeZone) as [t'|] eqn:E; [|discriminate].
      intros [= <-]. cbn [allBytes]. by rewrite (IH s ltac:(simpl; lia) t' E).
    + destruct (_ && _) eqn:Hchk; [discriminate|].
      destruct (unescape s encodeZone) as [t'|] eqn:E; [|discriminate].
      intros [= <-]. cbn [allBytes]. rewrite (IH s ltac:(simpl; lia) t' E), andb_true_r.
      revert Hchk. clear. each_byte c.
Qed.

(** ** Hosts *)

Lemma LastIndex_byte_None c s :
  oneOf c s = false -> LastIndex s (String c "") = None.
Proof.
  induction s as [|d s IH]; [done|]. cbn [oneOf LastIndex].
  intros [Hd Hs]%orb_false_iff. rewrite (IH Hs).
  rewrite HasPrefix_byte. by rewrite Hd.
Qed.

Lemma LastIndex_byte_app c a b :
  oneOf c b = false ->
  LastIndex (a +:+ String c b) (String c "") = Some (len a).
Proof.
  intros Hb. induction a as [|d a IH].
  - change ("" +:+ String c b) with (String c b). cbn [LastIndex].
    rewrite (LastIndex_byte_None _ _ Hb), HasPrefix_byte.
    by rewrite Ascii.eqb_refl.
  - change (String d a +:+ String c b) with (String d (a +:+ String c b)).
    cbn [LastIndex]. by rewrite IH.
Qed.

Lemma LastIndex_byte_Some c s i :
  LastIndex s (String c "") = Some i ->
  exists a b, s = a +:+ String c b /\ len a = i /\ oneOf c b = false.
Proof.
  revert i. induction s as [|d s IH]; intros i; [done|]. cbn [LastIndex].
  destruct (LastIndex s (String c "")) as [j|] eqn:E.
  - intros [= <-]. destruct (IH j eq_refl) as (a & b & -> & <- & Hb).
    by exists (String d a), b.
  - rewrite HasPrefix_byte. destruct (Ascii.eqb_spec c d) as [->|]; [|done].
    intros [= <-]. exists "", s. split; [done|]. split; [done|].
    destruct (oneOf d s) eqn:Ho; [|done]. exfalso. clear IH.
    induction s as [|e s IHs]; [done|]. cbn [LastIndex oneOf] in *.
    destruct (LastIndex s (String d "")); [done|].
    rewrite HasPrefix_byte in E.
    destruct (Ascii.eqb d e); [done|]. auto.
Qed.

Lemma LastIndex_byte_is_None c s :
  LastIndex s (String c "") = None -> oneOf c s = false.
Proof.
  induction s as [|d s IH]; [done|]. cbn [LastIndex oneOf].
  destruct (LastIndex s (String c "")); [done|].
  rewrite HasPrefix_byte. destruct (Ascii.eqb c d); [done|]. auto.
Qed.

Lemma HasPrefix_sapp s p r : HasPrefix s p = true -> HasPrefix (s +:+ r) p = true.
Proof.
  revert s; induction p as [|a p IH]; intros [|b s]; simpl; try done.
  intros [-> Hp]%andb_true_iff. simpl. auto.
Qed.

(** Where the first instance starts, none starts before. *)
Lemma Index_app_None a z p :
  Index (a +:+ z) p = Some (len a) -> a <> "" -> Index a p = None.
Proof.
  destruct p as [|p0 p]; [by destruct a|].
  induction a as [|c a IH]; [done|]. intros H _.
  change (String c a +:+ z) with (String c (a +:+ z)) in H.
  cbn [Index] in *.
  destruct (HasPrefix (String c (a +:+ z)) (String p0 p)) eqn:Hp; [done|].
  destruct (HasPrefix (String c a) (String p0 p)) eqn:Hp'.
  { apply (HasPrefix_sapp _ _ z) in Hp'.
    change (String c a +:+ z) with (String c (a +:+ z)) in Hp'. congruence. }
  destruct (Index (a +:+ z) (String p0 p)) as [j|] eqn:E; [|done].
  injection H as ->. destruct a as [|d a]; [done|]. by rewrite IH.
Qed.

Lemma Index_Some_split s p i :
  Index s p = Some i ->
  s = take i s +:+ drop i s /\ HasPrefix (drop i s) p = true /\ len (take i s) = i.
Proof.
  revert i. induction s as [|c s IH]; intros i; cbn [Index].
  - destruct (HasPrefix "" p) eqn:E; [|done]. by intros [= <-].
  - destruct (HasPrefix (String c s) p) eqn:E; [by intros [= <-]|].
    destruct (Index s p) as [j|]; [|done]. intros [= <-].
    destruct (IH j eq_refl) as (H1 & H2 & H3). cbn [take drop len String.length].
    split; [simpl; congruence|]. split; [done|]. unfold len in *. congruence.
Qed.

Lemma hostPlain_unescape s :
  allBytes hostPlain s = true -> unescape s encodeHost = Ok s.
Proof.
  induction s as [|c s IH]; [done|]. cbn [allBytes].
  intros [Hc Hs]%andb_true_iff.
  assert (unescape (String c s) encodeHost =
          let* t := unescape s encodeHost in Ok (String c t)) as ->.
  { revert Hc. clear. each_byte c. }
  by rewrite IH.
Qed.

Lemma hostPlain_escape s :
  allBytes hostPlain s = true -> escape s encodeHost = s.
Proof.
  induction s as [|c s IH]; [done|]. cbn [allBytes].
  intros [Hc Hs]%andb_true_iff. rewrite escape_cons, IH by done.
  revert Hc. clear. each_byte c.
Qed.

Lemma hostPlain_hostByte s :
  allBytes hostPlain s = true -> allBytes hostByte s = true.
Proof. apply allBytes_impl. intros c. each_byte c. Qed.

Lemma port_hostPlain port :
  validOptionalPort port = true -> allBytes hostPlain port = true.
Proof.
  destruct port as [|c digits]; [done|]. cbn [validOptionalPort allBytes].
  intros [Hc Hd]%andb_true_iff. apply Ascii.eqb_eq in Hc as ->.
  apply (allBytes_impl (inRange "0" "9")); [|done]. intros c. each_byte c.
Qed.

Lemma port_no_bracket port :
  validOptionalPort port = true -> oneOf "]" port = false.
Proof.
  destruct port as [|c digits]; [done|]. cbn [validOptionalPort oneOf].
  intros [Hc Hd]%andb_true_iff. apply Ascii.eqb_eq in Hc as ->.
  revert Hd. apply allBytes_oneOf. done.
Qed.

Lemma digits_no_colon digits :
  allBytes (inRange "0" "9") digits = true -> oneOf ":" digits = false.
Proof. apply allBytes_oneOf. done. Qed.

Lemma drop_S_sapp a c b : drop (len a + 1) (a +:+ String c b) = b.
Proof.
  replace (len a + 1) with (len (a +:+ String c "")) by (rewrite len_sapp; done).
  replace (a +:+ String c b) with ((a +:+ String c "") +:+ b)
    by (by rewrite sapp_assoc).
  apply drop_sapp.
Qed.

(** [parseHost] on an IP literal with a zone. *)
Lemma parseHost_zone a z port :
  HasPrefix a "[" = true ->
  Index (a +:+ z) "%25" = Some (len a) ->
  validOptionalPort port = true ->
  parseHost (a +:+ z +:+ String "]" port) =
  let* host1 := unescape a encodeHost in
  let* host2 := unescape z encodeZone in
  let* host3 := unescape (String "]" port) encodeHost in
  Ok (host1 +:+ host2 +:+ host3).
Proof.
  intros Ha Hz Hport. unfold parseHost.
  rewrite (HasPrefix_sapp _ _ _ Ha).
  rewrite <- sapp_assoc.
  rewrite (LastIndex_byte_app _ _ _ (port_no_bracket _ Hport)).
  rewrite drop_S_sapp, Hport, take_sapp, Hz. cbn [negb].
  rewrite !drop_sapp. by rewrite sapp_assoc, take_sapp.
Qed.

(** [parseHost] on an IP literal without a zone. *)
Lemma parseHost_literal a port :
  HasPrefix a "[" = true ->
  Index a "%25" = None ->
  validOptionalPort port = true ->
  parseHost (a +:+ String "]" port) = unescape (a +:+ String "]" port) encodeHost.
Proof.
  intros Ha Hz Hport. unfold parseHost.
  rewrite (HasPrefix_sapp _ _ _ Ha).
  rewrite (LastIndex_byte_app _ _ _ (port_no_bracket _ Hport)).
  by rewrite drop_S_sapp, Hport, take_sapp, Hz.
Qed.

(** [parseHost] on a name with a port. *)
Lemma parseHost_port a digits :
  HasPrefix (a +:+ String ":" digits) "[" = false ->
  allBytes (inRange "0" "9") digits = true ->
  parseHost (a +:+ String ":" digits)
  = unescape (a +:+ String ":" digits) encodeHost.
Proof.
  intros Ha Hd. unfold parseHost. rewrite Ha.
  rewrite (LastIndex_byte_app _ _ _ (digits_no_colon _ Hd)).
  rewrite drop_sapp. cbn [validOptionalPort]. by rewrite Hd.
Qed.

(** [parseHost] on a name without a port. *)
Lemma parseHost_name h :
  HasPrefix h "[" = false -> oneOf ":" h = false ->
  parseHost h = unescape h encodeHost.
Proof.
  intros Hh Hc. unfold parseHost. by rewrite Hh, (LastIndex_byte_None _ _ Hc).
Qed.

Lemma parseHost_shape h0 h : parseHost h0 = Ok h -> hostShape h0.
Proof.
  unfold parseHost. destruct (HasPrefix h0 "[") eqn:Hb.
  - destruct (LastIndex h0 "]") as [i|] eqn:Hi; [|done].
    destruct (LastIndex_byte_Some _ _ _ Hi) as (a & port & -> & <- & Hp).
    rewrite drop_S_sapp, take_sapp.
    destruct (validOptionalPort port) eqn:Hport; [|done]. cbn [negb].
    assert (Ha : HasPrefix a "[" = true).
    { destruct a; [done|]. exact Hb. }
    destruct (Index a "%25") as [zi|] eqn:Hz.
    + intros _. destruct (Index_Some_split _ _ _ Hz) as (Hsplit & Hpre & Hlen).
      rewrite Hsplit, sapp_assoc. apply shape_zone; [| |done].
      * destruct zi; [|by destruct a].
        exfalso. clear Hsplit Hb Hi Hz Hlen.
        destruct a as [|c a]; [done|]. cbn [HasPrefix drop] in Ha, Hpre.
        apply andb_true_iff in Ha as [Ha _].
        apply andb_true_iff in Hpre as [Hpre _].
        apply Ascii.eqb_eq in Ha, Hpre. congruence.
      * by rewrite <- Hsplit, Hlen.
    + intros _. by apply shape_literal.
  - destruct (LastIndex h0 ":") as [i|] eqn:Hi.
    + destruct (LastIndex_byte_Some _ _ _ Hi) as (a & digits & -> & <- & Hp).
      rewrite drop_sapp. cbn [validOptionalPort]. rewrite Ascii.eqb_refl.
      cbn [andb]. destruct (allBytes _ digits) eqn:Hd; [|done].
      intros _. by apply shape_port.
    + intros _. apply shape_name; [done|]. by apply LastIndex_byte_is_None.
Qed.

Lemma Index_cons_None c s p :
  Index (String c s) p = None ->
  HasPrefix (String c s) p = false /\ Index s p = None.
Proof.
  cbn [Index]. destruct (HasPrefix (String c s) p); [done|].
  by destruct (Index s p).
Qed.

(** A host text without ["%25"] decodes to a host without ["%"]. *)
Lemma unescape_host_no_pct s t :
  unescape s encodeHost = Ok t -> Index s "%25" = None -> oneOf "%" t = false.
Proof.
  revert t. induction s as [s IH] using string_len_ind. intros t.
  destruct s as [|c s]; [by intros [= <-]|].
  intros Hu [Hpre Hi]%Index_cons_None. revert Hu.
  destruct (Ascii.eqb_spec c "%") as [->|Hc%Ascii.eqb_neq].
  - cbn [unescape Ascii.eqb Bool.eqb].
    destruct s as [|h1 [|h2 s]]; try discriminate.
    destruct (negb _); [discriminate|].
    destruct (true && (unhex h1 <? 8)%N && negb _) eqn:Hchk; [discriminate|].
    cbn [andb].
    destruct (unescape s encodeHost) as [t'|] eqn:E; [|discriminate].
    intros [= <-]. cbn [oneOf].
    apply Index_cons_None in Hi as [_ Hi]. apply Index_cons_None in Hi as [_ Hi].
    rewrite (IH s ltac:(simpl; lia) t' E Hi), orb_false_r.
    cbn [andb] in Hchk. apply andb_false_iff in Hchk as [Hchk|Hchk].
    + apply N.ltb_ge in Hchk.
      destruct (Ascii.eqb_spec "%" (hexByte h1 h2)) as [Heq|]; [|done].
      pose proof (ord_hexByte h1 h2) as Ho. rewrite <- Heq in Ho.
      assert (H : forall c, (unhex c < 16)%N) by (intros c; each_byte c).
      pose proof (H h2). change (ord "%") with 37%N in Ho. lia.
    + apply negb_false_iff in Hchk. cbn [take] in Hchk.
      cbn [HasPrefix] in Hpre. apply String.eqb_eq in Hchk.
      injection Hchk as -> ->. by destruct s.
  - cbn [unescape]. rewrite Hc. destruct (Ascii.eqb c "+") eqn:Hplus.
    + destruct (unescape s encodeHost) as [t'|] eqn:E; [|discriminate].
      intros [= <-]. cbn [oneOf]. by rewrite (IH s ltac:(simpl; lia) t' E Hi).
    + destruct (_ && _) eqn:Hchk; [discriminate|].
      destruct (unescape s encodeHost) as [t'|] eqn:E; [|discriminate].
      intros [= <-]. cbn [oneOf].
      rewrite (IH s ltac:(simpl; lia) t' E Hi), orb_false_r.
      by rewrite Ascii.eqb_sym.
Qed.

Lemma Index_escapeByte c r :
  hostByte c = true -> Ascii.eqb "%" c = false ->
  Index (escapeByte c encodeHost +:+ r) "%25"
  = (fun i => len (escapeByte c encodeHost) + i) <$> Index r "%25".
Proof.
  destruct c as [[] [] [] [] [] [] [] []]; try discriminate; intros _ _;
    match goal with
    | |- context [escapeByte ?c ?m] =>
        let e := eval vm_compute in (escapeByte c m) in
        change (escapeByte c m) with e
    end;
    cbn [String.append Index HasPrefix Ascii.eqb Bool.eqb andb];
    by destruct (Index r "%25").
Qed.

(** The escaped form of a host without ["%"] holds no ["%25"]. *)
Lemma Index_escape_no_pct t r :
  allBytes hostByte t = true -> oneOf "%" t = false ->
  Index (escape t encodeHost +:+ r) "%25"
  = (fun i => len (escape t encodeHost) + i) <$> Index r "%25".
Proof.
  induction t as [|c t IH]; cbn [allBytes oneOf].
  - intros _ _. simpl. by destruct (Index r "%25").
  - intros [Hc Ht]%andb_true_iff [Hp Hn]%orb_false_iff.
    rewrite escape_cons, sapp_assoc, Index_escapeByte, IH by done.
    destruct (Index r "%25"); [|done]. simpl. f_equal.
    rewrite len_sapp. lia.
Qed.

Lemma escape_first_bracket a t :
  unescape a encodeHost = Ok t -> HasPrefix a "[" = true ->
  HasPrefix (escape t encodeHost) "[" = true.
Proof.
  destruct a as [|c a]; [done|]. cbn [HasPrefix].
  intros Hu [Hc _]%andb_true_iff. apply Ascii.eqb_eq in Hc as <-.
  change (unescape (String "[" a) encodeHost)
    with (let* t := unescape a encodeHost in Ok (String "[" t)) in Hu.
  destruct (unescape a encodeHost); [|done]. by injection Hu as <-.
Qed.

Lemma escape_first_no_bracket c a t r :
  unescape (String c a) encodeHost = Ok t -> Ascii.eqb "[" c = false ->
  HasPrefix (escape t encodeHost +:+ r) "[" = false.
Proof.
  destruct (Ascii.eqb_spec c "%") as [->|Hc%Ascii.eqb_neq].
  - cbn [unescape Ascii.eqb Bool.eqb].
    destruct a as [|h1 [|h2 a]]; try discriminate.
    destruct (negb _); [discriminate|].
    destruct (true && (unhex h1 <? 8)%N && negb _) eqn:Hchk; [discriminate|].
    cbn [andb].
    destruct (unescape a encodeHost) as [t'|] eqn:E; [|discriminate].
    intros [= <-] _. rewrite escape_cons, sapp_assoc.
    assert (Hv : pctDecoded (hexByte h1 h2) = true).
    { unfold pctDecoded. cbn [andb] in Hchk.
      apply andb_false_iff in Hchk as [Hchk|Hchk].
      - rewrite ord_hexByte. apply N.ltb_ge in Hchk.
        replace (128 <=? unhex h1 * 16 + unhex h2)%N with true; [done|].
        symmetry. apply N.leb_le. lia.
      - apply negb_false_iff, hexByte_25 in Hchk. by rewrite Hchk. }
    revert Hv. generalize (hexByte h1 h2). clear. intros v. each_byte v.
  - cbn [unescape]. rewrite Hc. destruct (Ascii.eqb c "+") eqn:Hplus.
    + destruct (unescape a encodeHost) as [t'|]; [|discriminate].
      intros [= <-] Hb. rewrite escape_cons, sapp_assoc.
      revert Hb. clear. each_byte c.
    + destruct (_ && _) eqn:Hchk; [discriminate|].
      destruct (unescape a encodeHost) as [t'|]; [|discriminate].
      intros [= <-] Hb. rewrite escape_cons, sapp_assoc.
      revert Hb. clear. each_byte c.
Qed.

(** Decoding a host does not bring out a [":"] that the text lacks. *)
Lemma unescape_host_no_colon s t :
  unescape s encodeHost = Ok t -> oneOf ":" s = false -> oneOf ":" t = false.
Proof.
  revert t. induction s as [s IH] using string_len_ind. intros t.
  destruct s as [|c s]; [by intros [= <-]|].
  destruct (Ascii.eqb_spec c "%") as [->|Hc%Ascii.eqb_neq].
  - cbn [unescape Ascii.eqb Bool.eqb].
    destruct s as [|h1 [|h2 s]]; try discriminate.
    destruct (negb _); [discriminate|].
    destruct (true && (unhex h1 <? 8)%N && negb _) eqn:Hchk; [discriminate|].
    cbn [andb].
    destruct (unescape s encodeHost) as [t'|] eqn:E; [|discriminate].
    intros [= <-] Hs. cbn [oneOf] in *.
    apply orb_false_iff in Hs as [_ Hs]. apply orb_false_iff in Hs as [_ Hs].
    apply orb_false_iff in Hs as [_ Hs].
    rewrite (IH s ltac:(simpl; lia) t' E Hs), orb_false_r.
    assert (Hv : pctDecoded (hexByte h1 h2) = true).
    { unfold pctDecoded. cbn [andb] in Hchk.
      apply andb_false_iff in Hchk as [Hchk|Hchk].
      - rewrite ord_hexByte. apply N.ltb_ge in Hchk.
        replace (128 <=? unhex h1 * 16 + unhex h2)%N with true; [done|].
        symmetry. apply N.leb_le. lia.
      - apply negb_false_iff, hexByte_25 in Hchk. by rewrite Hchk. }
    revert Hv. generalize (hexByte h1 h2). clear. intros v. each_byte v.
  - cbn [unescape]. rewrite Hc. destruct (Ascii.eqb c "+") eqn:Hplus.
    + destruct (unescape s encodeHost) as [t'|] eqn:E; [|discriminate].
      intros [= <-] Hs. cbn [oneOf] in *.
      apply orb_false_iff in Hs as [Hne Hs].
      by rewrite (IH s ltac:(simpl; lia) t' E Hs).
    + destruct (_ && _) eqn:Hchk; [discriminate|].
      destruct (unescape s encodeHost) as [t'|] eqn:E; [|discriminate].
      intros [= <-] Hs. cbn [oneOf] in *.
      apply orb_false_iff in Hs as [Hne Hs].
      by rewrite Hne, (IH s ltac:(simpl; lia) t' E Hs).
Qed.

Lemma escape_host_no_colon t :
  oneOf ":" t = false -> oneOf ":" (escape t encodeHost) = false.
Proof.
  induction t as [|c t IH]; [done|]. cbn [oneOf].
  intros [Hc Ht]%orb_false_iff. rewrite escape_cons, oneOf_app, (IH Ht), orb_false_r.
  revert Hc. clear. each_byte c.
Qed.

Lemma unescape_zone_first z h2 :
  unescape z encodeZone = Ok h2 -> HasPrefix z "%25" = true ->
  exists h2', h2 = String "%" h2'.
Proof.
  intros Hu Hp%HasPrefix_app. rewrite Hp in Hu.
  change (unescape ("%25" +:+ drop (len "%25") z) encodeZone)
    with (let* t := unescape (drop 3 z) encodeZone in Ok (String "%" t)) in Hu.
  destruct (unescape (drop 3 z) encodeZone) as [t|]; [|done].
  injection Hu as <-. eauto.
Qed.

Lemma bracket_port_plain port :
  validOptionalPort port = true ->
  allBytes hostPlain (String "]" port) = true.
Proof. intros H. cbn [allBytes]. by rewrite (port_hostPlain _ H). Qed.

Lemma colon_digits_plain digits :
  allBytes (inRange "0" "9") digits = true ->
  allBytes hostPlain (String ":" digits) = true.
Proof. intros H. by apply (port_hostPlain (String ":" digits)). Qed.

Lemma zone_bytes_ascii h :
  allBytes (fun c => zoneByte c || negb (isASCII c)) h = true ->
  allBytes isASCII h = true -> allBytes zoneByte h = true.
Proof.
  induction h as [|c h IH]; [done|]. cbn [allBytes].
  intros [Hc Hh]%andb_true_iff [Ha Hh']%andb_true_iff.
  rewrite (IH Hh Hh'), andb_true_r. rewrite Ha in Hc.
  by rewrite orb_false_r in Hc.
Qed.

Lemma hostZone_app h1 rest :
  oneOf "%" h1 = false ->
  hostZone (h1 +:+ String "%" rest) = String "%" rest.
Proof.
  induction h1 as [|c h1 IH]; [done|]. cbn [oneOf String.append hostZone].
  intros [Hc Hh]%orb_false_iff. rewrite Ascii.eqb_sym in Hc.
  rewrite Hc. by apply IH.
Qed.

(** The host that [parseHost] returns, written out by [escape], is a
    host text that [parseHost] reads back as the same host. *)
Lemma parseHost_roundtrip h0 h :
  parseHost h0 = Ok h -> zoneOK h = true ->
  parseHost (escape h encodeHost) = Ok h.
Proof.
  intros HP Hzone. pose proof (parseHost_shape _ _ HP) as Hshape.
  destruct Hshape as [a z port Ha Hz Hport|a port Ha Hz Hport
                     |a digits Ha Hd|h0 Hb Hc].
  - (* an IP literal with a zone *)
    rewrite parseHost_zone in HP by done.
    rewrite (hostPlain_unescape _ (bracket_port_plain _ Hport)) in HP.
    destruct (unescape a encodeHost) as [h1|] eqn:E1; [|done].
    destruct (unescape z encodeZone) as [h2|] eqn:E2; [|done].
    cbn [bindE] in HP. injection HP as <-.
    assert (Hpre : HasPrefix z "%25" = true).
    { destruct (Index_Some_split _ _ _ Hz) as (_ & H & _).
      by rewrite drop_sapp in H. }
    destruct (unescape_zone_first _ _ E2 Hpre) as (h2' & ->).
    assert (Hne : a <> "") by (by destruct a).
    pose proof (unescape_host_no_pct _ _ E1 (Index_app_None _ _ _ Hz Hne)) as Hnp.
    pose proof (unescape_host_bytes _ _ E1) as Hb1.
    pose proof (escape_first_bracket _ _ E1 Ha) as Hb.
    assert (Hascii : allBytes zoneByte (String "%" h2') = true).
    { apply zone_bytes_ascii; [by apply (unescape_zone_bytes z)|].
      unfold zoneOK in Hzone.
      assert (HasPrefix (h1 +:+ String "%" h2' +:+ String "]" port) "[" = true)
        as Hpref.
      { destruct h1 as [|c h1]; [done|]. rewrite escape_cons in Hb.
        cbn [String.append HasPrefix]. revert Hb.
        generalize (escape h1 encodeHost). clear. each_byte c. }
      rewrite Hpref in Hzone. cbn [negb orb] in Hzone.
      change (String "%" h2' +:+ String "]" port)
        with (String "%" (h2' +:+ String "]" port)) in Hzone.
      rewrite (hostZone_app _ _ Hnp) in Hzone.
      cbn [allBytes] in Hzone |- *.
      rewrite (allBytes_app isASCII h2') in Hzone.
      apply andb_true_iff in Hzone as [Hc [Hzone _]%andb_true_iff].
      by rewrite Hc, Hzone. }
    rewrite !escape_app, (hostPlain_escape _ (bracket_port_plain _ Hport)).
    rewrite parseHost_zone; [|done| |done].
    + rewrite (unescape_escape_host _ Hb1), (unescape_escape_zone _ Hascii).
      by rewrite (hostPlain_unescape _ (bracket_port_plain _ Hport)).
    + rewrite Index_escape_no_pct by done.
      rewrite escape_cons.
      change (escapeByte "%" encodeHost) with "%25".
      change (Index ("%25" +:+ escape h2' encodeHost) "%25") with (Some 0).
      simpl. f_equal. lia.
  - (* an IP literal *)
    rewrite parseHost_literal in HP by done.
    pose proof (unescape_host_bytes _ _ HP) as Hbytes.
    destruct (unescape_app_inv a "]" port encodeHost h eq_refl HP)
      as (h1 & hb & E1 & Eb & ->).
    rewrite (hostPlain_unescape _ (bracket_port_plain _ Hport)) in Eb.
    injection Eb as <-.
    rewrite escape_app, (hostPlain_escape _ (bracket_port_plain _ Hport)).
    rewrite parseHost_literal; [|by apply (escape_first_bracket a)| |done].
    + rewrite <- (hostPlain_escape _ (bracket_port_plain _ Hport)) at 1.
      rewrite <- escape_app. by apply unescape_escape_host.
    + pose proof (proj1 (andb_true_iff _ _)
                    (eq_trans (eq_sym (allBytes_app _ _ _)) Hbytes)) as [Hb1 _].
      pose proof (Index_escape_no_pct h1 "" Hb1
                    (unescape_host_no_pct _ _ E1 Hz)) as Hi.
      by rewrite sapp_nil_r in Hi.
  - (* a name and a port *)
    rewrite parseHost_port in HP by done.
    pose proof (unescape_host_bytes _ _ HP) as Hbytes.
    destruct (unescape_app_inv a ":" digits encodeHost h eq_refl HP)
      as (h1 & hb & E1 & Eb & ->).
    rewrite (hostPlain_unescape _ (colon_digits_plain _ Hd)) in Eb.
    injection Eb as <-.
    rewrite escape_app, (hostPlain_escape _ (colon_digits_plain _ Hd)).
    rewrite parseHost_port; [| |done].
    + rewrite <- (hostPlain_escape _ (colon_digits_plain _ Hd)) at 1.
      rewrite <- escape_app. by apply unescape_escape_host.
    + destruct a as [|c a]; [by injection E1 as <-|].
      apply (escape_first_no_bracket c a); [done|].
      cbn [String.append HasPrefix] in Ha. by rewrite andb_true_r in Ha.
  - (* a name *)
    rewrite parseHost_name in HP by done.
    pose proof (unescape_host_bytes _ _ HP) as Hbytes.
    rewrite parseHost_name.
    + by apply unescape_escape_host.
    + destruct h0 as [|c a]; [by injection HP as <-|].
      rewrite <- (sapp_nil_r (escape h encodeHost)).
      apply (escape_first_no_bracket c a); [done|].
      cbn [HasPrefix] in Hb. by rewrite andb_true_r in Hb.
    + apply escape_host_no_colon. by apply (unescape_host_no_colon h0).
Qed.

(** ** The zone of a host *)













(** ** Authorities *)

Lemma Contains_byte c s : Contains s (String c "") = oneOf c s.
Proof.
  unfold Contains. destruct (oneOf c s) eqn:E.
  - destruct (Index s (String c "")) eqn:Hi; [by apply bool_decide_eq_true|].
    apply Index_byte_is_None in Hi. congruence.
  - rewrite (Index_byte_None _ _ E). apply bool_decide_eq_false.
    by intros [? ?].
Qed.

Lemma escape_host_no_at h : oneOf "@" (escape h encodeHost) = false.
Proof. apply (allBytes_oneOf authByte); [done|apply escape_host_authByte]. Qed.

Lemma escape_user_no_colon s : oneOf ":" (escape s encodeUserPassword) = false.
Proof. apply (allBytes_oneOf userinfoByte); [done|apply escape_userinfoByte]. Qed.

Lemma escape_user_valid s : validUserinfo (escape s encodeUserPassword) = true.
Proof.
  unfold validUserinfo. apply (allBytes_impl userinfoByte); [|apply escape_userinfoByte].
  intros c. unfold userinfoByte. intros [_ H]%andb_true_iff. exact H.
Qed.

Lemma Userinfo_String_valid ui : validUserinfo (Userinfo_String ui) = true.
Proof.
  pose proof (escape_user_valid (username ui)) as H1.
  pose proof (escape_user_valid (password ui)) as H2.
  unfold Userinfo_String, validUserinfo in *. rewrite allBytes_app, H1.
  cbn [andb]. destruct (passwordSet ui); [|done].
  change (":" +:+ escape (password ui) encodeUserPassword)
    with (String ":" (escape (password ui) encodeUserPassword)).
  cbn [allBytes]. by rewrite H2.
Qed.

(** What [parseAuthority] returns is a host of [parseHost] and userinfo
    whose password is empty unless it was given. *)
Lemma parseAuthority_inv a user h :
  parseAuthority a = Ok (user, h) ->
  userOK user /\ exists h0, parseHost h0 = Ok h.
Proof.
  unfold parseAuthority.
  destruct (LastIndex a "@") as [i|].
  - destruct (parseHost (drop (i + 1) a)) as [h'|] eqn:E; [|done]. cbn [bindE].
    destruct (negb (validUserinfo _)); [done|].
    destruct (negb (Contains _ _)).
    + destruct (unescape _ _) as [x|]; [|done]. cbn [bindE].
      intros [= <- <-]. split; [|eauto]. by intros ui [= <-].
    + destruct (Cut _ _) as [[x y] f].
      destruct (unescape x _) as [x'|]; [|done]. cbn [bindE].
      destruct (unescape y _) as [y'|]; [|done]. cbn [bindE].
      intros [= <- <-]. split; [|eauto]. by intros ui [= <-].
  - destruct (parseHost a) as [h'|] eqn:E; [|done]. cbn [bindE].
    intros [= <- <-]. split; [|eauto]. by intros ui.
Qed.

(** The authority that [String] writes is read back as it was. *)
Lemma parseAuthority_roundtrip user h h0 :
  userOK user -> parseHost h0 = Ok h -> zoneOK h = true ->
  parseAuthority (authText user h) = Ok (user, h).
Proof.
  intros Hu Hh Hz. pose proof (parseHost_roundtrip _ _ Hh Hz) as HR.
  unfold parseAuthority, authText. destruct user as [ui|].
  - rewrite sapp_assoc.
    change ("@" +:+ escape h encodeHost) with (String "@" (escape h encodeHost)).
    rewrite (LastIndex_byte_app _ _ _ (escape_host_no_at h)).
    rewrite drop_S_sapp, HR, take_sapp. cbn [bindE].
    rewrite Userinfo_String_valid. cbn [negb].
    rewrite Contains_byte. unfold Userinfo_String.
    specialize (Hu ui eq_refl). destruct ui as [x y [|]]; cbn [username password passwordSet] in *.
    + change (":" +:+ escape y encodeUserPassword)
        with (String ":" (escape y encodeUserPassword)).
      rewrite oneOf_app. cbn [oneOf]. rewrite Ascii.eqb_refl, orb_true_r.
      cbn [negb orb]. rewrite (Cut_byte_app _ _ _ (escape_user_no_colon x)).
      by rewrite !unescape_escape.
    + rewrite sapp_nil_r, escape_user_no_colon. cbn [negb].
      rewrite unescape_escape by done. cbn [bindE]. by rewrite (Hu eq_refl).
  - change ("" +:+ escape h encodeHost) with (escape h encodeHost).
    rewrite (LastIndex_byte_None _ _ (escape_host_no_at h)), HR. done.
Qed.




(** ** Schemes *)

Lemma len_snoc a c : len (a +:+ String c "") = S (len a).
Proof. rewrite len_sapp. simpl. lia. Qed.

(** [getScheme] finds a valid scheme before the first [":"]. *)
Lemma getSchemeLoop_valid pre s rest :
  allBytes schemeByte s = true ->
  (pre = "" -> validScheme s = true) ->
  pre +:+ s <> "" ->
  getSchemeLoop (len pre) (s +:+ String ":" rest) (pre +:+ s +:+ String ":" rest)
  = Ok (pre +:+ s, rest).
Proof.
  revert pre. induction s as [|c s IH]; intros pre Hs Hfirst Hne.
  - rewrite sapp_nil_r in *. change ("" +:+ String ":" rest) with (String ":" rest).
    cbn [getSchemeLoop]. change (inRange "a" "z" ":" || inRange "A" "Z" ":") with false.
    change (inRange "0" "9" ":" || oneOf ":" "+-.") with false.
    cbn [Ascii.eqb Bool.eqb]. cbv iota.
    destruct (len pre =? 0)%nat eqn:Hi; [by destruct pre|].
    by rewrite take_sapp, drop_S_sapp.
  - cbn [allBytes] in Hs. apply andb_true_iff in Hs as [Hc Hs].
    change (String c s +:+ String ":" rest) with (String c (s +:+ String ":" rest)).
    cbn [getSchemeLoop]. fold (isLetter c).
    assert (Hraw : pre +:+ String c (s +:+ String ":" rest)
                   = (pre +:+ String c "") +:+ s +:+ String ":" rest).
    { by rewrite sapp_assoc. }
    assert (Hres : pre +:+ String c s = (pre +:+ String c "") +:+ s).
    { by rewrite sapp_assoc. }
    assert (Hrec : getSchemeLoop (S (len pre)) (s +:+ String ":" rest)
                     (pre +:+ String c (s +:+ String ":" rest))
                   = Ok (pre +:+ String c s, rest)).
    { rewrite Hraw, Hres, <- (len_snoc pre c). apply IH; [done| |].
      - by destruct pre.
      - by destruct pre. }
    destruct (isLetter c) eqn:Hl; [exact Hrec|].
    unfold schemeByte in Hc. rewrite Hl in Hc. cbn [orb] in Hc. rewrite Hc.
    destruct pre as [|p pre]; [|exact Hrec].
    specialize (Hfirst eq_refl). cbn [validScheme] in Hfirst.
    by rewrite Hl in Hfirst.
Qed.

Lemma getScheme_valid s rest :
  validScheme s = true ->
  getScheme (s +:+ String ":" rest) = Ok (s, rest).
Proof.
  intros Hv. unfold getScheme.
  apply (getSchemeLoop_valid "" s rest); [|done|by destruct s].
  destruct s as [|c s]; [done|]. cbn [validScheme allBytes] in *.
  apply andb_true_iff in Hv as [Hc Hs]. rewrite Hs, andb_true_r.
  unfold schemeByte. by rewrite Hc.
Qed.

Lemma validScheme_snoc pre c :
  (pre = "" \/ validScheme pre = true) -> schemeByte c = true ->
  (pre = "" -> isLetter c = true) ->
  validScheme (pre +:+ String c "") = true.
Proof.
  intros [->|Hv] Hc Hl.
  - cbn. by rewrite (Hl eq_refl).
  - destruct pre as [|p pre]; [done|]. cbn [validScheme String.append] in *.
    apply andb_true_iff in Hv as [Hp Hpre]. rewrite Hp, allBytes_app, Hpre.
    cbn. by rewrite Hc.
Qed.

(** What [getScheme] returns: no scheme or a valid one, and a rest that
    is the end of the text. *)
Lemma getSchemeLoop_inv pre s s0 rest :
  (pre = "" \/ validScheme pre = true) ->
  getSchemeLoop (len pre) s (pre +:+ s) = Ok (s0, rest) ->
  (s0 = "" \/ validScheme s0 = true) /\ exists n, rest = drop n (pre +:+ s).
Proof.
  revert pre. induction s as [|c s IH]; intros pre Hpre.
  - cbn [getSchemeLoop]. intros [= <- <-]. split; [by left|]. by exists 0.
  - cbn [getSchemeLoop]. fold (isLetter c).
    assert (Hraw : pre +:+ String c s = (pre +:+ String c "") +:+ s).
    { by rewrite sapp_assoc. }
    assert (Hrec : schemeByte c = true -> (pre = "" -> isLetter c = true) ->
              getSchemeLoop (S (len pre)) s (pre +:+ String c s) = Ok (s0, rest) ->
              (s0 = "" \/ validScheme s0 = true) /\
              exists n, rest = drop n (pre +:+ String c s)).
    { intros Hc Hl. rewrite Hraw, <- (len_snoc pre c). apply IH. right.
      by apply validScheme_snoc. }
    destruct (isLetter c) eqn:Hl.
    { apply Hrec; [|done]. unfold schemeByte. by rewrite Hl. }
    destruct (inRange "0" "9" c || oneOf c "+-.") eqn:Hd.
    { destruct (len pre =? 0)%nat eqn:Hi.
      - intros [= <- <-]. split; [by left|]. by exists 0.
      - apply Hrec; [unfold schemeByte; rewrite Hl; exact Hd|].
        intros ->. done. }
    destruct (Ascii.eqb c ":").
    + destruct (len pre =? 0)%nat eqn:Hi; [done|].
      intros [= <- <-]. rewrite take_sapp. split; [|eauto].
      destruct Hpre as [->|]; [done|]. by right.
    + intros [= <- <-]. split; [by left|]. by exists 0.
Qed.

Lemma getScheme_inv rawURL s0 rest :
  getScheme rawURL = Ok (s0, rest) ->
  (s0 = "" \/ validScheme s0 = true) /\ exists n, rest = drop n rawURL.
Proof. apply (getSchemeLoop_inv "" rawURL). by left. Qed.

Lemma ToLower_idem s : ToLower (ToLower s) = ToLower s.
Proof.
  induction s as [|c s IH]; [done|]. cbn [ToLower]. rewrite IH. f_equal.
  clear. each_byte c.
Qed.

Lemma ToLower_valid s : validScheme s = true -> validScheme (ToLower s) = true.
Proof.
  destruct s as [|c s]; [done|]. cbn [validScheme ToLower].
  intros [Hc Hs]%andb_true_iff. apply andb_true_iff. split.
  - revert Hc. clear. each_byte c.
  - clear Hc. induction s as [|d s IH]; [done|]. cbn [allBytes ToLower] in *.
    apply andb_true_iff in Hs as [Hd Hs]. rewrite (IH Hs), andb_true_r.
    revert Hd. clear. each_byte d.
Qed.

Lemma validScheme_bytes (q : ascii -> bool) s :
  (forall c, schemeByte c = true -> q c = true) ->
  validScheme s = true -> allBytes q s = true.
Proof.
  intros Hq. destruct s as [|c s]; [done|]. cbn [validScheme allBytes].
  intros [Hc Hs]%andb_true_iff. apply andb_true_iff. split.
  - apply Hq. unfold schemeByte. by rewrite Hc.
  - by apply (allBytes_impl schemeByte).
Qed.

(** ** Queries *)

Lemma oneOf_drop c n s : oneOf c s = false -> oneOf c (drop n s) = false.
Proof.
  rewrite !oneOf_allBytes. apply allBytes_drop.
Qed.

Lemma HasSuffix_byte_false c s :
  oneOf c s = false -> HasSuffix s (String c "") = false.
Proof.
  intros H. unfold HasSuffix. apply andb_false_iff. right.
  apply String.eqb_neq. intros Heq.
  pose proof (oneOf_drop c (len s - len (String c "")) s H) as Hd.
  rewrite Heq in Hd. cbn [oneOf] in Hd. by rewrite Ascii.eqb_refl in Hd.
Qed.

Lemma drop_add_sapp a n s : drop (len a + n) (a +:+ s) = drop n s.
Proof. induction a; simpl; auto. Qed.

Lemma HasSuffix_sapp x q c :
  q <> "" -> HasSuffix (x +:+ q) (String c "") = HasSuffix q (String c "").
Proof.
  intros Hq. unfold HasSuffix. rewrite len_sapp.
  change (len (String c "")) with 1.
  assert (1 <= len q) by (destruct q; [done|simpl; lia]).
  replace (len x + len q - 1) with (len x + (len q - 1)) by lia.
  rewrite drop_add_sapp.
  replace (1 <=? len x + len q)%nat with true by (symmetry; apply Nat.leb_le; lia).
  replace (1 <=? len q)%nat with true by (symmetry; by apply Nat.leb_le).
  done.
Qed.

Lemma Count_byte_cons c d s :
  Count (String d s) (String c "")
  = (if Ascii.eqb c d then 1 else 0) + Count s (String c "").
Proof.
  unfold Count. cbn [countFrom]. rewrite HasPrefix_byte.
  by destruct (Ascii.eqb c d).
Qed.

Lemma Count_byte_sapp c a s :
  oneOf c a = false -> Count (a +:+ s) (String c "") = Count s (String c "").
Proof.
  induction a as [|d a IH]; [done|]. cbn [oneOf].
  intros [Hd Ha]%orb_false_iff.
  change (String d a +:+ s) with (String d (a +:+ s)).
  by rewrite Count_byte_cons, Hd, IH.
Qed.

Lemma Count_byte_0 c s : Count s (String c "") = 0 -> oneOf c s = false.
Proof.
  induction s as [|d s IH]; [done|]. rewrite Count_byte_cons. cbn [oneOf].
  destruct (Ascii.eqb c d); [done|]. simpl. auto.
Qed.

(** A lone ["?"] at the end forces an empty query. *)
Lemma splitQuery_force a :
  oneOf "?" a = false -> splitQuery (a +:+ "?") = (a, true, "").
Proof.
  intros Ha. unfold splitQuery.
  assert (HasSuffix (a +:+ "?") "?" = true) as ->.
  { unfold HasSuffix. rewrite len_snoc. change (len "?") with 1.
    replace (S (len a) - 1) with (len a) by lia. by rewrite drop_sapp. }
  rewrite (Count_byte_sapp _ _ _ Ha). cbn [andb].
  change (Count "?" "?" =? 1)%nat with true. cbv iota.
  rewrite len_snoc. replace (S (len a) - 1) with (len a) by lia.
  by rewrite take_sapp.
Qed.

(** A non-empty query is what follows the first ["?"]. *)
Lemma splitQuery_query a q :
  oneOf "?" a = false -> q <> "" ->
  splitQuery (a +:+ String "?" q) = (a, false, q).
Proof.
  intros Ha Hq. unfold splitQuery.
  assert (HasSuffix (a +:+ String "?" q) "?"
          && (Count (a +:+ String "?" q) "?" =? 1)%nat = false) as ->.
  { rewrite (Count_byte_sapp _ _ _ Ha), Count_byte_cons. cbn [Ascii.eqb Bool.eqb].
    cbv iota. destruct (Count q "?") eqn:Hc; [|by rewrite andb_false_r].
    apply Count_byte_0 in Hc.
    replace (a +:+ String "?" q) with ((a +:+ "?") +:+ q) by (by rewrite sapp_assoc).
    by rewrite HasSuffix_sapp, HasSuffix_byte_false. }
  by rewrite Cut_byte_app.
Qed.

(** What [splitQuery] takes off is the end of the text, and a forced
    query is empty. *)
Lemma splitQuery_inv rest r fq rq :
  splitQuery rest = (r, fq, rq) ->
  (exists n, rq = drop n rest) /\ (fq = true -> rq = "").
Proof.
  unfold splitQuery. destruct (_ && _).
  - intros [= <- <- <-]. split; [|done]. exists (len rest).
    clear. induction rest; simpl; auto.
  - unfold Cut. destruct (Index rest "?") as [i|].
    + intros [= <- <- <-]. split; [eauto|done].
    + intros [= <- <- <-]. split; [|done]. exists (len rest).
      clear. induction rest; simpl; auto.
Qed.

Lemma Count_byte_app c a b :
  Count (a +:+ b) (String c "")
  = Count a (String c "") + Count b (String c "").
Proof.
  induction a as [|d a IH]; [done|].
  change (String d a +:+ b) with (String d (a +:+ b)).
  rewrite !Count_byte_cons, IH. lia.
Qed.

Lemma splitQuery_rest rest r fq rq :
  splitQuery rest = (r, fq, rq) ->
  (exists n, r = take n rest) /\ oneOf "?" r = false.
Proof.
  unfold splitQuery.
  destruct (HasSuffix rest "?" && (Count rest "?" =? 1)%nat) eqn:E.
  - intros [= <- <- <-]. split; [eauto|].
    apply andb_true_iff in E as [Hsuf Hcount]. apply Nat.eqb_eq in Hcount.
    unfold HasSuffix in Hsuf. apply andb_true_iff in Hsuf as [Hlen Hsuf].
    apply String.eqb_eq in Hsuf. change (len "?") with 1 in *.
    rewrite <- (take_drop_id (len rest - 1) rest) in Hcount.
    rewrite Hsuf, Count_byte_app in Hcount.
    change (Count "?" "?") with 1 in Hcount.
    apply Count_byte_0. lia.
  - destruct (Cut_byte_cases "?" rest) as [[Hn ->]|(a & b & -> & Ha & ->)].
    + intros [= <- <- <-]. split; [|done]. exists (len rest).
      clear. induction rest; simpl; [done|]. by f_equal.
    + intros [= <- <- <-]. split; [|done]. exists (len a). by rewrite take_sapp.
Qed.


(** ** Paths and fragments *)

Lemma unescape_nonempty s t mode :
  unescape s mode = Ok t -> s <> "" -> t <> "".
Proof.
  destruct s as [|c s]; [done|]. intros H _. revert H. cbn [unescape].
  repeat match goal with
         | |- (if ?b then _ else _) = _ -> _ => destruct b
         | |- match ?x with _ => _ end = _ -> _ => destruct x
         | |- (let* _ := ?x in _) = _ -> _ => destruct x; cbn [bindE]
         end; try discriminate; by intros [= <-].
Qed.

Lemma unescape_rooted p t :
  unescape p encodePath = Ok t -> rooted p -> rooted t.
Proof.
  intros Hu [->|Hp]; [left; by injection Hu as <-|]. right.
  apply HasPrefix_app in Hp. rewrite Hp in Hu.
  change ("/" +:+ drop (len "/") p) with (String "/" (drop 1 p)) in Hu.
  rewrite unescape_path_slash in Hu.
  destruct (unescape (drop 1 p) encodePath); [|done]. by injection Hu as <-.
Qed.

Lemma escape_rooted t : rooted t -> rooted (escape t encodePath).
Proof.
  intros [->|Ht]; [by left|]. right. destruct t as [|c t]; [done|].
  cbn [HasPrefix] in Ht. apply andb_true_iff in Ht as [Hc _].
  apply Ascii.eqb_eq in Hc as <-. reflexivity.
Qed.

Lemma rooted_not_star t : rooted t -> String.eqb t "*" = false.
Proof.
  intros [->|Ht]; [done|]. destruct t as [|c t]; [done|].
  cbn [HasPrefix] in Ht. apply andb_true_iff in Ht as [Hc _].
  by apply Ascii.eqb_eq in Hc as <-.
Qed.

Lemma escape_empty t mode : escape t mode = "" -> t = "".
Proof.
  destruct t as [|c t]; [done|]. rewrite escape_cons.
  intros H. exfalso. revert H. generalize (escape t mode). clear.
  intros s. destruct mode; each_byte c.
Qed.

(** The path that [String] writes for a URL of [Parse]: it decodes to
    the path, holds nothing that ends a path, is rooted, and [setPath]
    on it gives a URL for which [String] writes the same path. *)
Lemma EscapedPath_roundtrip (u : URL) p :
  rooted p -> setPath p = Ok (Path u, RawPath u) ->
  let ep := EscapedPath u in
  rooted ep /\ allBytes pathByte ep = true /\
  exists rp, setPath ep = Ok (Path u, rp) /\
    forall v, Path v = Path u -> RawPath v = rp -> EscapedPath v = ep.
Proof.
  intros Hroot. unfold setPath.
  destruct (unescape p encodePath) as [t|] eqn:Hu; [|done]. cbn [bindE].
  pose proof (unescape_rooted _ _ Hu Hroot) as Ht.
  intros Hset.
  assert (Path u = t /\ (RawPath u = "" \/ RawPath u = p)) as [HP HR].
  { destruct (String.eqb p _); injection Hset as <- <-; auto. }
  clear Hset. cbv zeta. unfold EscapedPath. rewrite HP.
  rewrite (rooted_not_star _ Ht).
  (* the path written is the raw path or the escaped path *)
  assert (Hcases :
    (if negb (isEmpty (RawPath u)) && validEncoded (RawPath u) encodePath
        && match unescape (RawPath u) encodePath with
           | inl p0 => String.eqb p0 t
           | inr _ => false
           end
     then RawPath u else escape t encodePath) = escape t encodePath
    \/ (RawPath u = p /\ p <> "" /\ validEncoded p encodePath = true /\
        (if negb (isEmpty (RawPath u)) && validEncoded (RawPath u) encodePath
            && match unescape (RawPath u) encodePath with
               | inl p0 => String.eqb p0 t
               | inr _ => false
               end
         then RawPath u else escape t encodePath) = p)).
  { destruct HR as [-> | ->]; [by left|].
    destruct p as [|c p]; [by left|]. cbn [isEmpty negb andb].
    destruct (validEncoded (String c p) encodePath) eqn:Hv; [|by left].
    rewrite Hu, String.eqb_refl. right. done. }
  destruct Hcases as [-> | (HRp & Hne & Hv & ->)].
  - split; [by apply escape_rooted|]. split; [apply escape_pathByte|].
    exists "". rewrite unescape_escape by done. cbn [bindE].
    rewrite String.eqb_refl. split; [done|].
    intros v -> ->. cbn [isEmpty negb andb].
    by rewrite (rooted_not_star _ Ht).
  - split; [done|]. split; [by apply validEncoded_pathByte|].
    rewrite Hu. cbn [bindE].
    destruct (String.eqb_spec p (escape t encodePath)) as [Heq|Hneq].
    + exists "". split; [done|]. intros v -> ->. cbn [isEmpty negb andb].
      by rewrite (rooted_not_star _ Ht).
    + exists p. split; [done|]. intros v -> ->.
      rewrite Hv, Hu, String.eqb_refl. by destruct p.
Qed.

(** The same for the fragment. *)
Lemma EscapedFragment_roundtrip (u : URL) f :
  setFragment f = Ok (Fragment u, RawFragment u) ->
  let ef := EscapedFragment u in
  (Fragment u <> "" -> ef <> "") /\
  exists rf, setFragment ef = Ok (Fragment u, rf) /\
    forall v, Fragment v = Fragment u -> RawFragment v = rf ->
              EscapedFragment v = ef.
Proof.
  unfold setFragment.
  destruct (unescape f encodeFragment) as [t|] eqn:Hu; [|done]. cbn [bindE].
  intros Hset.
  assert (Fragment u = t /\ (RawFragment u = "" \/ RawFragment u = f)) as [HP HR].
  { destruct (String.eqb f _); injection Hset as <- <-; auto. }
  clear Hset. cbv zeta. unfold EscapedFragment. rewrite HP.
  assert (Hcases :
    (if negb (isEmpty (RawFragment u)) && validEncoded (RawFragment u) encodeFragment
        && match unescape (RawFragment u) encodeFragment with
           | inl p0 => String.eqb p0 t
           | inr _ => false
           end
     then RawFragment u else escape t encodeFragment) = escape t encodeFragment
    \/ (RawFragment u = f /\ f <> "" /\ validEncoded f encodeFragment = true /\
        (if negb (isEmpty (RawFragment u)) && validEncoded (RawFragment u) encodeFragment
            && match unescape (RawFragment u) encodeFragment with
               | inl p0 => String.eqb p0 t
               | inr _ => false
               end
         then RawFragment u else escape t encodeFragment) = f)).
  { destruct HR as [-> | ->]; [by left|].
    destruct f as [|c f]; [by left|]. cbn [isEmpty negb andb].
    destruct (validEncoded (String c f) encodeFragment) eqn:Hv; [|by left].
    rewrite Hu, String.eqb_refl. right. done. }
  destruct Hcases as [-> | (HRp & Hne & Hv & ->)].
  - split; [intros H1 H2; by apply escape_empty in H2|].
    exists "". rewrite unescape_escape by done. cbn [bindE].
    rewrite String.eqb_refl. split; [done|].
    by intros v -> ->.
  - split; [done|].
    rewrite Hu. cbn [bindE].
    destruct (String.eqb_spec f (escape t encodeFragment)) as [Heq|Hneq].
    + exists "". split; [done|]. by intros v -> ->.
    + exists f. split; [done|]. intros v -> ->.
      rewrite Hv, Hu, String.eqb_refl. by destruct f.
Qed.

(** ** The text of a URL with a host *)

Lemma sapp_nonempty_l a b : a <> "" -> a +:+ b <> "".
Proof. by destruct a. Qed.

(** [String] on a URL with a scheme and a host. *)
Lemma String_host (u : URL) :
  Opaque u = "" -> Scheme u <> "" -> Host u <> "" -> rooted (EscapedPath u) ->
  String_ u = (Scheme u +:+ String ":" ("//" +:+ authText (User_ u) (Host u)
               +:+ EscapedPath u +:+ queryText u)) +:+ fragText u.
Proof.
  intros Ho Hs Hh Hp. unfold String_, authText, queryText, fragText.
  rewrite Ho. apply isEmpty_false in Hs, Hh. rewrite Hs, Hh.
  rewrite (andb_false_r (OmitHost u)). cbn [isEmpty negb orb andb].
  assert (negb (isEmpty (EscapedPath u)) && negb (HasPrefix (EscapedPath u) "/")
          && true = false) as ->.
  { destruct Hp as [-> | ->]; [done|]. by rewrite andb_false_r. }
  assert (Hbuf : forall x y, isEmpty (Scheme u +:+ x) && y = false).
  { intros x y. rewrite isEmpty_sapp, Hs. done. }
  destruct (User_ u) as [ui|];
    rewrite ?sapp_assoc, ?Hbuf;
    destruct (ForceQuery u || negb (isEmpty (RawQuery u)));
    destruct (negb (isEmpty (Fragment u)));
    repeat (rewrite ?sapp_assoc, ?sapp_nil_r; cbn [String.append]);
    reflexivity.
Qed.

Lemma authText_sepFree user h : allBytes sepFree (authText user h) = true.
Proof.
  assert (Hh : allBytes sepFree (escape h encodeHost) = true).
  { apply (allBytes_impl authByte); [|apply escape_host_authByte].
    intros c. each_byte c. }
  assert (Hu : forall s, allBytes sepFree (escape s encodeUserPassword) = true).
  { intros s. apply (allBytes_impl userinfoByte); [|apply escape_userinfoByte].
    intros c. each_byte c. }
  unfold authText, Userinfo_String. destruct user as [ui|]; [|exact Hh].
  rewrite !allBytes_app, Hu, Hh.
  destruct (passwordSet ui); [|done].
  change (":" +:+ escape (password ui) encodeUserPassword)
    with (String ":" (escape (password ui) encodeUserPassword)).
  cbn [allBytes]. by rewrite Hu.
Qed.

Lemma stringContainsCTLByte_false s :
  allBytes (fun c => negb (isCTL c)) s = true -> stringContainsCTLByte s = false.
Proof. unfold stringContainsCTLByte, isCTL. by intros ->. Qed.

Lemma Index_rooted a p :
  oneOf "/" a = false -> rooted p ->
  match Index (a +:+ p) "/" with
  | Some i => (take i (a +:+ p), drop i (a +:+ p))
  | None => (a +:+ p, "")
  end = (a, p).
Proof.
  intros Ha [-> | Hp].
  - rewrite sapp_nil_r. by rewrite (Index_byte_None _ _ Ha).
  - apply HasPrefix_app in Hp. rewrite Hp.
    change ("/" +:+ drop (len "/") p) with (String "/" (drop 1 p)).
    rewrite (Index_byte_app _ _ _ Ha). by rewrite take_sapp, drop_sapp.
Qed.

(** [parse] on the text that [String] writes before the fragment goes
    by what [parseAuthority] makes of the authority. *)
Lemma parse_authority_text scheme user host ep fq rq :
  validScheme scheme = true -> ToLower scheme = scheme ->
  rooted ep -> allBytes pathByte ep = true ->
  allBytes queryByte rq = true -> (fq = true -> rq = "") ->
  parse (scheme +:+ String ":" ("//" +:+ authText user host +:+ ep
         +:+ (if fq || negb (isEmpty rq) then "?" +:+ rq else "")))
        false
  = let* (user', host') := parseAuthority (authText user host) in
    let* (path, rp) := setPath ep in
    Ok (hostURL scheme user' host' path rp fq rq).
Proof.
  intros Hsch Hlow Hroot Hpath Hq Hfq.
  set (auth := authText user host).
  set (qt := if fq || negb (isEmpty rq) then "?" +:+ rq else "").
  pose proof (authText_sepFree user host) as Hauth. fold auth in Hauth.
  assert (Hqt : allBytes (fun c => negb (isCTL c)) qt = true).
  { subst qt. destruct (fq || negb (isEmpty rq)); [|done].
    change ("?" +:+ rq) with (String "?" rq). cbn [allBytes].
    apply (allBytes_impl queryByte); [|done]. intros c. each_byte c. }
  unfold parse.
  rewrite stringContainsCTLByte_false.
  2: { rewrite allBytes_app. change (String ":" ?x) with (":" +:+ x).
       change ("//" +:+ ?x) with (String "/" (String "/" x)).
       cbn [String.append allBytes].
       rewrite (validScheme_bytes (fun c => negb (isCTL c)) scheme); [|intros c; each_byte c|done].
       rewrite !allBytes_app, Hqt.
       rewrite (allBytes_impl sepFree (fun c => negb (isCTL c)) auth); [|intros c; each_byte c|done].
       rewrite (allBytes_impl pathByte (fun c => negb (isCTL c)) ep); [|intros c; each_byte c|done].
       done. }
  rewrite andb_false_r.
  assert (String.eqb (scheme +:+ String ":" ("//" +:+ auth +:+ ep +:+ qt)) "*" = false)
    as ->.
  { apply String.eqb_neq. intros E. by destruct scheme as [|c [|d scheme]]. }
  rewrite (getScheme_valid _ _ Hsch). cbn [bindE]. rewrite Hlow.
  assert (Hsplit : splitQuery ("//" +:+ auth +:+ ep +:+ qt)
                   = ("//" +:+ auth +:+ ep, fq, rq)).
  { assert (HA : oneOf "?" ("//" +:+ auth +:+ ep) = false).
    { change ("//" +:+ ?x) with (String "/" (String "/" x)).
      cbn [String.append oneOf Ascii.eqb Bool.eqb orb].
      rewrite oneOf_app.
      rewrite (allBytes_oneOf sepFree "?" auth); [|done|done].
      by rewrite (allBytes_oneOf pathByte "?" ep). }
    replace ("//" +:+ auth +:+ ep +:+ qt) with (("//" +:+ auth +:+ ep) +:+ qt)
      by (by rewrite !sapp_assoc).
    subst qt. destruct fq.
    - rewrite (Hfq eq_refl). cbn [orb]. by apply splitQuery_force.
    - cbn [orb]. destruct rq as [|c rq]; cbn [isEmpty negb].
      + rewrite sapp_nil_r. by apply splitQuery_none.
      + by apply splitQuery_query. }
  rewrite Hsplit.
  change (HasPrefix ("//" +:+ auth +:+ ep) "/") with true.
  change (HasPrefix ("//" +:+ auth +:+ ep) "//") with true.
  assert (isEmpty scheme = false) as -> by (by destruct scheme).
  cbn [negb andb orb].
  change (drop 2 ("//" +:+ auth +:+ ep)) with (auth +:+ ep).
  rewrite Index_rooted; [| |done].
  2: { by apply (allBytes_oneOf sepFree). }
  destruct (parseAuthority auth) as [[user' host']|e]; cbn [bindE]; [|done].
  by destruct (setPath ep) as [[path rp]|e].
Qed.

(** [parse] reads the text that [String] writes before the fragment. *)
Lemma parse_host_text scheme user h0 host ep path rp fq rq :
  validScheme scheme = true -> ToLower scheme = scheme ->
  userOK user -> parseHost h0 = Ok host -> zoneOK host = true ->
  rooted ep -> allBytes pathByte ep = true -> setPath ep = Ok (path, rp) ->
  allBytes queryByte rq = true -> (fq = true -> rq = "") ->
  parse (scheme +:+ String ":" ("//" +:+ authText user host +:+ ep
         +:+ (if fq || negb (isEmpty rq) then "?" +:+ rq else "")))
        false
  = Ok (hostURL scheme user host path rp fq rq).
Proof.
  intros Hsch Hlow Huser Hhost Hzone Hroot Hpath Hset Hq Hfq.
  rewrite parse_authority_text by done.
  rewrite (parseAuthority_roundtrip _ _ _ Huser Hhost Hzone).
  cbn [bindE]. by rewrite Hset.
Qed.

Lemma text_queryByte scheme user host ep (fq : bool) rq :
  validScheme scheme = true -> allBytes pathByte ep = true ->
  allBytes queryByte rq = true ->
  allBytes queryByte
    (scheme +:+ String ":" ("//" +:+ authText user host +:+ ep
     +:+ (if fq || negb (isEmpty rq) then "?" +:+ rq else ""))) = true.
Proof.
  intros Hs Hp Hq. rewrite allBytes_app.
  change ("//" +:+ ?x) with (String "/" (String "/" x)). cbn [allBytes].
  rewrite (validScheme_bytes queryByte scheme); [|intros c; each_byte c|done].
  rewrite !allBytes_app.
  rewrite (allBytes_impl sepFree queryByte); [|intros c; each_byte c|apply authText_sepFree].
  rewrite (allBytes_impl pathByte queryByte ep); [|intros c; each_byte c|done].
  destruct (fq || negb (isEmpty rq)); [|done].
  change ("?" +:+ rq) with (String "?" rq). cbn [allBytes]. by rewrite Hq.
Qed.

(** [url.Parse] reads what [String] writes of a URL with a host, and
    finds an equivalent URL. *)
Lemma Parse_String_host (u : URL) :
  parsedWithHost u -> Host u <> "" -> zoneOK (Host u) = true ->
  exists u', url.Parse (String_ u) = Ok u' /\ equivalent u u'.
Proof.
  intros [Ho Hom [Hv Hl] Hu [h0 Hh0] [p [Hrp Hsp]] [Hq Hfq] Hf] Hh Hz.
  destruct (EscapedPath_roundtrip u p Hrp Hsp) as (Hroot & Hpb & rp & Hset & Hep).
  assert (Hs : Scheme u <> "") by (by destruct (Scheme u)).
  rewrite (String_host u Ho Hs Hh Hroot).
  pose proof (parse_host_text (Scheme u) (User_ u) h0 (Host u) (EscapedPath u)
                (Path u) rp (ForceQuery u) (RawQuery u)
                Hv Hl Hu Hh0 Hz Hroot Hpb Hset Hq Hfq) as Hparse.
  pose proof (text_queryByte (Scheme u) (User_ u) (Host u) (EscapedPath u)
                (ForceQuery u) (RawQuery u) Hv Hpb Hq) as Hbytes.
  apply (allBytes_oneOf queryByte "#") in Hbytes; [|done].
  fold (queryText u) in Hparse, Hbytes.
  set (u0 := hostURL (Scheme u) (User_ u) (Host u) (Path u) rp
               (ForceQuery u) (RawQuery u)) in Hparse.
  assert (Hep0 : forall f rf, EscapedPath (withFragment u0 f rf) = EscapedPath u).
  { intros f rf. by apply Hep. }
  assert (Hform : forall f rf,
            String_ (withFragment u0 f rf)
            = (Scheme u +:+ String ":" ("//" +:+ authText (User_ u) (Host u)
               +:+ EscapedPath u +:+ queryText u))
              +:+ fragText (withFragment u0 f rf)).
  { intros f rf. rewrite String_host; cbn [withFragment u0 hostURL Opaque Scheme Host];
      [|done|done|done|by rewrite Hep0].
    by rewrite Hep0. }
  unfold url.Parse, fragText at 1.
  destruct (isEmpty (Fragment u)) eqn:Hfe; cbn [negb].
  - rewrite sapp_nil_r, (Cut_byte_None "#" _ Hbytes), Hparse. cbn [isEmpty].
    exists u0. split; [done|]. apply isEmpty_true in Hfe.
    unfold equivalent. cbn [u0 hostURL Scheme Opaque User_ Host Path OmitHost
                            ForceQuery RawQuery Fragment].
    split_and!; try done.
    rewrite (String_host u Ho Hs Hh Hroot).
    change u0 with (withFragment u0 "" ""). rewrite Hform.
    unfold fragText. cbn [withFragment Fragment]. by rewrite Hfe.
  - destruct Hf as [Hf | [f Hf]]; [by rewrite Hf in Hfe|].
    destruct (EscapedFragment_roundtrip u f Hf) as (Hne & rf & Hsf & Hef).
    apply isEmpty_false in Hfe. specialize (Hne Hfe). apply isEmpty_false in Hne.
    change ("#" +:+ EscapedFragment u) with (String "#" (EscapedFragment u)).
    rewrite (Cut_byte_app "#" _ _ Hbytes), Hparse, Hne, Hsf.
    eexists. split; [done|].
    unfold equivalent. cbn [withFragment u0 hostURL Scheme Opaque User_ Host Path
                            OmitHost ForceQuery RawQuery Fragment].
    split_and!; try done.
    rewrite (String_host u Ho Hs Hh Hroot), Hform.
    unfold fragText. cbn [withFragment Fragment].
    by rewrite (Hef (withFragment u0 (Fragment u) rf)).
Qed.


(** ** What the first parse guarantees *)

Lemma queryByte_text s :
  stringContainsCTLByte s = false -> oneOf "#" s = false ->
  allBytes queryByte s = true.
Proof.
  unfold stringContainsCTLByte. intros Hc%negb_false_iff.
  induction s as [|c s IH]; [done|]. cbn [allBytes oneOf] in *.
  apply andb_true_iff in Hc as [Hc Hs]. intros [Hh Ho]%orb_false_iff.
  rewrite (IH Hs Ho), andb_true_r. unfold queryByte, isCTL.
  rewrite Hc, andb_true_r. by rewrite Ascii.eqb_sym, Hh.
Qed.

Lemma parsedWithHost_withFragment u f0 f rf :
  parsedWithHost u -> setFragment f0 = Ok (f, rf) ->
  parsedWithHost (withFragment u f rf).
Proof.
  intros [Ho Hom Hs Hu Hh Hp Hq _] Hf. constructor; try done.
  right. by exists f0.
Qed.

Lemma parse_parsedWithHost raw u :
  parse raw false = Ok u -> oneOf "#" raw = false ->
  Scheme u <> "" -> Host u <> "" -> parsedWithHost u.
Proof.
  unfold parse. destruct (stringContainsCTLByte raw) eqn:HCTL; [done|].
  rewrite andb_false_r.
  destruct (String.eqb raw "*"); [by intros [= <-]|].
  destruct (getScheme raw) as [[s0 rest]|e] eqn:Hgs; [|done]. cbn [bindE].
  destruct (splitQuery rest) as [[r fq] rq] eqn:Hsq.
  destruct (negb (HasPrefix r "/") && negb (isEmpty (ToLower s0)));
    [by intros [= <-]|].
  rewrite andb_false_r.
  destruct (negb (HasPrefix r "/") && Contains (Cut r "/").1.1 ":"); [done|].
  destruct ((negb (isEmpty (ToLower s0)) || negb false && negb (HasPrefix r "///"))
            && HasPrefix r "//").
  2: { destruct (negb (isEmpty (ToLower s0)) && HasPrefix r "/"); cbn [bindE];
       destruct (setPath r) as [[path rawPath]|e]; by intros [= <-]. }
  set (auth := drop 2 r).
  assert (exists a p, rooted p /\
            match Index auth "/" with
            | Some i => (take i auth, drop i auth)
            | None => (auth, "")
            end = (a, p)) as (a & p & Hroot & Hsplit).
  { destruct (Index auth "/") as [i|] eqn:HI.
    - eexists _, _. split; [|done]. right.
      by apply Index_Some_split in HI as (_ & HI & _).
    - eexists _, _. split; [|done]. by left. }
  rewrite Hsplit.
  destruct (parseAuthority a) as [[user host]|e] eqn:HPA; [|done]. cbn [bindE].
  destruct (setPath p) as [[path rawPath]|e] eqn:HSP; [|done]. cbn [bindE].
  intros [= <-] Hhash. cbn [Scheme Host]. intros Hs Hh.
  apply getScheme_inv in Hgs as [Hs0 [n ->]].
  apply splitQuery_inv in Hsq as [[m ->] Hfq].
  apply parseAuthority_inv in HPA as [Huser Hhost].
  constructor; cbn [Scheme Opaque User_ Host Path RawPath OmitHost ForceQuery
                    RawQuery Fragment RawFragment]; try done.
  - destruct Hs0 as [-> | Hv]; [done|].
    split; [by apply ToLower_valid | apply ToLower_idem].
  - by exists p.
  - split; [|done]. do 2 apply allBytes_drop. by apply queryByte_text.
  - by left.
Qed.

Lemma url_Parse_parsedWithHost raw u :
  url.Parse raw = Ok u -> Scheme u <> "" -> Host u <> "" -> parsedWithHost u.
Proof.
  unfold url.Parse.
  destruct (Cut_byte_cases "#" raw) as [[Hn HC] | (a & b & -> & Hn & HC)];
    rewrite HC.
  - destruct (parse raw false) as [v|e] eqn:Hp; [|done]. cbn [isEmpty].
    intros [= <-]. by apply (parse_parsedWithHost raw).
  - destruct (parse a false) as [v|e] eqn:Hp; [|done].
    destruct (isEmpty b).
    + intros [= <-]. by apply (parse_parsedWithHost a).
    + destruct (setFragment b) as [[f rf]|e] eqn:Hf; [|done].
      intros [= <-]. cbn [withFragment Scheme Host]. intros Hs Hh.
      apply (parsedWithHost_withFragment _ b); [|done].
      by apply (parse_parsedWithHost a).
Qed.



(** ** The round trip of a URL with a host *)




(** The proviso on the zone is needed: [url.Parse] reads the text of
    an address literal whose zone holds the byte 0x80 as a URL with
    scheme [http] and a host, [Parse] returns that URL, [String]
    writes the byte as ["%80"], and [Parse] refuses that escape in a
    zone. *)
Lemma Parse_zone_no_roundtrip :
  exists u, url.Parse zoneText = Ok u /\ Scheme u = "http" /\
            Host u = zoneHost /\ zoneOK (Host u) = false /\
            Parse zoneText = Ok u /\
            Resource_String u = "http://[::1%25%80]/" /\
            Parse (Resource_String u)
            = Err (url_Error "parse" "http://[::1%25%80]/" (EscapeError "%80")).
Proof.
  eexists. split; [by vm_compute|]. split_and!; by vm_compute.
Qed.

(** A byte from 0x80 up before the zone of an address literal does not
    stand in the way: the host of ["http://[%80%25x]/"] holds the byte
    0x80 before its zone [%x], and the round trip holds. *)
Example Parse_high_before_zone :
  exists u r, url.Parse "http://[%80%25x]/" = Ok u /\
              Host u = String "[" (String "128" "%x]") /\
              zoneOK (Host u) = true /\
              Parse (Resource_String u) = Ok r /\ Host r = Host u /\
              Resource_String r = "http://[%80%25x]/".
Proof.
  do 2 eexists. split; [vm_compute; reflexivity|].
  rewrite (Parse_eq (Resource_String _)).
  do 4 (split; [vm_compute; reflexivity|]). vm_compute; reflexivity.
Qed.

(** ** Texts without a scheme *)

Lemma getSchemeLoop_no_colon i s rawURL :
  oneOf ":" s = false -> getSchemeLoop i s rawURL = Ok ("", rawURL).
Proof.
  revert i. induction s as [|c s IH]; intros i; cbn [getSchemeLoop]; [done|].
  intros H. cbn [oneOf] in H. apply orb_false_iff in H as [Hc Hs].
  destruct (inRange "a" "z" c || inRange "A" "Z" c); [by apply IH|].
  destruct (inRange "0" "9" c || oneOf c "+-.").
  { destruct (i =? 0)%nat; [done|]. by apply IH. }
  by rewrite Ascii.eqb_sym, Hc.
Qed.

Lemma getScheme_no_colon rawURL :
  oneOf ":" rawURL = false -> getScheme rawURL = Ok ("", rawURL).
Proof. apply getSchemeLoop_no_colon. Qed.

(** A text without a colon has no scheme. *)
Lemma parse_no_colon raw u :
  oneOf ":" raw = false -> parse raw false = Ok u -> Scheme u = "".
Proof.
  intros Hc. unfold parse.
  destruct (stringContainsCTLByte raw); [done|].
  destruct (isEmpty raw && false); [done|].
  destruct (String.eqb raw "*"); [by intros [= <-]|].
  rewrite (getScheme_no_colon _ Hc). cbn [bindE ToLower].
  destruct (splitQuery raw) as [[r fq] rq].
  cbn [isEmpty negb]. rewrite !andb_false_r. cbn [orb andb].
  destruct (negb (HasPrefix r "/") && Contains (Cut r "/").1.1 ":"); [done|].
  destruct (negb (HasPrefix r "///") && HasPrefix r "//").
  - destruct (Index (drop 2 r) "/");
      (destruct (parseAuthority _) as [[user host]|]; [|done]); cbn [bindE];
      (destruct (setPath _) as [[p rp]|]; [|done]); by intros [= <-].
  - cbn [bindE]. destruct (setPath r) as [[p rp]|]; [|done]. by intros [= <-].
Qed.

Lemma url_Parse_no_colon raw u :
  oneOf ":" raw = false -> url.Parse raw = Ok u -> Scheme u = "".
Proof.
  intros Hc. unfold url.Parse.
  destruct (Cut_byte_cases "#" raw) as [[_ ->]|(a & b & -> & _ & ->)].
  - destruct (parse raw false) as [v|] eqn:E; [|done]. cbn [isEmpty].
    intros [= <-]. by apply (parse_no_colon raw).
  - rewrite oneOf_app in Hc. apply orb_false_iff in Hc as [Hc _].
    destruct (parse a false) as [v|] eqn:E; [|done].
    apply (parse_no_colon a) in E; [|done].
    destruct (isEmpty b); [by intros [= <-]|].
    destruct (setFragment b) as [[f rf]|]; [|done]. by intros [= <-].
Qed.

(** X1: a text with neither a colon nor an ["@"] is no identifier: it has
    no scheme, as it has no colon, and is not email-like.  [Parse]
    returns the error of [url.Parse] if there is one, and else the
    error that the text must be absolute or an email address; so the
    empty text and a bare host name are refused. *)
Theorem Parse_plain_text (rawurl : string) :
  oneOf ":" rawurl = false -> oneOf "@" rawurl = false ->
  Parse rawurl = match url.Parse rawurl with
                 | inl _ => Err (MustBeAbsolute rawurl)
                 | inr err => Err err
                 end.
Proof.
  intros Hc Hat. rewrite Parse_eq.
  destruct (url.Parse rawurl) as [u|err] eqn:HP; [|done].
  rewrite (url_Parse_no_colon _ _ Hc HP). cbn [isEmpty].
  by rewrite SplitN2_length, Hat.
Qed.

Lemma Parse_plain_text_witness :
  Parse "" = Err (MustBeAbsolute "") /\
  Parse "example.com" = Err (MustBeAbsolute "example.com").
Proof.
  split.
  - apply (Parse_plain_text ""); reflexivity.
  - apply (Parse_plain_text "example.com"); reflexivity.
Defined.

(** ** Email-like identifiers *)

Lemma unescape_no_pct s mode :
  isHostMode mode = false -> oneOf "%" s = false ->
  match mode with encodeQueryComponent => oneOf "+" s | _ => false end = false ->
  unescape s mode = Ok s.
Proof.
  intros Hm. induction s as [|c s IH]; [done|].
  cbn [oneOf]. intros [Hc Hs]%orb_false_iff Hplus.
  cbn [unescape]. rewrite Ascii.eqb_sym, Hc, Hm. cbn [andb].
  destruct (Ascii.eqb c "+") eqn:Ep.
  - apply Ascii.eqb_eq in Ep as ->.
    destruct mode; try done; rewrite IH; try done.
  - rewrite IH; [done|done|].
    destruct mode; try done. cbn [oneOf] in Hplus.
    by apply orb_false_iff in Hplus as [_ ?].
Qed.

Lemma HasPrefix_slashes s : HasPrefix s "/" = false -> HasPrefix s "//" = false.
Proof.
  destruct s as [|c s]; [done|]. cbn [HasPrefix].
  rewrite andb_true_r. by intros ->.
Qed.

Lemma Cut_before_oneOf c d s : oneOf c s = false -> oneOf c (Cut s (String d "")).1.1 = false.
Proof.
  intros Hs.
  destruct (Cut_byte_cases d s) as [[_ ->]|(a & b & -> & _ & ->)]; [done|].
  cbn [fst]. rewrite oneOf_app in Hs. by apply orb_false_iff in Hs as [? _].
Qed.

Lemma emailByte_text raw :
  allBytes emailByte raw = true ->
  stringContainsCTLByte raw = false /\ oneOf ":" raw = false /\
  oneOf "?" raw = false /\ oneOf "#" raw = false /\ oneOf "%" raw = false.
Proof.
  intros H. split_and!.
  - apply stringContainsCTLByte_false.
    apply (allBytes_impl emailByte); [|done]. intros c. each_byte c.
  - by apply (allBytes_oneOf emailByte).
  - by apply (allBytes_oneOf emailByte).
  - by apply (allBytes_oneOf emailByte).
  - by apply (allBytes_oneOf emailByte).
Qed.

(** A text of such bytes that does not start with ["/"] parses, and
    without a scheme. *)
Lemma url_Parse_bare raw :
  allBytes emailByte raw = true -> HasPrefix raw "/" = false ->
  String.eqb raw "*" = false ->
  exists u, url.Parse raw = Ok u /\ Scheme u = "".
Proof.
  intros Hb Hsl Hstar.
  destruct (emailByte_text raw Hb) as (Hctl & Hcolon & Hq & Hhash & Hpct).
  unfold url.Parse. rewrite (Cut_byte_None "#" raw Hhash).
  unfold parse. rewrite Hctl, andb_false_r, Hstar.
  rewrite (getScheme_no_colon _ Hcolon). cbn [bindE ToLower].
  rewrite (splitQuery_none _ Hq). rewrite Hsl. cbn [isEmpty negb andb orb].
  rewrite Contains_byte, (Cut_before_oneOf ":" "/" raw Hcolon).
  rewrite (HasPrefix_slashes _ Hsl), andb_false_r. cbn [bindE].
  unfold setPath. rewrite (unescape_no_pct raw encodePath); [|done..].
  cbn [bindE]. destruct (String.eqb raw (escape raw encodePath));
    cbn [isEmpty]; eexists; (split; [reflexivity|done]).
Qed.

(** What [url.Parse] makes of such a text behind ["acct:"]. *)
Lemma url_Parse_acct_bare raw :
  allBytes emailByte raw = true -> HasPrefix raw "/" = false ->
  url.Parse ("acct:" +:+ raw) = Ok (mkResource "acct" raw "" "").
Proof.
  intros Hb Hsl.
  destruct (emailByte_text raw Hb) as (Hctl & Hcolon & Hq & Hhash & Hpct).
  unfold url.Parse. rewrite Cut_acct, (Cut_byte_None "#" raw Hhash).
  unfold parse.
  assert (stringContainsCTLByte ("acct:" +:+ raw) = false) as ->.
  { unfold stringContainsCTLByte in *. exact Hctl. }
  change (isEmpty ("acct:" +:+ raw) && false) with false.
  change (String.eqb ("acct:" +:+ raw) "*") with false.
  change (getScheme ("acct:" +:+ raw))
    with (@inl (string * string) urlError ("acct", raw)).
  cbv beta iota delta [bindE].
  change (ToLower "acct") with "acct".
  rewrite (splitQuery_none _ Hq), Hsl. reflexivity.
Qed.

Lemma String_opaque_plain scheme opaque :
  scheme <> "" -> opaque <> "" ->
  String_ (mkResource scheme opaque "" "") = scheme +:+ ":" +:+ opaque.
Proof.
  intros Hs Ho. unfold String_, mkResource.
  cbn [Scheme Opaque ForceQuery RawQuery Fragment].
  apply isEmpty_false in Hs, Ho. rewrite Hs, Ho. cbn [isEmpty negb orb].
  by rewrite sapp_assoc.
Qed.

Lemma Parse_bare_acct (rawurl : string) :
  allBytes emailByte rawurl = true -> HasPrefix rawurl "/" = false ->
  oneOf "@" rawurl = true ->
  Parse rawurl = Ok (mkResource "acct" rawurl "" "") /\
  Parse ("acct:" +:+ rawurl) = Ok (mkResource "acct" rawurl "" "").
Proof.
  intros Hb Hsl Hat.
  assert (Hstar : String.eqb rawurl "*" = false).
  { apply String.eqb_neq. by intros ->. }
  destruct (url_Parse_bare rawurl Hb Hsl Hstar) as (u & HP & Hs).
  pose proof (url_Parse_acct_bare rawurl Hb Hsl) as HP'.
  assert (Hacct : Parse ("acct:" +:+ rawurl) = Ok (mkResource "acct" rawurl "" "")).
  { by rewrite Parse_eq, HP'. }
  split; [|done].
  rewrite Parse_eq, HP, Hs, SplitN2_length, Hat. exact Hacct.
Qed.

Lemma WebFingerHost_acct before after :
  oneOf "@" before = false ->
  WebFingerHost (mkResource "acct" (before +:+ "@" +:+ after) "" "") = after.
Proof.
  intros Hbefore. unfold WebFingerHost, mkResource.
  cbn [Host Scheme Opaque isEmpty negb String.eqb Ascii.eqb Bool.eqb orb andb].
  change ("@" +:+ after) with (String "@" after).
  by rewrite (SplitN2_found "@" before after Hbefore).
Qed.

(** X2: an email-like identifier is a text that holds an ["@"], does
    not start with ["/"] and has no colon, ["?"], ["#"], ["%"] or
    control byte.  [Parse] returns the [acct] Resource with the text as
    its opaque part and nothing else; the host to ask is what follows
    the first ["@"]; [String] writes ["acct:"] and the text, and
    [Parse] reads that back as the same Resource. *)
Theorem Parse_email_like (rawurl : string) :
  allBytes emailByte rawurl = true -> HasPrefix rawurl "/" = false ->
  oneOf "@" rawurl = true ->
  let r := mkResource "acct" rawurl "" "" in
  Parse rawurl = Ok r /\
  (forall before after,
     rawurl = before +:+ "@" +:+ after -> oneOf "@" before = false ->
     WebFingerHost r = after) /\
  Resource_String r = "acct:" +:+ rawurl /\
  Parse (Resource_String r) = Ok r.
Proof.
  intros Hb Hsl Hat. cbv zeta.
  assert (Hne : rawurl <> "") by (by intros ->).
  destruct (Parse_bare_acct rawurl Hb Hsl Hat) as [HP Hacct].
  split; [done|]. split.
  { intros before after -> Hbefore. by apply WebFingerHost_acct. }
  unfold Resource_String. rewrite String_opaque_plain by done. done.
Qed.

Lemma Parse_email_like_witness :
  Parse "bob@example.com" = Ok (mkResource "acct" "bob@example.com" "" "") /\
  WebFingerHost (mkResource "acct" "bob@example.com" "" "") = "example.com" /\
  Resource_String (mkResource "acct" "bob@example.com" "" "")
    = "acct:bob@example.com" /\
  Parse "acct:bob@example.com" = Ok (mkResource "acct" "bob@example.com" "" "").
Proof.
  destruct (Parse_email_like "bob@example.com")
    as (H1 & H2 & H3 & H4); [reflexivity..|].
  split; [exact H1|]. split; [exact (H2 "bob" "example.com" eq_refl eq_refl)|].
  split; [exact H3|]. rewrite H3 in H4. exact H4.
Defined.

(** ** The calls of a lookup *)

Section LookupTraces.

Context {T : Type}.
Variable httpGet : string -> T -> (Response + string) * T.
Variable errToLower : string -> string.
Variable readJSON : string -> option json.
Variable parseTime : string -> option Z.

Implicit Types (t : T) (c : Client) (res : Response).

Let lookup := Client_Lookup httpGet errToLower readJSON parseTime.
Let outcome := answered (T:=T) readJSON parseTime.

Lemma Client_Lookup_fail c identifier rels err t :
  Parse identifier = Err err -> lookup c identifier rels t = (Err err, t, []).
Proof. intros HP. subst lookup. unfold Client_Lookup. by rewrite HP. Qed.

Lemma in2xx_true res :
  in2xx res = true <-> (200 <= StatusCode res < 300)%Z.
Proof. unfold in2xx. rewrite andb_true_iff, Z.leb_le, Z.ltb_lt. done. Qed.

(** The calls of a lookup of a well-formed identifier: those up to the
    last GET, none of which was answered, and what follows once a
    response has arrived. *)
Lemma Client_Lookup_calls c identifier rels t r :
  Parse identifier = Ok r ->
  let first := String_ (JRDURL r rels) in
  let second := String_ (withScheme (JRDURL r rels) "http") in
  let log0 := EvLog (Logger c)
                ("Looking up WebFinger data for " +:+ Resource_String r) in
  let log1 := EvLog (Logger c) ("GET " +:+ first) in
  let log2 := EvLog (Logger c) ("GET " +:+ second) in
  exists pre last,
    (pre = [log0; log1] /\ last = first \/
     exists err, pre = [log0; log1; EvGet first (inr err); log2] /\
                 last = second /\
                 isRefused (errToLower err) && AllowHTTP c = true) /\
    Forall (fun e => unanswered e = true) pre /\
    ((exists res t1, lookup c identifier rels t
                     = outcome res t1 (pre ++ [EvGet last (inl res)])) \/
     (exists err t1, lookup c identifier rels t
                     = (Err (TransportError err), t1,
                        pre ++ [EvGet last (inr err)]))).
Proof.
  intros HP. cbv zeta. subst lookup outcome.
  rewrite (Client_Lookup_run _ _ _ _ _ _ _ _ _ HP). cbv zeta.
  destruct (httpGet (String_ (JRDURL r rels)) t) as [[res|err] t1].
  - eexists _, _. split; [by left|]. split; [by repeat (constructor; [reflexivity|])|].
    left. by exists res, t1.
  - destruct (isRefused (errToLower err) && AllowHTTP c) eqn:Hfb.
    + destruct (httpGet _ t1) as [[res|err2] t2].
      * eexists _, _. split; [right; by exists err|].
        split; [by repeat (constructor; [reflexivity|])|]. left. by exists res, t2.
      * eexists _, _. split; [right; by exists err|].
        split; [by repeat (constructor; [reflexivity|])|]. right. by exists err2, t2.
    + eexists _, _. split; [by left|]. split; [by repeat (constructor; [reflexivity|])|].
      right. by exists err, t1.
Qed.

Lemma unanswered_In pre e :
  Forall (fun e => unanswered e = true) pre -> In e pre -> unanswered e = true.
Proof. intros H Hin. by apply (proj1 (List.Forall_forall _ _) H). Qed.

(** The outcome of a lookup in which a GET was answered with a status
    in 200..299. *)
Lemma Client_Lookup_answered c identifier rels t url res :
  In (EvGet url (inl res)) (lookup c identifier rels t).2 ->
  (200 <= StatusCode res < 300)%Z ->
  (lookup c identifier rels t).1.1 =
    match Body res with
    | inl content => ParseJRD readJSON parseTime content
    | inr err => Err (ReadError err)
    end /\
  exists pre, (lookup c identifier rels t).2
              = pre ++ [EvGet url (inl res); EvReadAll; EvClose].
Proof.
  intros Hin Hst%in2xx_true.
  destruct (Parse identifier) as [r|e] eqn:HP.
  2: { by rewrite (Client_Lookup_fail _ _ _ _ _ HP) in Hin. }
  destruct (Client_Lookup_calls c identifier rels t r HP)
    as (pre & last & _ & Hq & [(res' & t1 & Hrun) | (err & t1 & Hrun)]);
    rewrite Hrun in *; clear Hrun.
  - assert (res' = res /\ last = url) as [-> ->].
    { subst outcome. unfold answered in Hin.
      assert (In (EvGet url (inl res)) (pre ++ [EvGet last (inl res')])) as Hin'.
      { destruct (in2xx res'); cbn [snd] in Hin; [|done].
        apply in_app_iff in Hin as [Hin|Hin]; [done|].
        cbn [In] in Hin. by destruct Hin as [?|[?|[]]]. }
      apply in_app_iff in Hin' as [Hin'|Hin'].
      - by apply (unanswered_In _ _ Hq) in Hin'.
      - cbn [In] in Hin'. by destruct Hin' as [[= -> ->]|[]]. }
    subst outcome. unfold answered. rewrite Hst. cbn [fst snd].
    split; [done|]. exists pre. by rewrite <- app_assoc.
  - exfalso. cbn [snd] in Hin. apply in_app_iff in Hin as [Hin|Hin].
    + by apply (unanswered_In _ _ Hq) in Hin.
    + cbn [In] in Hin. by destruct Hin as [?|[]].
Qed.

(** X8: when a GET is answered with a status in 200..299, the lookup reads
    the body to its end, closes it, and returns what [ParseJRD] makes
    of the content, be it a document or an error, or the error of the
    read; these are its last calls. *)
Theorem Lookup_document c identifier rels t url res :
  In (EvGet url (inl res)) (lookup c identifier rels t).2 ->
  (200 <= StatusCode res < 300)%Z ->
  (lookup c identifier rels t).1.1 =
    match Body res with
    | inl content => ParseJRD readJSON parseTime content
    | inr err => Err (ReadError err)
    end /\
  exists pre, (lookup c identifier rels t).2
              = pre ++ [EvGet url (inl res); EvReadAll; EvClose].
Proof. apply Client_Lookup_answered. Qed.

(** X9: a lookup closes the body of a response exactly when it has read
    it, and that is exactly when a response with a status in 200..299
    has arrived; the read and the close are then its last two calls and
    happen once.  So the body of a response with any other status is
    never closed. *)
Theorem Lookup_body_closed c identifier rels t :
  let tr := (lookup c identifier rels t).2 in
  (In EvClose tr <-> In EvReadAll tr) /\
  (In EvClose tr <->
   exists url res, In (EvGet url (inl res)) tr /\
                   (200 <= StatusCode res < 300)%Z) /\
  (In EvClose tr ->
   exists pre, tr = pre ++ [EvReadAll; EvClose] /\
               ~ In EvReadAll pre /\ ~ In EvClose pre).
Proof.
  cbv zeta.
  destruct (Parse identifier) as [r|e] eqn:HP.
  2: { rewrite (Client_Lookup_fail _ _ _ _ _ HP). cbn [snd In].
       split_and!; [done| |done]. split; [done|]. by intros (? & ? & ? & _). }
  destruct (Client_Lookup_calls c identifier rels t r HP)
    as (pre & last & _ & Hq & [(res & t1 & Hrun) | (err & t1 & Hrun)]);
    rewrite Hrun; clear Hrun.
  - assert (Hnone : forall e, In e (pre ++ [EvGet last (inl res)]) ->
                (e <> EvReadAll /\ e <> EvClose) /\
                forall u' res', e = EvGet u' (inl res') -> res' = res).
    { intros e [Hin|Hin]%in_app_iff.
      - apply (unanswered_In _ _ Hq) in Hin.
        split; [by split; intros ->|]. by intros u' res' ->.
      - cbn [In] in Hin. destruct Hin as [<-|[]].
        split; [done|]. by intros u' res' [= _ ->]. }
    subst outcome. unfold answered.
    destruct (in2xx res) eqn:Hst; cbn [snd].
    + apply in2xx_true in Hst. split_and!.
      * rewrite !in_app_iff. cbn [In]. split; intros _; right; auto.
      * split; [|rewrite in_app_iff; cbn [In]; auto].
        intros _. exists last, res. split; [|done].
        rewrite !in_app_iff. cbn [In]. auto.
      * intros _. eexists. split; [done|].
        split; intros [Hin _]%Hnone; by destruct Hin.
    + assert (~ (200 <= StatusCode res < 300)%Z) as Hbad.
      { rewrite <- in2xx_true. by rewrite Hst. }
      split_and!.
      * split; intros [Hin _]%Hnone; by destruct Hin.
      * split.
        -- intros [Hin _]%Hnone. by destruct Hin.
        -- intros (u' & res' & [_ Hin]%Hnone & Hok).
           by rewrite (Hin _ _ eq_refl) in Hok.
      * intros [Hin _]%Hnone. by destruct Hin.
  - cbn [snd].
    assert (Hnone : forall e, In e (pre ++ [EvGet last (inr err)]) ->
                unanswered e = true).
    { intros e [Hin|Hin]%in_app_iff.
      - by apply (unanswered_In _ _ Hq) in Hin.
      - cbn [In] in Hin. by destruct Hin as [<-|[]]. }
    split_and!.
    + split; by intros Hin%Hnone.
    + split.
      * by intros Hin%Hnone.
      * by intros (u' & res' & Hin%Hnone & _).
    + by intros Hin%Hnone.
Qed.


(** The calls of a lookup as one list. *)
Lemma Client_Lookup_shape c identifier rels t r :
  Parse identifier = Ok r ->
  let first := String_ (JRDURL r rels) in
  let second := String_ (withScheme (JRDURL r rels) "http") in
  let log0 := EvLog (Logger c)
                ("Looking up WebFinger data for " +:+ Resource_String r) in
  let log1 := EvLog (Logger c) ("GET " +:+ first) in
  let log2 := EvLog (Logger c) ("GET " +:+ second) in
  exists result tail,
    (tail = [] \/ tail = [EvReadAll; EvClose]) /\
    ((lookup c identifier rels t).2 = [log0; log1; EvGet first result] ++ tail \/
     exists err,
       (lookup c identifier rels t).2
       = [log0; log1; EvGet first (inr err); log2; EvGet second result] ++ tail).
Proof.
  intros HP. cbv zeta.
  destruct (Client_Lookup_calls c identifier rels t r HP)
    as (pre & last & Hpre & _ & [(res & t1 & Hrun) | (err & t1 & Hrun)]);
    rewrite Hrun; clear Hrun.
  - exists (inl res). subst outcome. unfold answered.
    destruct (in2xx res); cbn [snd].
    + exists [EvReadAll; EvClose]. split; [by right|].
      destruct Hpre as [[-> ->] | (err & -> & -> & _)]; [by left|].
      right. by exists err.
    + exists []. split; [by left|]. rewrite app_nil_r.
      destruct Hpre as [[-> ->] | (err & -> & -> & _)]; [by left|].
      right. by exists err.
  - exists (inr err), []. split; [by left|]. cbn [snd]. rewrite app_nil_r.
    destruct Hpre as [[-> ->] | (err' & -> & -> & _)]; [by left|].
    right. by exists err'.
Qed.

(** X10: a lookup of a well-formed identifier first logs the Resource it
    looks up, and logs the URL of every GET right before it issues the
    GET; every line goes to the logger of the client, or to the
    process-wide one when the client has none. *)
Theorem Lookup_logging c identifier rels t r :
  Parse identifier = Ok r ->
  let tr := (lookup c identifier rels t).2 in
  head tr = Some (EvLog (Logger c)
                    ("Looking up WebFinger data for " +:+ Resource_String r)) /\
  (forall lg line, In (EvLog lg line) tr -> lg = Logger c) /\
  (forall i url result, tr !! i = Some (EvGet url result) ->
     exists j, i = S j /\ tr !! j = Some (EvLog (Logger c) ("GET " +:+ url))).
Proof.
  intros HP. cbv zeta.
  destruct (Client_Lookup_shape c identifier rels t r HP)
    as (result & tail & Htail & Htr).
  cbv zeta in Htr.
  generalize dependent (String_ (withScheme (JRDURL r rels) "http")).
  generalize dependent (String_ (JRDURL r rels)).
  generalize ("Looking up WebFinger data for " +:+ Resource_String r).
  intros line first second Htr.
  destruct Htr as [-> | [err ->]]; destruct Htail as [-> | ->];
    (split_and!;
     [ done
     | intros lg l Hin; cbn [app In] in Hin;
       repeat (destruct Hin as [Hin|Hin]; [by simplify_eq/=|]); done
     | intros i url res Hi;
       repeat (destruct i as [|i]; simplify_eq/=; eauto) ]).
Qed.

Lemma gets_first lg l0 l1 first (result : Response + string) :
  gets [EvLog lg l0; EvLog lg l1; EvGet first result] = [first].
Proof. reflexivity. Qed.

(** X11: a client that does not allow HTTP, as [DefaultClient] and the
    clients of [NewClient] are, issues at most one GET, for the https
    query URL, and returns the error of that GET as it is, also when the
    connection was refused. *)
Theorem Lookup_https_only c identifier rels t :
  AllowHTTP c = false ->
  let out := lookup c identifier rels t in
  length (gets out.2) <= 1 /\
  (forall u, In u (gets out.2) -> HasPrefix u "https://" = true) /\
  (forall r err t1,
     Parse identifier = Ok r ->
     httpGet (String_ (JRDURL r rels)) t = (inr err, t1) ->
     out = (Err (TransportError err), t1,
            [EvLog (Logger c)
               ("Looking up WebFinger data for " +:+ Resource_String r);
             EvLog (Logger c) ("GET " +:+ String_ (JRDURL r rels));
             EvGet (String_ (JRDURL r rels)) (inr err)])).
Proof.
  intros Hc. cbv zeta.
  destruct (Parse identifier) as [r|e] eqn:HP.
  2: { rewrite (Client_Lookup_fail _ _ _ _ _ HP). unfold gets. simpl.
       split_and!; [lia|done|done]. }
  assert (Hhttps : HasPrefix (String_ (JRDURL r rels)) "https://" = true).
  { change (JRDURL r rels) with (withScheme (JRDURL r rels) "https").
    rewrite (String_JRDURL r rels "https" ltac:(done)). reflexivity. }
  subst lookup. rewrite (Client_Lookup_run _ _ _ _ _ _ _ _ _ HP). cbv zeta.
  assert (Hgets : forall res t1 evs,
            gets (answered readJSON parseTime res t1 evs).2 = gets evs).
  { intros res t1 evs. apply gets_answered. }
  destruct (httpGet (String_ (JRDURL r rels)) t) as [[res|err] t1] eqn:Hget.
  - rewrite Hgets, gets_first. cbn [length In]. split_and!; [lia| |].
    + intros u [<-|[]]. exact Hhttps.
    + intros r' err t1' [= <-] H. rewrite Hget in H. discriminate H.
  - rewrite Hc, andb_false_r. cbn [snd]. rewrite gets_first. cbn [length In].
    split_and!; [lia| |].
    + intros u [<-|[]]. exact Hhttps.
    + intros r' err' t1' [= <-] H. rewrite Hget in H.
      injection H as [= -> ->]. reflexivity.
Qed.

(** X12: a lookup does not check that the Resource has a host to ask: when
    [WebFingerHost] is empty it still issues the GET, for a URL with an
    empty authority. *)
Theorem Lookup_empty_host c identifier rels t r :
  Parse identifier = Ok r -> WebFingerHost r = "" ->
  head (gets (lookup c identifier rels t).2)
  = Some ("https:///.well-known/webfinger?" +:+ RawQuery (JRDURL r rels)).
Proof.
  intros HP Hh.
  assert (Hurl : String_ (JRDURL r rels)
                 = "https:///.well-known/webfinger?" +:+ RawQuery (JRDURL r rels)).
  { change (JRDURL r rels) with (withScheme (JRDURL r rels) "https") at 1.
    rewrite (String_JRDURL r rels "https" ltac:(done)). by rewrite Hh. }
  destruct (Client_Lookup_shape c identifier rels t r HP)
    as (result & tail & Htail & Htr).
  cbv zeta in Htr. rewrite <- Hurl.
  destruct Htr as [-> | [err ->]]; destruct Htail as [-> | ->]; reflexivity.
Qed.

(** X17: looking up an email-like identifier is looking up the [acct]
    URL of the same text: the calls and the result are the same, and
    the first GET goes, over https, with the [acct] URL as the
    resource, to the host that follows the first ["@"], written as
    [String] writes a host: with an escape for every byte that needs
    one in a host, so that [a@b@c] is asked at [b%40c], and as it is
    when no byte of it needs one, as in [bob@example.com]. *)
Theorem Lookup_email_like c (rawurl : string) rels t :
  allBytes emailByte rawurl = true -> HasPrefix rawurl "/" = false ->
  oneOf "@" rawurl = true ->
  lookup c rawurl rels t = lookup c ("acct:" +:+ rawurl) rels t /\
  (forall before after,
     rawurl = before +:+ "@" +:+ after -> oneOf "@" before = false ->
     head (gets (lookup c rawurl rels t).2)
     = Some ("https://" +:+ escape after encodeHost
             +:+ "/.well-known/webfinger?"
             +:+ Join (map (fun rel => "rel=" +:+ QueryEscape rel) rels
                       ++ ["resource=" +:+ QueryEscape ("acct:" +:+ rawurl)])
                      "&") /\
     (allBytes hostPlain after = true ->
      head (gets (lookup c rawurl rels t).2)
      = Some ("https://" +:+ after
              +:+ "/.well-known/webfinger?"
              +:+ Join (map (fun rel => "rel=" +:+ QueryEscape rel) rels
                        ++ ["resource=" +:+ QueryEscape ("acct:" +:+ rawurl)])
                       "&"))).
Proof.
  intros Hb Hsl Hat.
  destruct (Parse_bare_acct rawurl Hb Hsl Hat) as [HP Hacct].
  split.
  { subst lookup. unfold Client_Lookup. by rewrite HP, Hacct. }
  intros before after Hraw Hbefore.
  assert (Hurl : String_ (JRDURL (mkResource "acct" rawurl "" "") rels)
                 = "https://" +:+ escape after encodeHost
                   +:+ "/.well-known/webfinger?"
                   +:+ Join (map (fun rel => "rel=" +:+ QueryEscape rel) rels
                             ++ ["resource=" +:+ QueryEscape ("acct:" +:+ rawurl)])
                            "&").
  { change (JRDURL (mkResource "acct" rawurl "" "") rels)
      with (withScheme (JRDURL (mkResource "acct" rawurl "" "") rels) "https")
      at 1.
    rewrite (String_JRDURL _ rels "https" ltac:(done)).
    unfold JRDURL at 1. cbn [RawQuery]. rewrite Encode_query.
    unfold Resource_String.
    rewrite String_opaque_plain; [|done|by intros ->].
    rewrite Hraw at 1. by rewrite (WebFingerHost_acct _ _ Hbefore). }
  destruct (Client_Lookup_shape c rawurl rels t _ HP)
    as (result & tail & Htail & Htr).
  cbv zeta in Htr.
  assert (Hhead : head (gets (lookup c rawurl rels t).2)
                  = Some (String_ (JRDURL (mkResource "acct" rawurl "" "") rels))).
  { destruct Htr as [-> | [err ->]]; destruct Htail as [-> | ->]; reflexivity. }
  split; [by rewrite Hhead, Hurl|].
  intros Hplain. rewrite Hhead, Hurl. by rewrite (hostPlain_escape _ Hplain).
Qed.

End LookupTraces.

(** ** What [Parse] guarantees *)

Lemma Parse_inv rawurl r :
  Parse rawurl = Ok r ->
  Scheme r <> "" /\ exists raw, url.Parse raw = Ok r.
Proof.
  rewrite Parse_eq. destruct (url.Parse rawurl) as [u|e] eqn:HP; [|done].
  destruct (isEmpty (Scheme u)) eqn:Hs.
  - destruct (negb _); [done|]. rewrite Parse_eq.
    destruct (url.Parse ("acct:" +:+ rawurl)) as [u'|e] eqn:HP'; [|done].
    rewrite (url_Parse_acct_Scheme _ _ HP'). cbn [isEmpty].
    intros [= <-]. split; [by rewrite (url_Parse_acct_Scheme _ _ HP')|eauto].
  - intros [= <-]. apply isEmpty_false in Hs. eauto.
Qed.

Lemma pathByte_text s :
  stringContainsCTLByte s = false -> oneOf "#" s = false ->
  oneOf "?" s = false -> allBytes pathByte s = true.
Proof.
  unfold stringContainsCTLByte. intros Hc%negb_false_iff.
  induction s as [|c s IH]; [done|]. cbn [allBytes oneOf] in *.
  apply andb_true_iff in Hc as [Hc Hs].
  intros [Hh Ho]%orb_false_iff [Hq Hoq]%orb_false_iff.
  rewrite (IH Hs Ho Hoq), andb_true_r. unfold pathByte, isCTL.
  rewrite Hc, andb_true_r. cbn [oneOf].
  rewrite (Ascii.eqb_sym c "#"), Hh, (Ascii.eqb_sym c "?"), Hq. done.
Qed.

Lemma stringContainsCTLByte_take n s :
  stringContainsCTLByte s = false -> stringContainsCTLByte (take n s) = false.
Proof.
  unfold stringContainsCTLByte. intros H%negb_false_iff.
  apply negb_false_iff. by apply allBytes_take.
Qed.

Lemma stringContainsCTLByte_drop n s :
  stringContainsCTLByte s = false -> stringContainsCTLByte (drop n s) = false.
Proof.
  unfold stringContainsCTLByte. intros H%negb_false_iff.
  apply negb_false_iff. by apply allBytes_drop.
Qed.

Lemma oneOf_take c n s : oneOf c s = false -> oneOf c (take n s) = false.
Proof. rewrite !oneOf_allBytes. apply allBytes_take. Qed.

Lemma parse_parsedURL raw u :
  parse raw false = Ok u -> oneOf "#" raw = false ->
  Scheme u <> "" -> parsedURL u.
Proof.
  unfold parse. destruct (stringContainsCTLByte raw) eqn:HCTL; [done|].
  rewrite andb_false_r.
  destruct (String.eqb raw "*"); [by intros [= <-]|].
  destruct (getScheme raw) as [[s0 rest]|e] eqn:Hgs; [|done]. cbn [bindE].
  destruct (splitQuery rest) as [[r fq] rq] eqn:Hsq.
  intros Hparse Hhash Hs.
  assert (Hscheme : Scheme u = ToLower s0).
  { revert Hparse.
    destruct (negb (HasPrefix r "/") && negb (isEmpty (ToLower s0)));
      [by intros [= <-]|].
    destruct (_ && false); [done|]. destruct (_ && Contains _ _); [done|].
    destruct (if _ && HasPrefix r "//" then _ else _) as [[[[? ?] ?] ?]|];
      [|done].
    cbn [bindE]. destruct (setPath _) as [[? ?]|]; [|done]. by intros [= <-]. }
  rewrite Hscheme in Hs.
  apply getScheme_inv in Hgs as [Hs0 [n ->]].
  pose proof (splitQuery_inv _ _ _ _ Hsq) as [[m Hrq] Hfq].
  apply splitQuery_rest in Hsq as [[k Hr] Hrq0].
  assert (Hsch : validScheme (ToLower s0) = true /\
                 ToLower (ToLower s0) = ToLower s0).
  { destruct Hs0 as [-> | Hv]; [done|].
    split; [by apply ToLower_valid | apply ToLower_idem]. }
  assert (Hquery : allBytes queryByte rq = true).
  { subst rq. do 2 apply allBytes_drop. by apply queryByte_text. }
  assert (Hrb : allBytes pathByte r = true).
  { apply pathByte_text; [| |done].
    - rewrite Hr. by apply stringContainsCTLByte_take, stringContainsCTLByte_drop.
    - rewrite Hr. by apply oneOf_take, oneOf_drop. }
  assert (Hne : isEmpty (ToLower s0) = false) by (by apply isEmpty_false).
  revert Hparse. rewrite Hne. cbn [negb orb]. rewrite andb_true_r.
  destruct (HasPrefix r "/") eqn:Hslash; cbn [negb andb].
  2: { intros [= <-]. constructor;
         cbn [Scheme Opaque User_ Host Path RawPath OmitHost ForceQuery
              RawQuery Fragment RawFragment];
         [done | done | by left | done | by left]. }
  destruct (HasPrefix r "//") eqn:Hss.
  - set (auth := drop 2 r).
    assert (exists a p, rooted p /\
              match Index auth "/" with
              | Some i => (take i auth, drop i auth)
              | None => (auth, "")
              end = (a, p)) as (a & p & Hroot & Hsplit).
    { destruct (Index auth "/") as [i|] eqn:HI.
      - eexists _, _. split; [|done]. right.
        by apply Index_Some_split in HI as (_ & HI & _).
      - eexists _, _. split; [|done]. by left. }
    rewrite Hsplit.
    destruct (parseAuthority a) as [[user host]|e] eqn:HPA; [|done].
    cbn [bindE].
    destruct (setPath p) as [[path rawPath]|e] eqn:HSP; [|done]. cbn [bindE].
    intros [= <-].
    apply parseAuthority_inv in HPA as [Huser Hhost].
    constructor;
      cbn [Scheme Opaque User_ Host Path RawPath OmitHost ForceQuery
           RawQuery Fragment RawFragment];
      [done | done | | done | by left].
    right. left. split_and!; eauto.
  - cbn [bindE].
    destruct (setPath r) as [[path rawPath]|e] eqn:HSP; [|done]. cbn [bindE].
    intros [= <-].
    constructor;
      cbn [Scheme Opaque User_ Host Path RawPath OmitHost ForceQuery
           RawQuery Fragment RawFragment];
      [done | done | | done | by left].
    right. right. split_and!; eauto.
Qed.

Lemma parsedURL_withFragment u f0 f rf :
  parsedURL u -> f0 <> "" -> setFragment f0 = Ok (f, rf) ->
  parsedURL (withFragment u f rf).
Proof.
  intros [Hs Ho Hsh Hq _] Hne Hf. constructor; try done.
  right. by exists f0.
Qed.

Lemma url_Parse_parsedURL raw u :
  url.Parse raw = Ok u -> Scheme u <> "" -> parsedURL u.
Proof.
  unfold url.Parse.
  destruct (Cut_byte_cases "#" raw) as [[Hn HC] | (a & b & -> & Hn & HC)];
    rewrite HC.
  - destruct (parse raw false) as [v|e] eqn:Hp; [|done]. cbn [isEmpty].
    intros [= <-]. by apply (parse_parsedURL raw).
  - destruct (parse a false) as [v|e] eqn:Hp; [|done].
    destruct (isEmpty b) eqn:Hb.
    + intros [= <-]. by apply (parse_parsedURL a).
    + destruct (setFragment b) as [[f rf]|e] eqn:Hf; [|done].
      intros [= <-]. cbn [withFragment Scheme]. intros Hs.
      apply (parsedURL_withFragment _ b); [|by apply isEmpty_false|done].
      by apply (parse_parsedURL a).
Qed.

(** ** The round trip of a URL without a host *)

Lemma withFragment_id u : withFragment u (Fragment u) (RawFragment u) = u.
Proof. by destruct u. Qed.

(** The part of the round trip that all shapes share: the text [s0]
    that [String] writes before the fragment has no ["#"] and parses to
    [u0], which agrees with [u] up to the fragment. *)
Lemma roundtrip_frame (u u0 : URL) (s0 : string) :
  oneOf "#" s0 = false ->
  parse s0 false = Ok u0 ->
  String_ u = s0 +:+ fragText u ->
  (forall f rf, String_ (withFragment u0 f rf)
                = s0 +:+ fragText (withFragment u0 f rf)) ->
  Fragment u0 = "" -> RawFragment u0 = "" ->
  Scheme u = Scheme u0 -> Opaque u = Opaque u0 -> User_ u = User_ u0 ->
  Host u = Host u0 -> Path u = Path u0 -> OmitHost u = OmitHost u0 ->
  ForceQuery u = ForceQuery u0 -> RawQuery u = RawQuery u0 ->
  (Fragment u = "" \/ exists f, setFragment f = Ok (Fragment u, RawFragment u)) ->
  exists u', url.Parse (String_ u) = Ok u' /\ equivalent u u'.
Proof.
  intros Hhash Hparse Hform Hform0 Hf0 Hrf0 H1 H2 H3 H4 H5 H6 H7 H8 Hfrag.
  rewrite Hform. unfold url.Parse, fragText at 1.
  destruct (isEmpty (Fragment u)) eqn:Hfe; cbn [negb].
  - rewrite sapp_nil_r, (Cut_byte_None "#" _ Hhash), Hparse. cbn [isEmpty].
    exists u0. split; [done|]. apply isEmpty_true in Hfe.
    unfold equivalent. split_and!; try done; [congruence|].
    rewrite Hform. rewrite <- (withFragment_id u0) at 1. rewrite Hform0.
    unfold fragText. cbn [withFragment Fragment]. by rewrite Hfe, Hf0.
  - destruct Hfrag as [Hf | [f Hf]]; [by rewrite Hf in Hfe|].
    destruct (EscapedFragment_roundtrip u f Hf) as (Hne & rf & Hsf & Hef).
    apply isEmpty_false in Hfe. specialize (Hne Hfe). apply isEmpty_false in Hne.
    change ("#" +:+ EscapedFragment u) with (String "#" (EscapedFragment u)).
    rewrite (Cut_byte_app "#" _ _ Hhash), Hparse, Hne, Hsf.
    eexists. split; [done|].
    unfold equivalent. cbn [withFragment Scheme Opaque User_ Host Path
                            OmitHost ForceQuery RawQuery Fragment].
    split_and!; try done.
    rewrite Hform, Hform0.
    unfold fragText. cbn [withFragment Fragment].
    by rewrite (Hef (withFragment u0 (Fragment u) rf)).
Qed.

(** [String] on a URL with a scheme and nothing between the scheme
    and the query but an opaque part, which may be empty. *)
Lemma String_opaque (u : URL) :
  Scheme u <> "" -> User_ u = None -> Host u = "" -> Path u = "" ->
  RawPath u = "" -> OmitHost u = false ->
  String_ u = (Scheme u +:+ String ":" (Opaque u +:+ queryText u))
              +:+ fragText u.
Proof.
  intros Hs Hu Hh Hp Hrp Hom. unfold String_, EscapedPath, queryText, fragText.
  rewrite Hu, Hh, Hp, Hrp, Hom. apply isEmpty_false in Hs. rewrite Hs.
  assert (bool_decide (is_Some (@None Userinfo)) = false) as -> by done.
  cbn [isEmpty negb orb andb escape String.eqb].
  assert (Hbuf : forall x y, isEmpty (Scheme u +:+ x) && y = false).
  { intros x y. rewrite isEmpty_sapp, Hs. done. }
  destruct (isEmpty (Opaque u)) eqn:Ho; cbn [negb].
  - apply isEmpty_true in Ho. rewrite Ho.
    rewrite ?Hbuf.
    destruct (ForceQuery u || negb (isEmpty (RawQuery u)));
    destruct (negb (isEmpty (Fragment u)));
    repeat (rewrite ?sapp_assoc, ?sapp_nil_r; cbn [String.append]);
    reflexivity.
  - destruct (ForceQuery u || negb (isEmpty (RawQuery u)));
    destruct (negb (isEmpty (Fragment u)));
    repeat (rewrite ?sapp_assoc, ?sapp_nil_r; cbn [String.append]);
    reflexivity.
Qed.

(** [parse] on the text of a URL with an opaque part. *)
Lemma parse_opaque_text scheme opaque (fq : bool) rq :
  validScheme scheme = true -> ToLower scheme = scheme ->
  HasPrefix opaque "/" = false -> allBytes pathByte opaque = true ->
  allBytes queryByte rq = true -> (fq = true -> rq = "") ->
  let s0 := scheme +:+ String ":"
              (opaque +:+ (if fq || negb (isEmpty rq) then "?" +:+ rq else "")) in
  oneOf "#" s0 = false /\
  parse s0 false =
    Ok {| Scheme := scheme; Opaque := opaque; User_ := None;
          Host := ""; Path := ""; RawPath := "";
          OmitHost := false; ForceQuery := fq; RawQuery := rq;
          Fragment := ""; RawFragment := "" |}.
Proof.
  intros Hsch Hlow Hsl Hop Hq Hfq. cbv zeta.
  set (qt := if fq || negb (isEmpty rq) then "?" +:+ rq else "").
  assert (Hbytes : allBytes queryByte (scheme +:+ String ":" (opaque +:+ qt)) = true).
  { rewrite allBytes_app. cbn [allBytes].
    rewrite (validScheme_bytes queryByte scheme); [|intros c; each_byte c|done].
    rewrite allBytes_app.
    rewrite (allBytes_impl pathByte queryByte opaque); [|intros c; each_byte c|done].
    subst qt. destruct (fq || negb (isEmpty rq)); [|done].
    change ("?" +:+ rq) with (String "?" rq). cbn [allBytes]. by rewrite Hq. }
  split; [by apply (allBytes_oneOf queryByte "#")|].
  unfold parse.
  rewrite stringContainsCTLByte_false.
  2: { apply (allBytes_impl queryByte); [|done]. intros c. each_byte c. }
  rewrite andb_false_r.
  assert (String.eqb (scheme +:+ String ":" (opaque +:+ qt)) "*" = false) as ->.
  { apply String.eqb_neq. intros E. by destruct scheme as [|c [|d scheme]]. }
  rewrite (getScheme_valid _ _ Hsch). cbn [bindE]. rewrite Hlow.
  assert (Hsplit : splitQuery (opaque +:+ qt) = (opaque, fq, rq)).
  { assert (HA : oneOf "?" opaque = false) by (by apply (allBytes_oneOf pathByte)).
    subst qt. destruct fq.
    - rewrite (Hfq eq_refl). cbn [orb]. by apply splitQuery_force.
    - cbn [orb]. destruct rq as [|c rq]; cbn [isEmpty negb].
      + rewrite sapp_nil_r. by apply splitQuery_none.
      + by apply splitQuery_query. }
  rewrite Hsplit, Hsl.
  assert (isEmpty scheme = false) as -> by (by destruct scheme).
  reflexivity.
Qed.

(** [url.Parse] reads what [String] writes of a URL of the first
    shape, and finds an equivalent URL. *)
Lemma Parse_String_opaque (u : URL) :
  parsedURL u -> User_ u = None -> Host u = "" -> Path u = "" ->
  RawPath u = "" -> OmitHost u = false ->
  exists u', url.Parse (String_ u) = Ok u' /\ equivalent u u'.
Proof.
  intros [[Hv Hl] [Hsl Hop] _ [Hq Hfq] Hf] Hu Hh Hp Hrp Hom.
  assert (Hs : Scheme u <> "") by (by destruct (Scheme u)).
  destruct (parse_opaque_text (Scheme u) (Opaque u) (ForceQuery u) (RawQuery u)
              Hv Hl Hsl Hop Hq Hfq) as [Hhash Hparse].
  cbv zeta in Hhash, Hparse. fold (queryText u) in Hhash, Hparse.
  refine (roundtrip_frame u _ _ Hhash Hparse _ _ eq_refl eq_refl eq_refl
            eq_refl Hu Hh Hp Hom eq_refl eq_refl _).
  - by apply String_opaque.
  - intros f rf. by rewrite String_opaque.
  - destruct Hf as [[? _]|(f & _ & ?)]; eauto.
Qed.

(** [String] on a URL with a scheme, an empty host and a user or a
    path: the authority is written, though it is empty. *)
Lemma String_authority (u : URL) :
  Opaque u = "" -> Scheme u <> "" -> OmitHost u = false -> Host u = "" ->
  User_ u <> None \/ Path u <> "" ->
  String_ u = (Scheme u +:+ String ":" ("//" +:+ authText (User_ u) (Host u)
               +:+ EscapedPath u +:+ queryText u)) +:+ fragText u.
Proof.
  intros Ho Hs Hom Hh Hup. unfold String_, authText, queryText, fragText.
  rewrite Ho, Hom, Hh. apply isEmpty_false in Hs. rewrite Hs.
  cbn [isEmpty negb orb andb escape].
  assert (negb (isEmpty (Path u)) || bool_decide (is_Some (User_ u)) = true)
    as ->.
  { destruct Hup as [Hu|Hp].
    - destruct (User_ u); [|done]. by rewrite orb_true_r.
    - apply isEmpty_false in Hp. by rewrite Hp. }
  rewrite !andb_false_r.
  assert (Hbuf : forall x y, isEmpty (Scheme u +:+ x) && y = false).
  { intros x y. rewrite isEmpty_sapp, Hs. done. }
  destruct (User_ u) as [ui|];
    rewrite ?sapp_assoc, ?Hbuf;
    destruct (ForceQuery u || negb (isEmpty (RawQuery u)));
    destruct (negb (isEmpty (Fragment u)));
    repeat (rewrite ?sapp_assoc, ?sapp_nil_r; cbn [String.append]);
    reflexivity.
Qed.

(** [String] on a URL with a scheme and a path but no authority. *)
Lemma String_omit (u : URL) :
  Opaque u = "" -> Scheme u <> "" -> OmitHost u = true -> Host u = "" ->
  User_ u = None ->
  String_ u = (Scheme u +:+ String ":" (EscapedPath u +:+ queryText u))
              +:+ fragText u.
Proof.
  intros Ho Hs Hom Hh Hu. unfold String_, queryText, fragText.
  rewrite Ho, Hom, Hh, Hu. apply isEmpty_false in Hs. rewrite Hs.
  rewrite (bool_decide_eq_true_2 (@None Userinfo = None)) by done.
  cbn [isEmpty negb orb andb]. rewrite !andb_false_r.
  assert (Hbuf : forall x y, isEmpty (Scheme u +:+ x) && y = false).
  { intros x y. rewrite isEmpty_sapp, Hs. done. }
  rewrite ?Hbuf.
  destruct (ForceQuery u || negb (isEmpty (RawQuery u)));
    destruct (negb (isEmpty (Fragment u)));
    repeat (rewrite ?sapp_assoc, ?sapp_nil_r; cbn [String.append]);
    reflexivity.
Qed.

(** [parse] on the text of a URL with a path and no authority. *)
Lemma parse_omit_text scheme ep path rp (fq : bool) rq :
  validScheme scheme = true -> ToLower scheme = scheme ->
  HasPrefix ep "/" = true -> HasPrefix ep "//" = false ->
  allBytes pathByte ep = true -> setPath ep = Ok (path, rp) ->
  allBytes queryByte rq = true -> (fq = true -> rq = "") ->
  let s0 := scheme +:+ String ":"
              (ep +:+ (if fq || negb (isEmpty rq) then "?" +:+ rq else "")) in
  oneOf "#" s0 = false /\
  parse s0 false =
    Ok {| Scheme := scheme; Opaque := ""; User_ := None;
          Host := ""; Path := path; RawPath := rp;
          OmitHost := true; ForceQuery := fq; RawQuery := rq;
          Fragment := ""; RawFragment := "" |}.
Proof.
  intros Hsch Hlow Hsl Hss Hop Hset Hq Hfq. cbv zeta.
  set (qt := if fq || negb (isEmpty rq) then "?" +:+ rq else "").
  assert (Hbytes : allBytes queryByte (scheme +:+ String ":" (ep +:+ qt)) = true).
  { rewrite allBytes_app. cbn [allBytes].
    rewrite (validScheme_bytes queryByte scheme); [|intros c; each_byte c|done].
    rewrite allBytes_app.
    rewrite (allBytes_impl pathByte queryByte ep); [|intros c; each_byte c|done].
    subst qt. destruct (fq || negb (isEmpty rq)); [|done].
    change ("?" +:+ rq) with (String "?" rq). cbn [allBytes]. by rewrite Hq. }
  split; [by apply (allBytes_oneOf queryByte "#")|].
  unfold parse.
  rewrite stringContainsCTLByte_false.
  2: { apply (allBytes_impl queryByte); [|done]. intros c. each_byte c. }
  rewrite andb_false_r.
  assert (String.eqb (scheme +:+ String ":" (ep +:+ qt)) "*" = false) as ->.
  { apply String.eqb_neq. intros E. by destruct scheme as [|c [|d scheme]]. }
  rewrite (getScheme_valid _ _ Hsch). cbn [bindE]. rewrite Hlow.
  assert (Hsplit : splitQuery (ep +:+ qt) = (ep, fq, rq)).
  { assert (HA : oneOf "?" ep = false) by (by apply (allBytes_oneOf pathByte)).
    subst qt. destruct fq.
    - rewrite (Hfq eq_refl). cbn [orb]. by apply splitQuery_force.
    - cbn [orb]. destruct rq as [|c rq]; cbn [isEmpty negb].
      + rewrite sapp_nil_r. by apply splitQuery_none.
      + by apply splitQuery_query. }
  rewrite Hsplit, Hsl, Hss.
  assert (isEmpty scheme = false) as -> by (by destruct scheme).
  cbn [negb andb orb bindE]. rewrite ?andb_false_r. cbn [negb andb orb bindE].
  by rewrite Hset.
Qed.

Lemma setPath_empty p rp : setPath p = Ok ("", rp) -> p = "" /\ rp = "".
Proof.
  unfold setPath. destruct (unescape p encodePath) as [t|] eqn:Hu; [|done].
  cbn [bindE]. intros H.
  assert (t = "") as -> by (by destruct (String.eqb _ _); injection H).
  destruct p as [|c p].
  - split; [done|]. revert H. by intros [= <-].
  - by destruct (unescape_nonempty _ _ _ Hu).
Qed.

(** [url.Parse] reads what [String] writes of a URL without a host,
    and finds an equivalent URL, unless the URL has no authority and
    the path that [String] writes starts with two slashes. *)
Lemma Parse_String_hostless (u : URL) :
  parsedURL u -> Host u = "" ->
  (OmitHost u = true -> HasPrefix (EscapedPath u) "//" = false) ->
  exists u', url.Parse (String_ u) = Ok u' /\ equivalent u u'.
Proof.
  intros Hpu Hh Hdouble. pose proof Hpu as [[Hv Hl] Hop Hshape [Hq Hfq] Hf].
  assert (Hs : Scheme u <> "") by (by destruct (Scheme u)).
  assert (Hfrag : Fragment u = "" \/
                  exists f, setFragment f = Ok (Fragment u, RawFragment u)).
  { destruct Hf as [[? _]|(f & _ & ?)]; eauto. }
  destruct Hshape as [(Hu & _ & Hp & Hrp & Hom)
                     |[(Ho & Hom & Huser & _ & p & Hroot & Hset)
                      |(Ho & Hom & Hu & _ & p & Hsl & Hss & Hset)]].
  - by apply Parse_String_opaque.
  - destruct (EscapedPath_roundtrip u p Hroot Hset)
      as (Hroot' & Hpb & rp & Hset' & Hep).
    destruct (decide (User_ u = None /\ Path u = "")) as [[Hu Hp]|Hup].
    + rewrite Hp in Hset. apply setPath_empty in Hset as [_ Hrp].
      by apply Parse_String_opaque.
    + assert (User_ u <> None \/ Path u <> "") as Hup'.
      { destruct (User_ u); [by left|]. right. intros Hp. by apply Hup. }
      pose proof (parse_host_text (Scheme u) (User_ u) "" "" (EscapedPath u)
                    (Path u) rp (ForceQuery u) (RawQuery u)
                    Hv Hl Huser eq_refl eq_refl Hroot' Hpb Hset' Hq Hfq)
        as Hparse.
      pose proof (text_queryByte (Scheme u) (User_ u) "" (EscapedPath u)
                    (ForceQuery u) (RawQuery u) Hv Hpb Hq) as Hbytes.
      apply (allBytes_oneOf queryByte "#") in Hbytes; [|done].
      fold (queryText u) in Hparse, Hbytes.
      refine (roundtrip_frame u _ _ Hbytes Hparse _ _ eq_refl eq_refl eq_refl
                Ho eq_refl Hh eq_refl Hom eq_refl eq_refl Hfrag).
      * rewrite (String_authority u Ho Hs Hom Hh Hup'). by rewrite Hh.
      * intros f rf.
        rewrite String_authority;
          cbn [withFragment hostURL Opaque Scheme Host OmitHost User_ Path];
          [|done..].
        rewrite (Hep (withFragment (hostURL (Scheme u) (User_ u) "" (Path u) rp
                                      (ForceQuery u) (RawQuery u)) f rf))
          by done.
        reflexivity.
  - assert (Hroot : rooted p) by (by right).
    destruct (EscapedPath_roundtrip u p Hroot Hset)
      as (Hroot' & Hpb & rp & Hset' & Hep).
    assert (Hsl' : HasPrefix (EscapedPath u) "/" = true).
    { destruct Hroot' as [He|?]; [|done]. exfalso.
      rewrite He in Hset'. injection Hset' as HP _.
      rewrite <- HP in Hset. apply setPath_empty in Hset as [-> _]. done. }
    destruct (parse_omit_text (Scheme u) (EscapedPath u) (Path u) rp
                (ForceQuery u) (RawQuery u)
                Hv Hl Hsl' (Hdouble Hom) Hpb Hset' Hq Hfq) as [Hhash Hparse].
    cbv zeta in Hhash, Hparse. fold (queryText u) in Hhash, Hparse.
    refine (roundtrip_frame u _ _ Hhash Hparse _ _ eq_refl eq_refl eq_refl
              Ho Hu Hh eq_refl Hom eq_refl eq_refl Hfrag).
    + by apply String_omit.
    + intros f rf. rewrite String_omit by done.
      match goal with
      | |- context [EscapedPath ?v] =>
          lazymatch v with
          | u => fail
          | _ => rewrite (Hep v) by done
          end
      end.
      reflexivity.
Qed.

Lemma Parse_of_url_Parse raw u :
  url.Parse raw = Ok u -> Scheme u <> "" -> Parse raw = Ok u.
Proof.
  intros HP Hs. rewrite Parse_eq, HP. by apply isEmpty_false in Hs as ->.
Qed.

Lemma setPath_rooted p path rp : setPath p = Ok (path, rp) -> rooted p -> rooted path.
Proof.
  unfold setPath. destruct (unescape p encodePath) as [t|] eqn:Hu; [|done].
  cbn [bindE]. intros H Hp.
  assert (path = t) as -> by (by destruct (String.eqb _ _); injection H).
  by apply (unescape_rooted p).
Qed.

(** X3: what a Resource from [Parse] always looks like.  Its scheme is
    well formed and in lower case.  It has an opaque part, which does
    not start with ["/"] and holds no ["?"] or ["#"], and then no user,
    host or path; or it has a path, which is empty or starts with
    ["/"].  Only a Resource without user and host, and with a path,
    is marked as written without authority.  A forced query is empty,
    and a query holds no ["#"]. *)
Theorem Parse_invariants (rawurl : string) (r : Resource) :
  Parse rawurl = Ok r ->
  (validScheme (Scheme r) = true /\ ToLower (Scheme r) = Scheme r) /\
  (HasPrefix (Opaque r) "/" = false /\ oneOf "?" (Opaque r) = false /\
   oneOf "#" (Opaque r) = false) /\
  (Opaque r <> "" ->
   User_ r = None /\ Host r = "" /\ Path r = "" /\ OmitHost r = false) /\
  (Path r = "" \/ HasPrefix (Path r) "/" = true) /\
  (OmitHost r = true ->
   User_ r = None /\ Host r = "" /\ HasPrefix (Path r) "/" = true) /\
  (ForceQuery r = true -> RawQuery r = "") /\
  oneOf "#" (RawQuery r) = false.
Proof.
  intros [Hs [raw HP]]%Parse_inv.
  destruct (url_Parse_parsedURL raw r HP Hs)
    as [Hsch [Hsl Hop] Hshape [Hq Hfq] _].
  split; [done|]. split.
  { split; [done|]. split; by apply (allBytes_oneOf pathByte). }
  split.
  { intros Ho. destruct Hshape as [(? & ? & ? & _ & ?)|[(Ho' & _)|(Ho' & _)]];
      done. }
  split.
  { destruct Hshape as [(_ & _ & -> & _)
                       |[(_ & _ & _ & _ & p & Hroot & Hset)
                        |(_ & _ & _ & _ & p & Hp & _ & Hset)]].
    - by left.
    - by apply (setPath_rooted p _ _ Hset).
    - apply (setPath_rooted p _ _ Hset). by right. }
  split.
  { intros Hom.
    destruct Hshape as [(_ & _ & _ & _ & Hom')
                       |[(_ & Hom' & _)
                        |(_ & _ & Hu & Hh & p & Hp & _ & Hset)]];
      [congruence..|].
    split; [done|]. split; [done|].
    destruct (setPath_rooted p _ _ Hset ltac:(by right)) as [He|?]; [|done].
    rewrite He in Hset. apply setPath_empty in Hset as [-> _]. done. }
  split; [done|]. by apply (allBytes_oneOf queryByte).
Qed.

Lemma Parse_invariants_witness :
  validScheme "mailto" = true /\ Host (mkResource "mailto" "Bob@Example.com" "" "") = "".
Proof.
  destruct (Parse_invariants "MAILTO:Bob@Example.com"
              (mkResource "mailto" "Bob@Example.com" "" ""))
    as ([H1 _] & _ & H3 & _); [by vm_compute|].
  split; [exact H1|]. by destruct H3 as (_ & H & _).
Defined.

(** X4: a Resource with an opaque part, as the [acct] and [mailto]
    ones are: [Parse] reads back what [String] writes of it, and finds an
    equivalent Resource, one with the same scheme, opaque part, query
    and fragment and the same [String]. *)
Theorem Parse_opaque_roundtrip (rawurl : string) (r : Resource) :
  Parse rawurl = Ok r -> Opaque r <> "" ->
  exists r', Parse (Resource_String r) = Ok r' /\ equivalent r r'.
Proof.
  intros [Hs [raw HP]]%Parse_inv Ho.
  pose proof (url_Parse_parsedURL raw r HP Hs) as Hpu.
  assert (Hh : Host r = "").
  { destruct Hpu as [_ _ [(_ & ? & _)|[(? & _)|(? & _)]] _ _]; done. }
  assert (Hom : OmitHost r = true -> HasPrefix (EscapedPath r) "//" = false).
  { intros Hom.
    destruct Hpu as [_ _ [(_ & _ & _ & _ & ?)|[(? & _)|(? & _)]] _ _];
      congruence. }
  destruct (Parse_String_hostless r Hpu Hh Hom) as (r' & Hr & Heq).
  exists r'. split; [|done]. unfold Resource_String.
  apply Parse_of_url_Parse; [done|]. destruct Heq as (Hsch & _). congruence.
Qed.

Lemma Parse_opaque_roundtrip_witness :
  exists r', Parse (Resource_String (mkResource "acct" "bob@example.com" "" ""))
             = Ok r' /\
             equivalent (mkResource "acct" "bob@example.com" "" "") r'.
Proof.
  apply (Parse_opaque_roundtrip "bob@example.com"); by vm_compute.
Defined.

(** X5: a Resource without host and opaque part, as that of
    ["file:///example"]: [Parse] reads back what [String] writes of it,
    and finds an equivalent Resource, provided the path that [String]
    writes does not start with two slashes when the Resource is marked
    as written without authority. *)
Theorem Parse_path_roundtrip (rawurl : string) (r : Resource) :
  Parse rawurl = Ok r -> Host r = "" -> Opaque r = "" ->
  (OmitHost r = true -> HasPrefix (EscapedPath r) "//" = false) ->
  exists r', Parse (Resource_String r) = Ok r' /\ equivalent r r'.
Proof.
  intros [Hs [raw HP]]%Parse_inv Hh _ Hom.
  pose proof (url_Parse_parsedURL raw r HP Hs) as Hpu.
  destruct (Parse_String_hostless r Hpu Hh Hom) as (r' & Hr & Heq).
  exists r'. split; [|done]. unfold Resource_String.
  apply Parse_of_url_Parse; [done|]. destruct Heq as (Hsch & _). congruence.
Qed.

Lemma Parse_path_roundtrip_witness :
  exists r', Parse (Resource_String (mkResource "file" "" "" "/example"))
             = Ok r' /\
             equivalent (mkResource "file" "" "" "/example") r'.
Proof.
  apply (Parse_path_roundtrip "file:///example"); by vm_compute.
Defined.

(** The proviso is needed: a path that decodes to two slashes, and
    that [String] has to escape anew, is written as an authority. *)
Example Parse_path_two_slashes :
  exists r, Parse "http:/%2F x" = Ok r /\ Host r = "" /\ Opaque r = "" /\
            OmitHost r = true /\ EscapedPath r = "//%20x" /\
            Resource_String r = "http://%20x" /\
            isOk (Parse (Resource_String r)) = false.
Proof. eexists. split; [by vm_compute|]. split_and!; by vm_compute. Qed.

(** ** Lookups of the canonical form *)

(** [Parse] reads back what [String] writes of any Resource it
    returned, under the two provisos of the round trips. *)
Lemma Parse_String_any rawurl r :
  Parse rawurl = Ok r -> zoneOK (Host r) = true ->
  (OmitHost r = true -> HasPrefix (EscapedPath r) "//" = false) ->
  exists r', Parse (Resource_String r) = Ok r' /\ equivalent r r'.
Proof.
  intros [Hs [raw HP]]%Parse_inv Hz Hom.
  assert (exists r', url.Parse (String_ r) = Ok r' /\ equivalent r r')
    as (r' & Hr & Heq).
  { destruct (decide (Host r = "")) as [Hh|Hh].
    - apply Parse_String_hostless; [|done..].
      by apply (url_Parse_parsedURL raw).
    - apply Parse_String_host; [|done..].
      by apply (url_Parse_parsedWithHost raw). }
  exists r'. split; [|done]. unfold Resource_String.
  apply Parse_of_url_Parse; [done|]. destruct Heq as (Hsch & _). congruence.
Qed.

(** Equivalent Resources have the same host to ask and the same query
    URL. *)
Lemma JRDURL_equivalent r r' rels :
  equivalent r r' ->
  Resource_String r = Resource_String r' /\ JRDURL r rels = JRDURL r' rels.
Proof.
  intros (Hs & Ho & _ & Hh & _ & _ & _ & _ & _ & Hstr).
  split; [done|]. unfold JRDURL, Resource_String, WebFingerHost.
  by rewrite Hs, Ho, Hh, Hstr.
Qed.

Section CanonicalLookup.

Context {T : Type}.
Variable httpGet : string -> T -> (Response + string) * T.
Variable errToLower : string -> string.
Variable readJSON : string -> option json.
Variable parseTime : string -> option Z.

Let lookup := Client_Lookup httpGet errToLower readJSON parseTime.

(** X18: looking up the canonical string form of a Resource is looking
    up the identifier it was parsed from: the calls and the result are
    the same.  This holds unless the host is an address literal whose
    zone, which is what starts at its first ["%"], holds a byte from
    0x80 up, or the Resource has a path without authority that
    [String] writes with two slashes in front.  A byte from 0x80 up
    before the zone is no exception. *)
Theorem Lookup_canonical c (identifier : string) (r : Resource) rels (t : T) :
  Parse identifier = Ok r -> zoneOK (Host r) = true ->
  (OmitHost r = true -> HasPrefix (EscapedPath r) "//" = false) ->
  lookup c (Resource_String r) rels t = lookup c identifier rels t.
Proof.
  intros HP Hz Hom.
  destruct (Parse_String_any identifier r HP Hz Hom) as (r' & HP' & Heq).
  destruct (JRDURL_equivalent r r' rels Heq) as [Hstr Hurl].
  subst lookup. unfold Client_Lookup, LookupResource.
  by rewrite HP, HP', Hstr, Hurl.
Qed.

End CanonicalLookup.

Lemma Lookup_canonical_witness :
  exampleLookup devClient "acct:bob@example.com" 0
  = exampleLookup devClient "bob@example.com" 0.
Proof.
  apply (Lookup_canonical refusedThenNotFound ToLower noJSON noTime
           devClient "bob@example.com"
           (mkResource "acct" "bob@example.com" "" "") [] 0);
    by vm_compute.
Defined.

(** ** The query of the query URL *)

Lemma QueryEscape_bytes s : allBytes queryEscaped (QueryEscape s) = true.
Proof. apply escape_allBytes. intros c. each_byte c. Qed.

Lemma unescape_escapeByte_query c rest :
  unescape (escapeByte c encodeQueryComponent +:+ rest) encodeQueryComponent =
  let* t := unescape rest encodeQueryComponent in Ok (String c t).
Proof. each_byte c. Qed.

Lemma QueryUnescape_QueryEscape s : QueryUnescape (QueryEscape s) = Ok s.
Proof.
  unfold QueryUnescape, QueryEscape. induction s as [|c s IH]; [done|].
  by rewrite escape_cons, unescape_escapeByte_query, IH.
Qed.

Lemma encodePair_bytes kv :
  oneOf "&" (encodePair kv) = false /\ oneOf ";" (encodePair kv) = false /\
  encodePair kv <> "" /\
  Cut (encodePair kv) "=" = (QueryEscape kv.1, QueryEscape kv.2, true).
Proof.
  unfold encodePair.
  pose proof (QueryEscape_bytes kv.1) as H1.
  pose proof (QueryEscape_bytes kv.2) as H2.
  change ("=" +:+ QueryEscape kv.2) with (String "=" (QueryEscape kv.2)).
  split_and!.
  - rewrite oneOf_app. cbn [oneOf Ascii.eqb Bool.eqb orb].
    by rewrite (allBytes_oneOf queryEscaped "&" _ eq_refl H1),
               (allBytes_oneOf queryEscaped "&" _ eq_refl H2).
  - rewrite oneOf_app. cbn [oneOf Ascii.eqb Bool.eqb orb].
    by rewrite (allBytes_oneOf queryEscaped ";" _ eq_refl H1),
               (allBytes_oneOf queryEscaped ";" _ eq_refl H2).
  - by destruct (QueryEscape kv.1).
  - apply Cut_byte_app. by apply (allBytes_oneOf queryEscaped).
Qed.

Lemma parseQuery_step m err piece rest kv :
  piece = encodePair kv ->
  Cut (piece +:+ rest) "&" = (piece, drop 1 rest, negb (isEmpty rest)) ->
  parseQuery m err (piece +:+ rest)
  = parseQuery (addValue m kv) err (drop 1 rest).
Proof.
  intros Hp HC.
  destruct (encodePair_bytes kv) as (Hamp & Hsemi & Hne & Hcut).
  rewrite <- Hp in *.
  destruct (piece +:+ rest) as [|c q] eqn:E.
  { by destruct piece. }
  rewrite parseQuery_equation_2. cbv zeta. rewrite HC. cbn [fst snd].
  rewrite Contains_byte, Hsemi.
  apply isEmpty_false in Hne. rewrite Hne, Hcut. cbn [fst snd].
  by rewrite !QueryUnescape_QueryEscape.
Qed.

Lemma parseQuery_pairs m err (kvs : list (string * string)) :
  parseQuery m err (Join (map encodePair kvs) "&")
  = (foldl addValue m kvs, err).
Proof.
  revert m. induction kvs as [|kv kvs IH]; intros m; [done|].
  destruct (encodePair_bytes kv) as (Hamp & Hsemi & Hne & Hcut).
  destruct kvs as [|kv' kvs].
  - cbn [map Join foldl].
    rewrite <- (sapp_nil_r (encodePair kv)).
    rewrite (parseQuery_step m err _ "" kv eq_refl).
    + done.
    + rewrite sapp_nil_r. by rewrite Cut_byte_None.
  - change (Join (map encodePair (kv :: kv' :: kvs)) "&")
      with (encodePair kv +:+ String "&" (Join (map encodePair (kv' :: kvs)) "&")).
    rewrite (parseQuery_step m err _ _ kv eq_refl).
    + cbn [drop foldl]. apply IH.
    + by rewrite Cut_byte_app.
Qed.

Lemma foldl_addValue_other m k (kvs : list (string * string)) :
  Forall (fun kv => kv.1 <> k) kvs ->
  foldl addValue m kvs !! k = m !! k.
Proof.
  revert m. induction kvs as [|kv kvs IH]; intros m; [done|].
  intros [Hk Hkvs]%Forall_cons. cbn [foldl]. rewrite IH by done.
  unfold addValue. by rewrite lookup_insert_ne.
Qed.

Lemma foldl_addValue_values m k v (vs : list string) :
  foldl addValue m (map (pair k) (v :: vs)) !! k
  = Some (default [] (m !! k) ++ v :: vs).
Proof.
  revert m v. induction vs as [|w vs IH]; intros m v.
  - cbn [map foldl]. unfold addValue. cbn [fst snd].
    by rewrite lookup_insert_eq.
  - change (map (pair k) (v :: w :: vs))
      with ((k, v) :: map (pair k) (w :: vs)).
    cbn [foldl]. rewrite IH. unfold addValue. cbn [fst snd].
    rewrite lookup_insert_eq. simpl. by rewrite <- app_assoc.
Qed.

(** X6: the query that [JRDURL] writes decodes, as a server decodes it with
    [ParseQuery], without error to the [resource], which is the
    [String] of the Resource, and to the relations in the order given:
    the key [rel] is bound to the list of the relations when there is
    at least one, and is absent when there is none, so that the values
    read under [rel] are the relations in both cases; there is no
    other key. *)
Theorem JRDURL_query_decodes (r : Resource) (rels : list string) :
  exists m, ParseQuery (RawQuery (JRDURL r rels)) = (m, None) /\
    m !! "resource" = Some [Resource_String r] /\
    m !! "rel" = match rels with [] => None | _ :: _ => Some rels end /\
    default [] (m !! "rel") = rels /\
    (forall k, k <> "resource" -> k <> "rel" -> m !! k = None) /\
    Get m "resource" = Resource_String r.
Proof.
  set (kvs := map (pair "rel") rels ++ [("resource", Resource_String r)]).
  assert (Hq : RawQuery (JRDURL r rels) = Join (map encodePair kvs) "&").
  { unfold JRDURL. cbn [RawQuery]. rewrite Encode_query. f_equal.
    subst kvs. rewrite map_app, map_map. done. }
  exists (foldl addValue ∅ kvs). unfold ParseQuery.
  rewrite Hq, parseQuery_pairs. split; [done|].
  assert (Hres : foldl addValue ∅ kvs !! "resource" = Some [Resource_String r]).
  { subst kvs. rewrite foldl_app. cbn [foldl]. unfold addValue at 1.
    cbn [fst snd]. rewrite lookup_insert_eq.
    rewrite foldl_addValue_other; [done|].
    apply Forall_forall. intros kv [x [-> _]]%list_elem_of_fmap. done. }
  assert (Hrel : foldl addValue ∅ kvs !! "rel"
                 = match rels with [] => None | _ :: _ => Some rels end).
  { subst kvs. rewrite foldl_app. cbn [foldl]. unfold addValue at 1.
    cbn [fst snd]. rewrite lookup_insert_ne by done.
    destruct rels as [|rel rels]; [done|].
    by rewrite foldl_addValue_values. }
  split_and!.
  - done.
  - done.
  - rewrite Hrel. by destruct rels.
  - intros k Hk1 Hk2. apply foldl_addValue_other.
    subst kvs. apply Forall_app. split.
    + apply Forall_forall. intros kv [x [-> _]]%list_elem_of_fmap. done.
    + by repeat constructor.
  - unfold Get. by rewrite Hres.
Qed.

Lemma Join_allBytes p (l : list string) sep :
  Forall (fun x => allBytes p x = true) l -> allBytes p sep = true ->
  allBytes p (Join l sep) = true.
Proof.
  intros Hl Hsep. induction Hl as [|x l Hx Hl IH]; [done|].
  destruct l as [|y l]; [done|].
  change (Join (x :: y :: l) sep) with (x +:+ sep +:+ Join (y :: l) sep).
  by rewrite !allBytes_app, Hx, Hsep, IH.
Qed.

Lemma RawQuery_JRDURL_bytes r rels :
  allBytes queryByte (RawQuery (JRDURL r rels)) = true.
Proof.
  unfold JRDURL. cbn [RawQuery]. rewrite Encode_query.
  assert (Hesc : forall s, allBytes queryByte (QueryEscape s) = true).
  { intros s. apply (allBytes_impl queryEscaped); [|apply QueryEscape_bytes].
    intros c. each_byte c. }
  apply Join_allBytes; [|done]. apply Forall_app. split.
  - apply Forall_forall. intros x [y [-> _]]%list_elem_of_fmap.
    change ("rel=" +:+ QueryEscape y)
      with (String "r" (String "e" (String "l" (String "=" (QueryEscape y))))).
    cbn [allBytes]. by rewrite Hesc.
  - constructor; [|done]. rewrite allBytes_app. by rewrite Hesc.
Qed.

Lemma Parse_host_parsed rawurl r :
  Parse rawurl = Ok r -> exists h0, parseHost h0 = Ok (Host r).
Proof.
  intros [Hs [raw HP]]%Parse_inv.
  destruct (url_Parse_parsedURL raw r HP Hs)
    as [_ _ [(_ & -> & _)|[(_ & _ & _ & Hh & _)|(_ & _ & _ & -> & _)]] _ _];
    [by exists ""|done|by exists ""].
Qed.

Lemma WebFingerHost_Host r : Host r <> "" -> WebFingerHost r = Host r.
Proof. intros H%isEmpty_false. unfold WebFingerHost. by rewrite H. Qed.

(** X7: the text of the query URL, which [fetchJRD] hands to the HTTP
    client, is a URL: [url.Parse] reads it back as a URL equivalent to
    the one [JRDURL] built, with the same host, path and query.  This
    holds for every Resource from [Parse] with a host, and for one
    without when the host to ask is a host as [url.Parse] decodes it;
    the one exception is a host that is an address literal whose
    zone, which is what starts at its first ["%"], holds a byte from
    0x80 up.  A byte from 0x80 up before the zone is no exception. *)
Theorem JRDURL_parses_back (identifier : string) (r : Resource)
  (rels : list string) :
  Parse identifier = Ok r ->
  (Host r = "" -> exists h0, parseHost h0 = Ok (WebFingerHost r)) ->
  zoneOK (WebFingerHost r) = true ->
  exists u', url.Parse (String_ (JRDURL r rels)) = Ok u' /\
             equivalent (JRDURL r rels) u'.
Proof.
  intros HP Hhost Hz.
  assert (Hh0 : exists h0, parseHost h0 = Ok (WebFingerHost r)).
  { destruct (Host r) as [|c h] eqn:E; [by apply Hhost|].
    rewrite WebFingerHost_Host by (by rewrite E).
    by apply (Parse_host_parsed identifier). }
  clear Hhost HP.
  pose proof (RawQuery_JRDURL_bytes r rels) as Hq.
  set (u := JRDURL r rels) in *.
  assert (Hpath : setPath "/.well-known/webfinger"
                  = Ok ("/.well-known/webfinger", "")) by done.
  destruct (decide (WebFingerHost r = "")) as [E|E].
  - apply Parse_String_hostless; [|exact E|intros [=]].
    constructor; subst u; cbn [JRDURL Scheme Opaque User_ Host Path RawPath
                               OmitHost ForceQuery RawQuery Fragment RawFragment].
    + split; reflexivity.
    + split; reflexivity.
    + right. left. split; [reflexivity|]. split; [reflexivity|].
      split; [intros ui [=]|]. split; [exact Hh0|].
      exists "/.well-known/webfinger". split; [by right|exact Hpath].
    + split; [exact Hq|intros [=]].
    + left. split; reflexivity.
  - apply Parse_String_host; [|exact E|exact Hz].
    constructor; subst u; cbn [JRDURL Scheme Opaque User_ Host Path RawPath
                               OmitHost ForceQuery RawQuery Fragment RawFragment].
    + reflexivity.
    + reflexivity.
    + split; reflexivity.
    + intros ui [=].
    + exact Hh0.
    + exists "/.well-known/webfinger". split; [by right|exact Hpath].
    + split; [exact Hq|intros [=]].
    + left. reflexivity.
Qed.

Lemma JRDURL_parses_back_witness :
  exists u',
    url.Parse (String_ (JRDURL (mkResource "acct" "bob@example.com" "" "") ["a"]))
    = Ok u' /\
    equivalent (JRDURL (mkResource "acct" "bob@example.com" "" "") ["a"]) u'.
Proof.
  apply (JRDURL_parses_back "bob@example.com").
  - by vm_compute.
  - intros _. exists "example.com". by vm_compute.
  - by vm_compute.
Defined.

(** ** The command-line tool *)

Section MainFacts.

Context {T : Type}.
Variable httpGet : string -> T -> (Response + string) * T.
Variable errToLower : string -> string.
Variable readJSON : string -> option json.
Variable parseTime : string -> option Z.

Let run := cmd.main httpGet errToLower readJSON parseTime.
Let lookup := Client_Lookup httpGet errToLower readJSON parseTime.

Lemma main_run verbose args t :
  nth 0 args "" <> "" ->
  run verbose args t =
  let out := lookup cmd.client (nth 0 args "") [] t in
  (match out.1.1 with inl _ => 0%Z | inr _ => 1%Z end,
   cmd.written (negb verbose) out.2
   ++ [match out.1.1 with
       | inl jrd => cmd.Encoded jrd
       | inr err => cmd.PrintlnError err
       end],
   out.1.2, out.2).
Proof.
  intros Hne%isEmpty_false. subst run lookup. unfold cmd.main. rewrite Hne.
  cbv zeta.
  destruct (Client_Lookup _ _ _ _ _ _ _ _) as [[[jrd|err] t'] tr]; done.
Qed.

(** X13: without a resource to look up, the tool asks nobody: when there is
    no argument, or the first one is empty, it prints the usage, and
    when the argument is no identifier for [Parse], it prints the
    error; in both cases it exits with status 1 and has made no request
    and written no log line, with or without [-v]. *)
Theorem main_no_resource verbose args t :
  (nth 0 args "" = "" -> run verbose args t = (1%Z, cmd.usage, t, [])) /\
  (forall err, nth 0 args "" <> "" -> Parse (nth 0 args "") = Err err ->
     run verbose args t = (1%Z, [cmd.PrintlnError err], t, [])).
Proof.
  split.
  - intros H. subst run. unfold cmd.main. by rewrite H.
  - intros err Hne HP. rewrite (main_run _ _ _ Hne). cbv zeta.
    subst lookup. unfold Client_Lookup. rewrite HP. cbn [fst snd ret].
    unfold cmd.written. by destruct verbose.
Qed.

Lemma written_app discard tr1 tr2 :
  cmd.written discard (tr1 ++ tr2)
  = cmd.written discard tr1 ++ cmd.written discard tr2.
Proof. unfold cmd.written. destruct discard; [done|]. apply omap_app. Qed.

(** The log lines of the tool's lookup all go to the standard logger. *)
Lemma main_written identifier t :
  let tr := (lookup cmd.client identifier [] t).2 in
  cmd.written false tr = map cmd.Logged (logLines tr) /\
  List.filter cmd.isLogged (cmd.written false tr) = cmd.written false tr /\
  List.filter (fun o => negb (cmd.isLogged o)) (cmd.written false tr) = [].
Proof.
  cbv zeta. subst lookup.
  destruct (Parse identifier) as [r|e] eqn:HP.
  2: { by rewrite (Client_Lookup_fail _ _ _ _ _ _ _ _ _ HP). }
  destruct (Client_Lookup_shape httpGet errToLower readJSON parseTime
              cmd.client identifier [] t r HP) as (result & tail & Htail & Htr).
  cbv zeta in Htr.
  generalize dependent (String_ (withScheme (JRDURL r []) "http")).
  generalize dependent (String_ (JRDURL r [])).
  generalize ("Looking up WebFinger data for " +:+ Resource_String r).
  intros line first second Htr.
  destruct Htr as [-> | [err ->]]; destruct Htail as [-> | ->]; done.
Qed.

(** X14: the flag [-v] changes the log lines and nothing else: the exit
    status, the requests and what else is written are the same with
    and without it.  Without it no log line is written; with it every
    line that the lookup logs is written, in order. *)
Theorem main_verbose args t :
  let quiet := run false args t in
  let loud := run true args t in
  quiet.1.1.1 = loud.1.1.1 /\ quiet.1.2 = loud.1.2 /\ quiet.2 = loud.2 /\
  quiet.1.1.2 = List.filter (fun o => negb (cmd.isLogged o)) loud.1.1.2 /\
  List.filter cmd.isLogged loud.1.1.2 = map cmd.Logged (logLines loud.2).
Proof.
  cbv zeta. destruct (decide (nth 0 args "" = "")) as [He|Hne].
  - assert (Hrun : forall v, run v args t = (1%Z, cmd.usage, t, [])).
    { intros v. subst run. unfold cmd.main. by rewrite He. }
    by rewrite !Hrun.
  - rewrite !(main_run _ _ _ Hne). cbv zeta. cbn [fst snd negb].
    destruct (main_written (nth 0 args "") t) as (Hw & Hlog & Hout).
    cbv zeta in Hw, Hlog, Hout.
    split_and!; [done..| |].
    + rewrite List.filter_app, Hout.
      by destruct (lookup cmd.client (nth 0 args "") [] t).1.1.
    + rewrite List.filter_app, Hlog, Hw.
      destruct (lookup cmd.client (nth 0 args "") [] t).1.1;
        cbn [List.filter cmd.isLogged]; by rewrite app_nil_r.
Qed.

(** X15: in a run in which [flag.Parse] has returned, which it does
    not for [-h] nor for a flag that is not defined, the tool exits
    with status 0 exactly when a GET of its lookup was answered with a
    status in 200..299 and a body that could be read and decoded; the
    document is then the last thing it writes.  In every other such
    run it exits with status 1. *)
Theorem main_exit_status verbose args t :
  let out := run verbose args t in
  (out.1.1.1 = 0%Z \/ out.1.1.1 = 1%Z) /\
  (out.1.1.1 = 0%Z <->
   exists url res content doc,
     In (EvGet url (inl res)) out.2 /\ (200 <= StatusCode res < 300)%Z /\
     Body res = inl content /\
     ParseJRD readJSON parseTime content = Ok doc /\
     last out.1.1.2 = Some (cmd.Encoded doc)).
Proof.
  cbv zeta. destruct (decide (nth 0 args "" = "")) as [He|Hne].
  - assert (Hrun : run verbose args t = (1%Z, cmd.usage, t, [])).
    { subst run. unfold cmd.main. by rewrite He. }
    rewrite Hrun. cbn [fst snd]. split; [by right|].
    split; [done|]. by intros (? & ? & ? & ? & [] & _).
  - rewrite (main_run _ _ _ Hne). cbv zeta. cbn [fst snd].
    set (identifier := nth 0 args "").
    split; [destruct (lookup _ _ _ _).1.1; auto|].
    split.
    + destruct (lookup cmd.client identifier [] t).1.1 as [doc|e] eqn:Hres;
        [|done].
      intros _.
      destruct (Parse identifier) as [r|e] eqn:HP.
      2: { subst lookup.
           by rewrite (Client_Lookup_fail _ _ _ _ _ _ _ _ _ HP) in Hres. }
      destruct (Client_Lookup_calls httpGet errToLower readJSON parseTime
                  cmd.client identifier [] t r HP)
        as (pre & lst & _ & _ & [(res & t1 & Hrun) | (err & t1 & Hrun)]);
        subst lookup; rewrite Hrun in *; clear Hrun; [|done].
      unfold answered in *.
      destruct (in2xx res) eqn:Hst; [|done]. cbn [fst snd] in *.
      destruct (Body res) as [content|e] eqn:Hbody; [|done].
      exists lst, res, content, doc.
      split; [rewrite !in_app_iff; cbn [In]; auto|].
      split; [by apply in2xx_true|]. split; [done|]. split; [done|].
      by rewrite last_snoc.
    + intros (url & res & content & doc & Hin & Hst & Hbody & Hdoc & _).
      destruct (Client_Lookup_answered httpGet errToLower readJSON parseTime
                  cmd.client identifier [] t url res Hin Hst) as [Hres _].
      subst lookup. rewrite Hres, Hbody, Hdoc. done.
Qed.

(** X16: the tool allows the fallback: when the GET for the https query URL
    fails with a refused connection, it issues a second GET, for the
    same URL with the scheme [http]. *)
Theorem main_fallback verbose args t r err t1 :
  nth 0 args "" <> "" -> Parse (nth 0 args "") = Ok r ->
  httpGet (String_ (JRDURL r [])) t = (inr err, t1) ->
  isRefused (errToLower err) = true ->
  gets (run verbose args t).2
  = [String_ (JRDURL r []); String_ (withScheme (JRDURL r []) "http")].
Proof.
  intros Hne HP Hget Href. rewrite (main_run _ _ _ Hne). cbv zeta. cbn [snd].
  subst lookup. rewrite (Client_Lookup_run _ _ _ _ _ _ _ _ _ HP). cbv zeta.
  rewrite Hget, Href. cbn [andb cmd.client AllowHTTP].
  destruct (httpGet _ t1) as [[res|err2] t2]; [|done].
  by rewrite gets_answered.
Qed.

End MainFacts.

Lemma Lookup_document_witness :
  (Client_Lookup alwaysOK ToLower stubJSON noTime DefaultClient
     "bob@example.com" [] 0).1.1 = Ok subjectJRD /\
  exists pre,
    (Client_Lookup alwaysOK ToLower stubJSON noTime DefaultClient
       "bob@example.com" [] 0).2
    = pre ++ [EvGet "https://example.com/.well-known/webfinger?resource=acct%3Abob%40example.com"
                (inl subjectOnly); EvReadAll; EvClose].
Proof.
  apply (Lookup_document alwaysOK ToLower stubJSON noTime DefaultClient
           "bob@example.com" [] 0
           "https://example.com/.well-known/webfinger?resource=acct%3Abob%40example.com"
           subjectOnly).
  - vm_compute. do 2 right. left. reflexivity.
  - simpl. lia.
Defined.

Lemma Lookup_logging_witness :
  head (exampleLookup devClient "bob@example.com" 0).2
  = Some (EvLog None "Looking up WebFinger data for acct:bob@example.com") /\
  (exampleLookup devClient "bob@example.com" 0).2 !! 3
  = Some (EvLog None
            "GET http://example.com/.well-known/webfinger?resource=acct%3Abob%40example.com").
Proof.
  destruct (Lookup_logging refusedThenNotFound ToLower noJSON noTime
              devClient "bob@example.com" [] 0
              (mkResource "acct" "bob@example.com" "" ""))
    as (H1 & _ & H3); [by vm_compute|].
  split; [exact H1|].
  destruct (H3 4 "http://example.com/.well-known/webfinger?resource=acct%3Abob%40example.com"
              (inl notFound)) as (j & [= <-] & Hj); [by vm_compute|].
  exact Hj.
Defined.

Lemma Lookup_https_only_witness :
  Lookup refusedThenNotFound ToLower noJSON noTime "bob@example.com" [] 0
  = (Err (TransportError
            "dial tcp 127.0.0.1:443: connect: Connection Refused"), 1,
     [EvLog None "Looking up WebFinger data for acct:bob@example.com";
      EvLog None
        "GET https://example.com/.well-known/webfinger?resource=acct%3Abob%40example.com";
      EvGet "https://example.com/.well-known/webfinger?resource=acct%3Abob%40example.com"
        (inr "dial tcp 127.0.0.1:443: connect: Connection Refused")]).
Proof.
  destruct (Lookup_https_only refusedThenNotFound ToLower noJSON noTime
              DefaultClient "bob@example.com" [] 0 eq_refl) as (_ & _ & H).
  apply (H (mkResource "acct" "bob@example.com" "" "")); by vm_compute.
Defined.

Lemma Lookup_empty_host_witness :
  head (gets (exampleLookup devClient "file:///example" 0).2)
  = Some "https:///.well-known/webfinger?resource=file%3A%2F%2F%2Fexample".
Proof.
  apply (Lookup_empty_host refusedThenNotFound ToLower noJSON noTime
           devClient "file:///example" [] 0
           (mkResource "file" "" "" "/example")); by vm_compute.
Defined.

Lemma main_fallback_witness :
  gets (cmd.main refusedThenNotFound ToLower noJSON noTime
          false ["bob@example.com"] 0).2
  = ["https://example.com/.well-known/webfinger?resource=acct%3Abob%40example.com";
     "http://example.com/.well-known/webfinger?resource=acct%3Abob%40example.com"].
Proof.
  apply (main_fallback refusedThenNotFound ToLower noJSON noTime false
           ["bob@example.com"] 0 (mkResource "acct" "bob@example.com" "" "")
           "dial tcp 127.0.0.1:443: connect: Connection Refused" 1);
    by vm_compute.
Defined.

Lemma Lookup_email_like_witness :
  exampleLookup DefaultClient "bob@example.com" 0
  = exampleLookup DefaultClient "acct:bob@example.com" 0 /\
  head (gets (exampleLookup DefaultClient "bob@example.com" 0).2)
  = Some "https://example.com/.well-known/webfinger?resource=acct%3Abob%40example.com" /\
  head (gets (exampleLookup DefaultClient "a@b@c" 0).2)
  = Some "https://b%40c/.well-known/webfinger?resource=acct%3Aa%40b%40c".
Proof.
  destruct (Lookup_email_like refusedThenNotFound ToLower noJSON noTime
              DefaultClient "bob@example.com" [] 0) as [H1 H2];
    [reflexivity..|].
  destruct (Lookup_email_like refusedThenNotFound ToLower noJSON noTime
              DefaultClient "a@b@c" [] 0) as [_ H3];
    [reflexivity..|].
  split; [exact H1|]. split.
  - exact (proj2 (H2 "bob" "example.com" eq_refl eq_refl) eq_refl).
  - exact (proj1 (H3 "a" "b@c" eq_refl eq_refl)).
Defined.
